(** * Consumer session manager and data-reliability auditor of lava

    A shallow embedding of the relay consumer's core:

    - package [lavaprotocol]: [ReplaceRequestedBlock],
      [DataReliabilityThresholdToSession], [compareRelaysFindConflict] and
      [VerifyReliabilityResults]; the salt of the relay data and the
      constructors of relay requests;
    - package [lavasession]: the [ConsumerSessionManager] with
      [UpdateAllProviders], [getValidProviderAddress], [blockProvider],
      [OnSessionFailure], [GetDataReliabilitySession] and the release
      functions of regular and data-reliability sessions; the reset of the
      valid addresses and the choice of a provider entry;
    - package [keeper] of module pairing: the compute units allowed to a
      client.

    Conventions.  Go's [uint64] and [int64] values are integers of [Z]; where
    the source does arithmetic on them the wrap-around is written out
    ([U64.add], [U64.sub]).  A Go [error] result is an [option Error] whose
    [None] is [nil].  A [map[K]V] is a [gmap K V], a [map[string]struct{}] a
    [gset string], a slice a [list].  Mutexes are a boolean [locked]; the
    manager's reader/writer lock guards whole function bodies and is not
    represented.  Objects reached through a pointer are passed to a function
    and handed back by it: every function below reaches each object through
    one path only.  Log output is left out. *)

From Stdlib Require Import ZArith Lia List Bool.
From Stdlib.Strings Require Import Byte.
From stdpp Require Import gmap strings list fin_maps.

Open Scope Z_scope.

(* stdpp's set_solver clears hypotheses that its own steps already removed *)
#[local] Set Warnings "-clear-no-such-hyp".

#[global] Instance byte_eq_decision : EqDecision byte := Byte.byte_eq_dec.

(** ** Machine integers *)

Module U64.

Definition modulus : Z := 2 ^ 64.

Definition wrap (x : Z) : Z := x mod modulus.

Definition add (x y : Z) : Z := wrap (x + y).

Definition sub (x y : Z) : Z := wrap (x - y).

(** [uint64(i)] for an [int64] value [i]. *)
Definition of_int64 (i : Z) : Z := wrap i.

Definition in_range (x : Z) : Prop := 0 <= x < modulus.

End U64.

(** ** Errors

    The sentinel errors of package lavasession that the modelled functions
    return or test for.  [OlderEpochError] is the anonymous error that
    [UpdateAllProviders] formats ("trying to update provider list for older
    epoch"); [FatalError] stands for [utils.LavaFormatFatal], which ends the
    process; [NilPointerPanic] is Go's run-time panic on a [nil] pointer. *)

Inductive Error : Type :=
| PairingListEmptyError
| UnreachableCodeError
| AddressIndexWasNotFoundError
| EpochMismatchError
| LockMisUseDetectedError
| SessionIsAlreadyBlockListedError
| NegativeComputeUnitsAmountError
| AllProviderEndpointsDisabledError
| NoDataReliabilitySessionWasCreatedError
| DataReliabilityAlreadySentThisEpochError
| DataReliabilityIndexOutOfRangeError
| DataReliabilityIndexRequestedIsOriginalProviderError
| DataReliabilityEpochMismatchError
| FailedToConnectToEndPointForDataReliabilityError
| InvalidVrfError
| OlderEpochError
| FatalError
| NilPointerPanic.

#[global] Instance Error_eq_dec : EqDecision Error.
Proof. solve_decision. Defined.

(** [e.Is(err)] for a sentinel [e] and an error result [err]. *)
Definition Is (e : Error) (err : option Error) : bool :=
  match err with
  | Some e' => bool_decide (e = e')
  | None => false
  end.

(** What the release functions observe of the error a relay ended with:
    the gRPC status code compared with the code of [SessionOutOfSyncError],
    and the three [Is] tests. *)
Record RelayError : Type := {
  statusCodeIsSessionOutOfSync : bool;
  isSessionOutOfSyncError : bool;
  isReportAndBlockProviderError : bool;
  isBlockProviderError : bool
}.

(** ** Package lavaprotocol *)

Module lavaprotocol.

Definition SupportedNumberOfVRFs : Z := 2.

Module RelayPrivateData.
Record t : Type := {
  ConnectionType : string;
  ApiUrl : string;
  Data : list byte;
  RequestBlock : Z;
  ApiInterface : string;
  Salt : list byte
}.
End RelayPrivateData.

Module RelayRequest.
Record t : Type := { RelayData : RelayPrivateData.t }.
End RelayRequest.

Module RelayReply.
Record t : Type := {
  Data : list byte;
  LatestBlock : Z
}.
End RelayReply.

(** [Request] and [Reply] are pointers in the source.  The functions below
    read [Reply.Data] without a [nil] check: they are meant for results that
    hold a reply, and the pointees stand here. *)
Module RelayResult.
Record t : Type := {
  Request : RelayRequest.t;
  Reply : RelayReply.t;
  ProviderAddress : string;
  Finalized : bool
}.
End RelayResult.

Module ConflictRelayData.
Record t : Type := {
  Reply : RelayReply.t;
  Request : RelayRequest.t
}.
End ConflictRelayData.

Module ResponseConflict.
Record t : Type := {
  ConflictRelayData0 : ConflictRelayData.t;
  ConflictRelayData1 : ConflictRelayData.t
}.
End ResponseConflict.

(** *** Requested block *)

Section RequestedBlock.

(** The block constants of package spectypes, which the switch of
    [ReplaceRequestedBlock] names; their values are not part of this
    package. *)
Variables LATEST_BLOCK SAFE_BLOCK FINALIZED_BLOCK EARLIEST_BLOCK NOT_APPLICABLE : Z.

Definition ReplaceRequestedBlock (requestedBlock latestBlock : Z) : Z :=
  if requestedBlock =? LATEST_BLOCK then latestBlock
  else if requestedBlock =? SAFE_BLOCK then latestBlock
  else if requestedBlock =? FINALIZED_BLOCK then latestBlock
  else if requestedBlock =? EARLIEST_BLOCK then NOT_APPLICABLE
  else requestedBlock.

Definition UpdateRequestedBlock (request : RelayPrivateData.t) (response : RelayReply.t)
  : RelayPrivateData.t :=
  {| RelayPrivateData.ConnectionType := RelayPrivateData.ConnectionType request;
     RelayPrivateData.ApiUrl := RelayPrivateData.ApiUrl request;
     RelayPrivateData.Data := RelayPrivateData.Data request;
     RelayPrivateData.RequestBlock :=
       ReplaceRequestedBlock (RelayPrivateData.RequestBlock request)
                             (RelayReply.LatestBlock response);
     RelayPrivateData.ApiInterface := RelayPrivateData.ApiInterface request;
     RelayPrivateData.Salt := RelayPrivateData.Salt request |}.

End RequestedBlock.

(** *** VRF outputs to pairing indexes *)

Section ThresholdToSession.

(** [utils.GetIndexForVrf vrf providersCount reliabilityThreshold], which
    lives outside this package: it returns the pairing index and an error;
    the index [-1] says that the VRF output calls for no audit. *)
Variable GetIndexForVrf : list byte -> Z -> Z -> Z * option Error.

(** The body of the [range vrfs] loop, from position [vrfIndex] on.
    [uniqueIdentifiers[vrfIndex]] panics when the slice is too short. *)
Fixpoint thresholdLoop (uniqueIdentifiers : list bool)
    (reliabilityThreshold originalProvidersCount : Z)
    (vrfIndex : nat) (vrfs : list (list byte)) (indexes : gmap Z bool)
  : option (gmap Z bool) :=
  match vrfs with
  | [] => Some indexes
  | vrf :: rest =>
      let '(index, err) := GetIndexForVrf vrf originalProvidersCount reliabilityThreshold in
      if (index =? -1) || bool_decide (err <> None) then
        thresholdLoop uniqueIdentifiers reliabilityThreshold originalProvidersCount
                      (S vrfIndex) rest indexes
      else
        match indexes !! index with
        | Some _ =>
            thresholdLoop uniqueIdentifiers reliabilityThreshold originalProvidersCount
                          (S vrfIndex) rest indexes
        | None =>
            match uniqueIdentifiers !! vrfIndex with
            | None => None
            | Some uniqueIdentifier =>
                thresholdLoop uniqueIdentifiers reliabilityThreshold originalProvidersCount
                              (S vrfIndex) rest (<[index := uniqueIdentifier]> indexes)
            end
        end
  end.

(** [None] is the index-out-of-range panic. *)
Definition DataReliabilityThresholdToSession (vrfs : list (list byte))
    (uniqueIdentifiers : list bool) (reliabilityThreshold originalProvidersCount : Z)
  : option (gmap Z bool) :=
  thresholdLoop uniqueIdentifiers reliabilityThreshold originalProvidersCount 0%nat vrfs ∅.

End ThresholdToSession.

(** Modelled from the spec: [utils.GetIndexForVrf] is not among the sources.
    Section 4.6, step 2: "compute idx = VrfToIndex(v_k, N=pairingSize,
    threshold); if the mapped value exceeds threshold, yield no index".  The
    mapped value is the little-endian [uint32] of the first four bytes (the
    number that [sendDataReliabilityRelayIfApplicable] logs for each VRF
    output), and the index is that value modulo the pairing size. *)
Definition LittleEndianUint32 (b : list byte) : option Z :=
  match b with
  | b0 :: b1 :: b2 :: b3 :: _ =>
      Some (Z.of_N (Byte.to_N b0)
            + 256 * (Z.of_N (Byte.to_N b1)
            + 256 * (Z.of_N (Byte.to_N b2)
            + 256 * Z.of_N (Byte.to_N b3))))
  | _ => None
  end.

Definition VrfToIndex (vrf : list byte) (providersCount reliabilityThreshold : Z)
  : Z * option Error :=
  match LittleEndianUint32 vrf with
  | None => (-1, Some InvalidVrfError)
  | Some vrf_num =>
      if (vrf_num <=? reliabilityThreshold) && (0 <? providersCount)
      then (vrf_num mod providersCount, None)
      else (-1, None)
  end.

(** *** Comparing replies *)

(** [bytes.Compare]: lexicographic order of byte slices. *)
Fixpoint bytes_Compare (a b : list byte) : Z :=
  match a, b with
  | [], [] => 0
  | [], _ :: _ => -1
  | _ :: _, [] => 1
  | x :: a', y :: b' =>
      match N.compare (Byte.to_N x) (Byte.to_N y) with
      | Lt => -1
      | Gt => 1
      | Eq => bytes_Compare a' b'
      end
  end.

(** The results are named, [(conflict bool, responseConflict
    *ResponseConflict)]: [conflict] starts as [false] and no statement
    assigns it, so that the bare [return] at the end hands back [false] with
    the record just built.  The second component is [nil] when the replies
    agree. *)
Definition compareRelaysFindConflict (result1 result2 : RelayResult.t)
  : bool * option ResponseConflict.t :=
  let conflict := false in
  let compare_result :=
    bytes_Compare (RelayReply.Data (RelayResult.Reply result1))
                  (RelayReply.Data (RelayResult.Reply result2)) in
  if compare_result =? 0 then (false, None)
  else
    let responseConflict :=
      Some {| ResponseConflict.ConflictRelayData0 :=
                {| ConflictRelayData.Reply := RelayResult.Reply result1;
                   ConflictRelayData.Request := RelayResult.Request result1 |};
              ResponseConflict.ConflictRelayData1 :=
                {| ConflictRelayData.Reply := RelayResult.Reply result2;
                   ConflictRelayData.Request := RelayResult.Request result2 |} |} in
    (conflict, responseConflict).

(** First loop of [VerifyReliabilityResults]: the original against every
    data-reliability result.  The state is [(conflict, conflicts)]. *)
Fixpoint compareWithOriginal (originalResult : RelayResult.t)
    (dataReliabilityResults : list RelayResult.t)
    (state : bool * list (option ResponseConflict.t))
  : bool * list (option ResponseConflict.t) :=
  match dataReliabilityResults with
  | [] => state
  | dataReliabilityResult :: rest =>
      let '(conflict_now, detectionMessage) :=
        compareRelaysFindConflict originalResult dataReliabilityResult in
      if conflict_now
      then compareWithOriginal originalResult rest (true, [detectionMessage])
      else compareWithOriginal originalResult rest state
  end.

(** Inner loop, [idx2] from [idx1 + 1] on. *)
Fixpoint compareWithLater (result1 : RelayResult.t) (later : list RelayResult.t)
    (conflicts : list (option ResponseConflict.t)) : list (option ResponseConflict.t) :=
  match later with
  | [] => conflicts
  | result2 :: rest =>
      let '(conflict_responses, moreDetectionMessages) :=
        compareRelaysFindConflict result1 result2 in
      if conflict_responses
      then compareWithLater result1 rest (conflicts ++ [moreDetectionMessages])
      else compareWithLater result1 rest conflicts
  end.

(** Outer loop, [idx1] over all data-reliability results. *)
Fixpoint compareAmongThemselves (dataReliabilityResults : list RelayResult.t)
    (conflicts : list (option ResponseConflict.t)) : list (option ResponseConflict.t) :=
  match dataReliabilityResults with
  | [] => conflicts
  | result1 :: later =>
      compareAmongThemselves later (compareWithLater result1 later conflicts)
  end.

Definition VerifyReliabilityResults (originalResult : RelayResult.t)
    (dataReliabilityResults : list RelayResult.t) (totalNumberOfSessions : Z)
  : bool * list (option ResponseConflict.t) :=
  let '(conflict, conflicts) :=
    compareWithOriginal originalResult dataReliabilityResults (false, []) in
  let conflicts :=
    if conflict then compareAmongThemselves dataReliabilityResults conflicts
    else conflicts in
  (conflict, conflicts).

(** *** Salt *)



Fixpoint UintLE (n : nat) (b : list byte) : Z :=
  match n, b with
  | S n', x :: b' => Z.of_N (Byte.to_N x) + 256 * UintLE n' b'
  | _, _ => 0
  end.

Definition GetSalt (requestData : RelayPrivateData.t) : Z :=
  let salt := RelayPrivateData.Salt requestData in
  if (length salt <? 8)%nat then 0 else UintLE 8 salt.



End lavaprotocol.

(** ** Package lavasession *)

Module I64.

Definition wrap (x : Z) : Z := (x + 2 ^ 63) mod 2 ^ 64 - 2 ^ 63.

Definition sub (x y : Z) : Z := wrap (x - y).

End I64.

Module lavasession.

Definition MaxConsecutiveConnectionAttempts : nat := 10.
Definition MaxSessionsAllowedPerProvider : Z := 1000.
Definition MaxAllowedBlockListedSessionPerProvider : Z := 3.
Definition MaximumNumberOfFailuresAllowedPerConsumerSession : Z := 3.
Definition RelayNumberIncrement : Z := 1.
Definition DataReliabilitySessionId : Z := 0.
Definition DataReliabilityRelayNumber : Z := 1.
Definition DataReliabilityCuSum : Z := 0.

(** *** Data *)

Record QualityOfServiceReport : Type := {
  Latency : Z;
  Availability : Z;
  Sync : Z
}.

Record QoSInfo : Type := {
  LastQoSReport : option QualityOfServiceReport;
  TotalRelays : Z
}.

Record Endpoint : Type := {
  NetworkAddress : string;
  Enabled : bool
}.

(** The session slot.  [locked] is the state of its mutex [lock]; the
    back pointer [Client] to the provider entry is the [parent] argument of
    the functions that follow it. *)
Record SingleConsumerSession : Type := {
  CuSum : Z;
  LatestRelayCu : Z;
  QoS : QoSInfo;
  SessionId : Z;
  RelayNum : Z;
  LatestBlock : Z;
  BlockListed : bool;
  ConsecutiveNumberOfFailures : Z;
  locked : bool
}.

Record ConsumerSessionsWithProvider : Type := {
  PublicLavaAddress : string;
  UsedComputeUnits : Z;
  MaxComputeUnits : Z;
  PairingEpoch : Z
}.

Record ConsumerSessionManager : Type := {
  pairing : gmap string ConsumerSessionsWithProvider;
  currentEpoch : Z;
  numberOfResets : Z;
  pairingAddresses : gmap Z string;
  pairingAddressesLength : Z;
  validAddresses : list string;
  addedToPurgeAndReport : gset string;
  pairingPurge : gmap string ConsumerSessionsWithProvider
}.

(** Field assignments. *)

Definition set_TotalRelays (q : QoSInfo) (v : Z) : QoSInfo :=
  {| LastQoSReport := LastQoSReport q; TotalRelays := v |}.

Definition set_CuSum (s : SingleConsumerSession) (v : Z) : SingleConsumerSession :=
  {| CuSum := v; LatestRelayCu := LatestRelayCu s; QoS := QoS s;
     SessionId := SessionId s; RelayNum := RelayNum s; LatestBlock := LatestBlock s;
     BlockListed := BlockListed s;
     ConsecutiveNumberOfFailures := ConsecutiveNumberOfFailures s; locked := locked s |}.

Definition set_LatestRelayCu (s : SingleConsumerSession) (v : Z) : SingleConsumerSession :=
  {| CuSum := CuSum s; LatestRelayCu := v; QoS := QoS s;
     SessionId := SessionId s; RelayNum := RelayNum s; LatestBlock := LatestBlock s;
     BlockListed := BlockListed s;
     ConsecutiveNumberOfFailures := ConsecutiveNumberOfFailures s; locked := locked s |}.

Definition set_QoS (s : SingleConsumerSession) (v : QoSInfo) : SingleConsumerSession :=
  {| CuSum := CuSum s; LatestRelayCu := LatestRelayCu s; QoS := v;
     SessionId := SessionId s; RelayNum := RelayNum s; LatestBlock := LatestBlock s;
     BlockListed := BlockListed s;
     ConsecutiveNumberOfFailures := ConsecutiveNumberOfFailures s; locked := locked s |}.

Definition set_RelayNum (s : SingleConsumerSession) (v : Z) : SingleConsumerSession :=
  {| CuSum := CuSum s; LatestRelayCu := LatestRelayCu s; QoS := QoS s;
     SessionId := SessionId s; RelayNum := v; LatestBlock := LatestBlock s;
     BlockListed := BlockListed s;
     ConsecutiveNumberOfFailures := ConsecutiveNumberOfFailures s; locked := locked s |}.

Definition set_LatestBlock (s : SingleConsumerSession) (v : Z) : SingleConsumerSession :=
  {| CuSum := CuSum s; LatestRelayCu := LatestRelayCu s; QoS := QoS s;
     SessionId := SessionId s; RelayNum := RelayNum s; LatestBlock := v;
     BlockListed := BlockListed s;
     ConsecutiveNumberOfFailures := ConsecutiveNumberOfFailures s; locked := locked s |}.

Definition set_BlockListed (s : SingleConsumerSession) (v : bool) : SingleConsumerSession :=
  {| CuSum := CuSum s; LatestRelayCu := LatestRelayCu s; QoS := QoS s;
     SessionId := SessionId s; RelayNum := RelayNum s; LatestBlock := LatestBlock s;
     BlockListed := v;
     ConsecutiveNumberOfFailures := ConsecutiveNumberOfFailures s; locked := locked s |}.

Definition set_ConsecutiveNumberOfFailures (s : SingleConsumerSession) (v : Z)
  : SingleConsumerSession :=
  {| CuSum := CuSum s; LatestRelayCu := LatestRelayCu s; QoS := QoS s;
     SessionId := SessionId s; RelayNum := RelayNum s; LatestBlock := LatestBlock s;
     BlockListed := BlockListed s;
     ConsecutiveNumberOfFailures := v; locked := locked s |}.

Definition set_locked (s : SingleConsumerSession) (v : bool) : SingleConsumerSession :=
  {| CuSum := CuSum s; LatestRelayCu := LatestRelayCu s; QoS := QoS s;
     SessionId := SessionId s; RelayNum := RelayNum s; LatestBlock := LatestBlock s;
     BlockListed := BlockListed s;
     ConsecutiveNumberOfFailures := ConsecutiveNumberOfFailures s; locked := v |}.

(** [consumerSession.lock.Unlock()] *)
Definition Unlock (s : SingleConsumerSession) : SingleConsumerSession := set_locked s false.

Definition set_UsedComputeUnits (p : ConsumerSessionsWithProvider) (v : Z)
  : ConsumerSessionsWithProvider :=
  {| PublicLavaAddress := PublicLavaAddress p; UsedComputeUnits := v;
     MaxComputeUnits := MaxComputeUnits p; PairingEpoch := PairingEpoch p |}.

Definition set_validAddresses (csm : ConsumerSessionManager) (v : list string)
  : ConsumerSessionManager :=
  {| pairing := pairing csm; currentEpoch := currentEpoch csm;
     numberOfResets := numberOfResets csm; pairingAddresses := pairingAddresses csm;
     pairingAddressesLength := pairingAddressesLength csm; validAddresses := v;
     addedToPurgeAndReport := addedToPurgeAndReport csm;
     pairingPurge := pairingPurge csm |}.

Definition set_addedToPurgeAndReport (csm : ConsumerSessionManager) (v : gset string)
  : ConsumerSessionManager :=
  {| pairing := pairing csm; currentEpoch := currentEpoch csm;
     numberOfResets := numberOfResets csm; pairingAddresses := pairingAddresses csm;
     pairingAddressesLength := pairingAddressesLength csm;
     validAddresses := validAddresses csm;
     addedToPurgeAndReport := v;
     pairingPurge := pairingPurge csm |}.

Definition set_numberOfResets (csm : ConsumerSessionManager) (v : Z)
  : ConsumerSessionManager :=
  {| pairing := pairing csm; currentEpoch := currentEpoch csm;
     numberOfResets := v; pairingAddresses := pairingAddresses csm;
     pairingAddressesLength := pairingAddressesLength csm;
     validAddresses := validAddresses csm;
     addedToPurgeAndReport := addedToPurgeAndReport csm;
     pairingPurge := pairingPurge csm |}.

(** *** Epoch *)

Definition atomicWriteCurrentEpoch (csm : ConsumerSessionManager) (epoch : Z)
  : ConsumerSessionManager :=
  {| pairing := pairing csm; currentEpoch := epoch;
     numberOfResets := numberOfResets csm; pairingAddresses := pairingAddresses csm;
     pairingAddressesLength := pairingAddressesLength csm;
     validAddresses := validAddresses csm;
     addedToPurgeAndReport := addedToPurgeAndReport csm;
     pairingPurge := pairingPurge csm |}.

Definition atomicReadCurrentEpoch (csm : ConsumerSessionManager) : Z := currentEpoch csm.

Definition GetAtomicPairingAddressesLength (csm : ConsumerSessionManager) : Z :=
  pairingAddressesLength csm.

(** *** Rotating the pairing *)

Section MapRange.

(** The order in which a [range] statement visits a map: Go leaves it
    unspecified.  It is an argument of the functions that range over a map;
    the theorems assume of it only that every entry is visited once
    ([rangeOrder m] is a permutation of [map_to_list m]). *)
Variable rangeOrder : forall V : Type, gmap Z V -> list (Z * V).

(** One iteration of the loop that fills [validAddresses]. *)
Definition fillValidAddress (st : list string * nat) (entry : Z * string)
  : list string * nat :=
  (<[snd st := snd entry]> (fst st), S (snd st)).

Definition setValidAddressesToDefaultValue (csm : ConsumerSessionManager)
  : ConsumerSessionManager :=
  let fresh := replicate (size (pairingAddresses csm)) EmptyString in
  set_validAddresses csm
    (fst (fold_left fillValidAddress (rangeOrder _ (pairingAddresses csm)) (fresh, 0%nat))).

(** One iteration of [for idx, provider := range pairingList]. *)
Definition installProvider (csm : ConsumerSessionManager)
    (entry : Z * ConsumerSessionsWithProvider) : ConsumerSessionManager :=
  {| pairing := <[PublicLavaAddress (snd entry) := snd entry]> (pairing csm);
     currentEpoch := currentEpoch csm;
     numberOfResets := numberOfResets csm;
     pairingAddresses := <[fst entry := PublicLavaAddress (snd entry)]> (pairingAddresses csm);
     pairingAddressesLength := pairingAddressesLength csm;
     validAddresses := validAddresses csm;
     addedToPurgeAndReport := addedToPurgeAndReport csm;
     pairingPurge := pairingPurge csm |}.

(** The deferred probe of the new providers runs in a goroutine of its own
    and reports to the provider optimizer only; closing the connections of
    the entries purged two epochs ago touches no field of the manager. *)
Definition UpdateAllProviders (csm : ConsumerSessionManager) (epoch : Z)
    (pairingList : gmap Z ConsumerSessionsWithProvider)
  : option Error * ConsumerSessionManager :=
  let pairingListLength := Z.of_nat (size pairingList) in
  if epoch <=? atomicReadCurrentEpoch csm then (Some OlderEpochError, csm)
  else
    let csm1 := atomicWriteCurrentEpoch csm epoch in
    let csm2 :=
      {| pairing := ∅;
         currentEpoch := currentEpoch csm1;
         numberOfResets := 0;
         pairingAddresses := ∅;
         pairingAddressesLength := pairingListLength;
         validAddresses := validAddresses csm1;
         addedToPurgeAndReport := ∅;
         pairingPurge := pairing csm1 |} in
    let csm3 := fold_left installProvider (rangeOrder _ pairingList) csm2 in
    (None, setValidAddressesToDefaultValue csm3).

Definition shouldResetValidAddresses (csm : ConsumerSessionManager) : bool * Z :=
  (bool_decide (length (validAddresses csm) = 0%nat), numberOfResets csm).

Definition resetValidAddresses (csm : ConsumerSessionManager) : Z * ConsumerSessionManager :=
  if bool_decide (length (validAddresses csm) = 0%nat) then
    let csm1 := setValidAddressesToDefaultValue csm in
    let csm2 := set_numberOfResets csm1 (U64.add (numberOfResets csm1) 1) in
    (numberOfResets csm2, csm2)
  else (numberOfResets csm, csm).

Definition validatePairingListNotEmpty (csm : ConsumerSessionManager)
  : Z * ConsumerSessionManager :=
  let '(reset, numberOfResets) := shouldResetValidAddresses csm in
  if reset then resetValidAddresses csm else (numberOfResets, csm).

End MapRange.

(** *** Picking a provider *)

Section Selection.

(** [rand.Intn]. *)
Variable Intn : Z -> Z.

(** The [for index := 0; index < validAddressesLength; index++] loop over the
    addresses from [index] on. *)
Fixpoint scanValidAddresses (ignoredProvidersList : gset string) (validAddressIndex : Z)
    (addresses : list string) (validAddressesCounter : Z) : string * option Error :=
  match addresses with
  | [] => (EmptyString, Some UnreachableCodeError)
  | address :: rest =>
      if bool_decide (address ∈ ignoredProvidersList)
      then scanValidAddresses ignoredProvidersList validAddressIndex rest validAddressesCounter
      else if validAddressesCounter =? validAddressIndex then (address, None)
      else scanValidAddresses ignoredProvidersList validAddressIndex rest
                              (validAddressesCounter + 1)
  end.

Definition getValidProviderAddress (csm : ConsumerSessionManager)
    (ignoredProvidersList : gset string) : string * option Error :=
  let ignoredProvidersListLength := Z.of_nat (size ignoredProvidersList) in
  let validAddressesLength := Z.of_nat (length (validAddresses csm)) in
  let totalValidLength := validAddressesLength - ignoredProvidersListLength in
  if totalValidLength <=? 0 then (EmptyString, Some PairingListEmptyError)
  else
    let validAddressIndex := Intn totalValidLength in
    scanValidAddresses ignoredProvidersList validAddressIndex (validAddresses csm) 0.

End Selection.

(** *** Blocking a provider *)

(** The [for idx, addr := range csm.validAddresses] loop from [idx] on;
    [whole] is the slice being ranged over. *)
Fixpoint removeAddressLoop (address : string) (whole : list string) (idx : nat)
    (rest : list string) : option Error * list string :=
  match rest with
  | [] => (Some AddressIndexWasNotFoundError, whole)
  | addr :: rest' =>
      if bool_decide (addr = address)
      then (None, take idx whole ++ drop (S idx) whole)
      else removeAddressLoop address whole (S idx) rest'
  end.

Definition removeAddressFromValidAddresses (csm : ConsumerSessionManager) (address : string)
  : option Error * ConsumerSessionManager :=
  let '(err, valid) :=
    removeAddressLoop address (validAddresses csm) 0%nat (validAddresses csm) in
  (err, set_validAddresses csm valid).

Definition blockProvider (csm : ConsumerSessionManager) (address : string)
    (reportProvider : bool) (sessionEpoch : Z) : option Error * ConsumerSessionManager :=
  if bool_decide (sessionEpoch <> atomicReadCurrentEpoch csm)
  then (Some EpochMismatchError, csm)
  else if bool_decide (sessionEpoch <> atomicReadCurrentEpoch csm)
  then (Some EpochMismatchError, csm)
  else
    let '(err, csm1) := removeAddressFromValidAddresses csm address in
    if bool_decide (err <> None) && negb (Is AddressIndexWasNotFoundError err)
    then (err, csm1)
    else
      let csm2 :=
        if reportProvider then
          if bool_decide (address ∈ addedToPurgeAndReport csm1) then csm1
          else set_addedToPurgeAndReport csm1 ({[address]} ∪ addedToPurgeAndReport csm1)
        else csm1 in
      (None, csm2).

(** *** Releasing a session *)

Definition verifyLock (consumerSession : SingleConsumerSession) : option Error :=
  if locked consumerSession then None else Some LockMisUseDetectedError.

(** Modelled from the spec: this accessor of the provider entry is not among
    the sources; it reads the entry's [usedCU] ("entry.usedCU==0", section
    4.2). *)
Definition atomicReadUsedComputeUnits (p : ConsumerSessionsWithProvider) : Z :=
  UsedComputeUnits p.

(** Modelled from the spec: this accessor of the provider entry is not among
    the sources; it reads the entry's [address] and [pairingEpoch], the
    epoch at which the entry was installed (section 3). *)
Definition getPublicLavaAddressAndPairingEpoch (p : ConsumerSessionsWithProvider)
  : string * Z :=
  (PublicLavaAddress p, PairingEpoch p).

(** Modelled from the spec: [decreaseUsedComputeUnits] is not among the
    sources.  Section 4.2: "subtract latestRelayCu from entry.usedCU"; the
    counter is unsigned, and its callers pass on an error, which here is the
    refusal to go below zero. *)
Definition decreaseUsedComputeUnits_spec (p : ConsumerSessionsWithProvider) (cu : Z)
  : option Error * ConsumerSessionsWithProvider :=
  if UsedComputeUnits p <? cu then (Some NegativeComputeUnitsAmountError, p)
  else (None, set_UsedComputeUnits p (UsedComputeUnits p - cu)).

Section Release.

(** Methods of the provider entry and of the session that are defined
    outside the session manager. *)
Variable decreaseUsedComputeUnits :
  ConsumerSessionsWithProvider -> Z -> option Error * ConsumerSessionsWithProvider.

(** [CalculateQoS(cu, latency, expectedLatency, blockHeightDiff,
    numOfProviders, servicersToCount)] recomputes the scores of the slot. *)
Variable CalculateQoS : QoSInfo -> Z -> Z -> Z -> Z -> Z -> Z -> QoSInfo.

Definition OnSessionUnUsed (parent : ConsumerSessionsWithProvider)
    (consumerSession : SingleConsumerSession)
  : option Error * ConsumerSessionsWithProvider * SingleConsumerSession :=
  match verifyLock consumerSession with
  | Some err => (Some err, parent, consumerSession)
  | None =>
      let cuToDecrease := LatestRelayCu consumerSession in
      let cs1 := set_LatestRelayCu consumerSession 0 in
      let cs2 := Unlock cs1 in
      let '(err, parent1) := decreaseUsedComputeUnits parent cuToDecrease in
      (err, parent1, cs2)
  end.

Definition OnSessionFailure (csm : ConsumerSessionManager)
    (parent : ConsumerSessionsWithProvider) (consumerSession : SingleConsumerSession)
    (errorReceived : RelayError)
  : option Error * ConsumerSessionManager * ConsumerSessionsWithProvider
    * SingleConsumerSession :=
  match verifyLock consumerSession with
  | Some err => (Some err, csm, parent, consumerSession)
  | None =>
      if BlockListed consumerSession
      then (Some SessionIsAlreadyBlockListedError, csm, parent, consumerSession)
      else
        let cs1 :=
          set_QoS consumerSession
            (set_TotalRelays (QoS consumerSession)
               (U64.add (TotalRelays (QoS consumerSession)) 1)) in
        let cs2 :=
          set_ConsecutiveNumberOfFailures cs1
            (U64.add (ConsecutiveNumberOfFailures cs1) 1) in
        let consumerSessionBlockListed :=
          (MaximumNumberOfFailuresAllowedPerConsumerSession
             <? ConsecutiveNumberOfFailures cs2)
          || statusCodeIsSessionOutOfSync errorReceived in
        let cs3 := if consumerSessionBlockListed then set_BlockListed cs2 true else cs2 in
        let cuToDecrease := LatestRelayCu cs3 in
        let cs4 := set_LatestRelayCu cs3 0 in
        let cs5 := Unlock cs4 in
        let '(err, parent1) := decreaseUsedComputeUnits parent cuToDecrease in
        match err with
        | Some e => (Some e, csm, parent1, cs5)
        | None =>
            let '(blockProvider0, reportProvider0) :=
              if isReportAndBlockProviderError errorReceived then (true, true)
              else if isBlockProviderError errorReceived then (true, false)
              else (false, false) in
            let '(blockProvider1, reportProvider1) :=
              if consumerSessionBlockListed
                 && (atomicReadUsedComputeUnits parent1 =? 0)
              then (true, true)
              else (blockProvider0, reportProvider0) in
            if blockProvider1 then
              let '(publicProviderAddress, pairingEpoch) :=
                getPublicLavaAddressAndPairingEpoch parent1 in
              let '(err1, csm1) :=
                blockProvider csm publicProviderAddress reportProvider1 pairingEpoch in
              if bool_decide (err1 <> None) then
                if Is EpochMismatchError err1 then (None, csm1, parent1, cs5)
                else (err1, csm1, parent1, cs5)
              else (None, csm1, parent1, cs5)
            else (None, csm, parent1, cs5)
        end
  end.

Definition OnDataReliabilitySessionDone (consumerSession : SingleConsumerSession)
    (latestServicedBlock specComputeUnits currentLatency expectedLatency expectedBH
       numOfProviders providersCount : Z)
  : option Error * SingleConsumerSession :=
  match verifyLock consumerSession with
  | Some err => (Some err, consumerSession)
  | None =>
      let cs1 := set_ConsecutiveNumberOfFailures consumerSession 0 in
      let cs2 := set_LatestBlock cs1 latestServicedBlock in
      let cs3 :=
        set_QoS cs2
          (CalculateQoS (QoS cs2) specComputeUnits currentLatency expectedLatency
             (I64.sub expectedBH latestServicedBlock) numOfProviders
             (I64.wrap providersCount)) in
      (None, Unlock cs3)
  end.

Definition OnSessionDone (consumerSession : SingleConsumerSession)
    (epoch latestServicedBlock specComputeUnits currentLatency expectedLatency expectedBH
       numOfProviders providersCount : Z)
  : option Error * SingleConsumerSession :=
  match verifyLock consumerSession with
  | Some err => (Some err, consumerSession)
  | None =>
      let cs0 :=
        set_CuSum consumerSession
          (U64.add (CuSum consumerSession) (LatestRelayCu consumerSession)) in
      let cs0' := set_LatestRelayCu cs0 0 in
      let cs1 := set_ConsecutiveNumberOfFailures cs0' 0 in
      let cs2 := set_LatestBlock cs1 latestServicedBlock in
      let cs3 :=
        set_QoS cs2
          (CalculateQoS (QoS cs2) specComputeUnits currentLatency expectedLatency
             (I64.sub expectedBH latestServicedBlock) numOfProviders
             (I64.wrap providersCount)) in
      (None, Unlock cs3)
  end.

Definition OnSessionDoneIncreaseCUOnly (consumerSession : SingleConsumerSession)
  : option Error * SingleConsumerSession :=
  match verifyLock consumerSession with
  | Some err => (Some err, consumerSession)
  | None =>
      let cs0 :=
        set_CuSum consumerSession
          (U64.add (CuSum consumerSession) (LatestRelayCu consumerSession)) in
      let cs0' := set_LatestRelayCu cs0 0 in
      let cs1 := set_ConsecutiveNumberOfFailures cs0' 0 in
      (None, Unlock cs1)
  end.

Definition OnDataReliabilitySessionFailure (csm : ConsumerSessionManager)
    (parent : ConsumerSessionsWithProvider) (consumerSession : SingleConsumerSession)
    (errorReceived : RelayError)
  : option Error * ConsumerSessionManager * SingleConsumerSession :=
  match verifyLock consumerSession with
  | Some err => (Some err, csm, consumerSession)
  | None =>
      if BlockListed consumerSession
      then (Some SessionIsAlreadyBlockListedError, csm, consumerSession)
      else
        let cs1 :=
          set_QoS consumerSession
            (set_TotalRelays (QoS consumerSession)
               (U64.add (TotalRelays (QoS consumerSession)) 1)) in
        let cs2 :=
          set_ConsecutiveNumberOfFailures cs1
            (U64.add (ConsecutiveNumberOfFailures cs1) 1) in
        let cs3 := set_RelayNum cs2 (U64.sub (RelayNum cs2) 1) in
        let cs4 :=
          if MaximumNumberOfFailuresAllowedPerConsumerSession
               <? ConsecutiveNumberOfFailures cs3
          then set_BlockListed cs3 true
          else if isSessionOutOfSyncError errorReceived then set_BlockListed cs3 true
          else cs3 in
        let '(blockProvider0, reportProvider0) :=
          if isReportAndBlockProviderError errorReceived then (true, true)
          else if isBlockProviderError errorReceived then (true, false)
          else (false, false) in
        let cs5 := Unlock cs4 in
        if blockProvider0 then
          let '(publicProviderAddress, pairingEpoch) :=
            getPublicLavaAddressAndPairingEpoch parent in
          let '(err, csm1) :=
            blockProvider csm publicProviderAddress reportProvider0 pairingEpoch in
          if bool_decide (err <> None) then
            if Is EpochMismatchError err then (None, csm1, cs5)
            else (err, csm1, cs5)
          else (None, csm1, cs5)
        else (None, csm, cs5)
  end.

End Release.

(** *** Data-reliability sessions *)

Definition getDataReliabilityProviderIndex (csm : ConsumerSessionManager)
    (unAllowedAddress : string) (index : Z)
  : option ConsumerSessionsWithProvider * string * Z * option Error :=
  let currentEpoch := atomicReadCurrentEpoch csm in
  let pairingAddressesLength := GetAtomicPairingAddressesLength csm in
  if pairingAddressesLength <=? index
  then (None, EmptyString, currentEpoch, Some DataReliabilityIndexOutOfRangeError)
  else
    let providerAddress := default EmptyString (pairingAddresses csm !! index) in
    if bool_decide (providerAddress = unAllowedAddress)
    then (None, EmptyString, currentEpoch,
          Some DataReliabilityIndexRequestedIsOriginalProviderError)
    else (pairing csm !! providerAddress, providerAddress, currentEpoch, None).

Section DataReliability.

(** Methods of the provider entry that are defined outside the session
    manager.  A connection attempt depends on the network: its outcome is a
    function of the number of the attempt.  The sessions these methods hand
    over are locked. *)
Variable verifyDataReliabilitySessionWasNotAlreadyCreated :
  ConsumerSessionsWithProvider -> option SingleConsumerSession * Z * option Error.

Variable fetchEndpointConnectionFromConsumerSessionWithProvider :
  ConsumerSessionsWithProvider -> nat -> bool * option Endpoint * string * option Error.

Variable getDataReliabilitySingleConsumerSession :
  ConsumerSessionsWithProvider -> option Endpoint ->
  option SingleConsumerSession * Z * option Error.

(** How the retry loop ends: a fatal log entry, or the values of
    [connected] and [endpoint] after the loop. *)
Inductive RetryOutcome : Type :=
| RetryFatal
| RetryDone (connected : bool) (endpoint : option Endpoint).

(** [for idx := 0; idx < MaxConsecutiveConnectionAttempts; idx++], with
    [attemptsLeft] iterations to go. *)
Fixpoint connectionAttempts (cswp : ConsumerSessionsWithProvider) (sessionEpoch : Z)
    (attemptsLeft idx : nat) (csm : ConsumerSessionManager)
  : RetryOutcome * ConsumerSessionManager :=
  match attemptsLeft with
  | O => (RetryDone false None, csm)
  | S attemptsLeft' =>
      let '(connected, endpoint, providerAddress, err) :=
        fetchEndpointConnectionFromConsumerSessionWithProvider cswp idx in
      if bool_decide (err <> None) then
        if Is AllProviderEndpointsDisabledError err then
          let '(err1, csm1) := blockProvider csm providerAddress true sessionEpoch in
          if bool_decide (err1 <> None) && negb (Is EpochMismatchError err1)
          then (RetryFatal, csm1)
          else (RetryDone connected endpoint, csm1)
        else (RetryFatal, csm)
      else if connected then (RetryDone connected endpoint, csm)
      else connectionAttempts cswp sessionEpoch attemptsLeft' (S idx) csm
  end.

Definition fetchEndpointFromConsumerSessionsWithProviderWithRetry
    (csm : ConsumerSessionManager) (cswp : ConsumerSessionsWithProvider) (sessionEpoch : Z)
  : option Endpoint * option Error * ConsumerSessionManager :=
  match connectionAttempts cswp sessionEpoch MaxConsecutiveConnectionAttempts 0%nat csm with
  | (RetryFatal, csm1) => (None, Some FatalError, csm1)
  | (RetryDone connected endpoint, csm1) =>
      if negb connected
      then (None, Some FailedToConnectToEndPointForDataReliabilityError, csm1)
      else (endpoint, None, csm1)
  end.

(** The end of [GetDataReliabilitySession], once a session was found or
    created. *)
Definition returnDataReliabilitySession (csm : ConsumerSessionManager)
    (consumerSession : option SingleConsumerSession) (providerAddress : string)
    (currentEpoch pairingEpoch : Z)
  : option SingleConsumerSession * string * Z * option Error * ConsumerSessionManager :=
  let currentEpoch1 :=
    if bool_decide (currentEpoch <> pairingEpoch) then pairingEpoch else currentEpoch in
  match consumerSession with
  | None => (None, EmptyString, 0, Some NilPointerPanic, csm)
  | Some cs =>
      (Some (set_RelayNum cs (U64.add (RelayNum cs) 1)), providerAddress, currentEpoch1,
       None, csm)
  end.

Definition GetDataReliabilitySession (csm : ConsumerSessionManager)
    (originalProviderAddress : string) (index : Z) (sessionEpoch : Z)
  : option SingleConsumerSession * string * Z * option Error * ConsumerSessionManager :=
  let '(consumerSessionWithProvider, providerAddress, currentEpoch, err) :=
    getDataReliabilityProviderIndex csm originalProviderAddress (U64.of_int64 index) in
  match err with
  | Some e => (None, EmptyString, 0, Some e, csm)
  | None =>
      if bool_decide (sessionEpoch <> currentEpoch)
      then (None, EmptyString, currentEpoch, Some DataReliabilityEpochMismatchError, csm)
      else
        match consumerSessionWithProvider with
        | None => (None, EmptyString, 0, Some NilPointerPanic, csm)
        | Some cswp =>
            let '(consumerSession, pairingEpoch, err1) :=
              verifyDataReliabilitySessionWasNotAlreadyCreated cswp in
            if Is NoDataReliabilitySessionWasCreatedError err1 then
              let '(endpoint, err2, csm1) :=
                fetchEndpointFromConsumerSessionsWithProviderWithRetry csm cswp
                  currentEpoch in
              match err2 with
              | Some e2 => (None, EmptyString, currentEpoch, Some e2, csm1)
              | None =>
                  let '(consumerSession1, pairingEpoch1, err3) :=
                    getDataReliabilitySingleConsumerSession cswp endpoint in
                  match err3 with
                  | Some e3 => (None, EmptyString, currentEpoch, Some e3, csm1)
                  | None =>
                      returnDataReliabilitySession csm1 consumerSession1 providerAddress
                        currentEpoch pairingEpoch1
                  end
              end
            else
              match err1 with
              | Some e1 => (None, EmptyString, currentEpoch, Some e1, csm)
              | None =>
                  returnDataReliabilitySession csm consumerSession providerAddress
                    currentEpoch pairingEpoch
              end
        end
  end.

End DataReliability.

(** *** Picking a provider entry *)

(** The providers a [GetSession] call does not try, with the epoch they were
    collected in. *)
Record ignoredProviders : Type := {
  providers : gset string;
  ignoredEpoch : Z
}.

Section ProviderEntry.

Variable Intn : Z -> Z.

(** [validateComputeUnits], a method of the provider entry defined outside
    the session manager. *)
Variable validateComputeUnits : ConsumerSessionsWithProvider -> Z -> option Error.

(** The results are the provider entry, its address, the epoch and the
    error, then the ignored providers as the call leaves them. *)
Definition getValidConsumerSessionsWithProvider (csm : ConsumerSessionManager)
    (ignored : ignoredProviders) (cuNeededForSession : Z)
  : option ConsumerSessionsWithProvider * string * Z * option Error * ignoredProviders :=
  let currentEpoch := atomicReadCurrentEpoch csm in
  let ignored1 :=
    if ignoredEpoch ignored <? currentEpoch
    then {| providers := ∅; ignoredEpoch := currentEpoch |}
    else ignored in
  let '(providerAddress, err) := getValidProviderAddress Intn csm (providers ignored1) in
  match err with
  | Some e => (None, EmptyString, 0, Some e, ignored1)
  | None =>
      match pairing csm !! providerAddress with
      | None => (None, providerAddress, 0, Some NilPointerPanic, ignored1)
      | Some consumerSessionsWithProvider =>
          match validateComputeUnits consumerSessionsWithProvider cuNeededForSession with
          | Some e => (None, providerAddress, 0, Some e, ignored1)
          | None =>
              (Some consumerSessionsWithProvider, providerAddress, currentEpoch, None,
               ignored1)
          end
      end
  end.

End ProviderEntry.

End lavasession.

(** ** Package lavaprotocol: relay requests

    The constructors of relay requests read a session of package
    lavasession.  [RelayRequest.t] is [pairingtypes.RelayRequest] with its
    three parts; [lavaprotocol.RelayRequest.t] above is the part of it that
    the comparison of replies carries along. *)

Module relayrequest.

Import lavaprotocol.

Module RelaySession.
Record t : Type := {
  SpecId : string;
  ContentHash : list byte;
  SessionId : Z;
  CuSum : Z;
  Provider : string;
  RelayNum : Z;
  QosReport : option lavasession.QualityOfServiceReport;
  Epoch : Z;
  UnresponsiveProviders : list byte;
  LavaChainId : string;
  Sig : list byte
}.
End RelaySession.

Module VRFData.
Record t : Type := {
  ChainId : string;
  Epoch : Z;
  Differentiator : bool;
  VrfValue : list byte;
  VrfProof : list byte;
  ProviderSig : list byte;
  AllDataHash : list byte;
  QueryHash : list byte;
  Sig : list byte
}.
End VRFData.

Module RelayRequest.
Record t : Type := {
  RelayData : RelayPrivateData.t;
  Session : RelaySession.t;
  DataReliability : option VRFData.t
}.
End RelayRequest.

Definition set_Sig (session : RelaySession.t) (sig : list byte) : RelaySession.t :=
  {| RelaySession.SpecId := RelaySession.SpecId session;
     RelaySession.ContentHash := RelaySession.ContentHash session;
     RelaySession.SessionId := RelaySession.SessionId session;
     RelaySession.CuSum := RelaySession.CuSum session;
     RelaySession.Provider := RelaySession.Provider session;
     RelaySession.RelayNum := RelaySession.RelayNum session;
     RelaySession.QosReport := RelaySession.QosReport session;
     RelaySession.Epoch := RelaySession.Epoch session;
     RelaySession.UnresponsiveProviders := RelaySession.UnresponsiveProviders session;
     RelaySession.LavaChainId := RelaySession.LavaChainId session;
     RelaySession.Sig := sig |}.

Definition set_VRFSig (vrfData : VRFData.t) (sig : list byte) : VRFData.t :=
  {| VRFData.ChainId := VRFData.ChainId vrfData;
     VRFData.Epoch := VRFData.Epoch vrfData;
     VRFData.Differentiator := VRFData.Differentiator vrfData;
     VRFData.VrfValue := VRFData.VrfValue vrfData;
     VRFData.VrfProof := VRFData.VrfProof vrfData;
     VRFData.ProviderSig := VRFData.ProviderSig vrfData;
     VRFData.AllDataHash := VRFData.AllDataHash vrfData;
     VRFData.QueryHash := VRFData.QueryHash vrfData;
     VRFData.Sig := sig |}.

(** Why a request was not built: the guard of
    [ConstructDataReliabilityRelayRequest], or an error of the signer. *)
Inductive ConstructionError : Type :=
| InvalidRequestBlockError
| SigningError (e : Error).

Section Construction.

(** Package sigs: the hash of the relay data and the two signatures, under
    a private key of a type of its own. *)
Variable PrivateKey : Type.
Variable CalculateContentHashForRelayData : RelayPrivateData.t -> list byte.
Variable SignRelay : PrivateKey -> RelaySession.t -> list byte * option Error.
Variable SignVRFData : PrivateKey -> VRFData.t -> list byte * option Error.

Definition ConstructRelaySession (lavaChainID : string)
    (relayRequestData : RelayPrivateData.t) (chainID providerPublicAddress : string)
    (singleConsumerSession : lavasession.SingleConsumerSession) (epoch : Z)
    (reportedProviders : list byte) : RelaySession.t :=
  {| RelaySession.SpecId := chainID;
     RelaySession.ContentHash := CalculateContentHashForRelayData relayRequestData;
     RelaySession.SessionId := U64.of_int64 (lavasession.SessionId singleConsumerSession);
     RelaySession.CuSum :=
       U64.add (lavasession.CuSum singleConsumerSession)
               (lavasession.LatestRelayCu singleConsumerSession);
     RelaySession.Provider := providerPublicAddress;
     RelaySession.RelayNum := lavasession.RelayNum singleConsumerSession;
     RelaySession.QosReport :=
       lavasession.LastQoSReport (lavasession.QoS singleConsumerSession);
     RelaySession.Epoch := epoch;
     RelaySession.UnresponsiveProviders := reportedProviders;
     RelaySession.LavaChainId := lavaChainID;
     RelaySession.Sig := [] |}.

Definition dataReliabilityRelaySession (lavaChainID : string)
    (relayRequestData : RelayPrivateData.t) (chainID providerPublicAddress : string)
    (epoch relayNum : Z) : RelaySession.t :=
  {| RelaySession.SpecId := chainID;
     RelaySession.ContentHash := CalculateContentHashForRelayData relayRequestData;
     RelaySession.SessionId := lavasession.DataReliabilitySessionId;
     RelaySession.CuSum := lavasession.DataReliabilityCuSum;
     RelaySession.Provider := providerPublicAddress;
     RelaySession.RelayNum := relayNum;
     RelaySession.QosReport := None;
     RelaySession.Epoch := epoch;
     RelaySession.UnresponsiveProviders := [];
     RelaySession.LavaChainId := lavaChainID;
     RelaySession.Sig := [] |}.

Definition ConstructRelayRequest (privKey : PrivateKey) (lavaChainID chainID : string)
    (relayRequestData : RelayPrivateData.t) (providerPublicAddress : string)
    (consumerSession : lavasession.SingleConsumerSession) (epoch : Z)
    (reportedProviders : list byte) : option RelayRequest.t * option ConstructionError :=
  let session :=
    ConstructRelaySession lavaChainID relayRequestData chainID providerPublicAddress
      consumerSession epoch reportedProviders in
  let '(sig, err) := SignRelay privKey session in
  match err with
  | Some e => (None, Some (SigningError e))
  | None =>
      (Some {| RelayRequest.RelayData := relayRequestData;
               RelayRequest.Session := set_Sig session sig;
               RelayRequest.DataReliability := None |},
       None)
  end.

(** [vrfData] is the record that [NewVRFData] made, never [nil]. *)
Definition ConstructDataReliabilityRelayRequest (lavaChainID : string)
    (vrfData : VRFData.t) (privKey : PrivateKey) (chainID : string)
    (relayRequestData : RelayPrivateData.t) (providerPublicAddress : string)
    (epoch : Z) (reportedProviders : list byte) (relayNum : Z)
  : option RelayRequest.t * option ConstructionError :=
  if RelayPrivateData.RequestBlock relayRequestData <? 0
  then (None, Some InvalidRequestBlockError)
  else
    let session :=
      dataReliabilityRelaySession lavaChainID relayRequestData chainID
        providerPublicAddress epoch relayNum in
    let '(sig, err) := SignRelay privKey session in
    match err with
    | Some e => (None, Some (SigningError e))
    | None =>
        let '(vrfSig, err1) := SignVRFData privKey vrfData in
        match err1 with
        | Some e1 => (None, Some (SigningError e1))
        | None =>
            (Some {| RelayRequest.RelayData := relayRequestData;
                     RelayRequest.Session := set_Sig session sig;
                     RelayRequest.DataReliability := Some (set_VRFSig vrfData vrfSig) |},
             None)
        end
    end.

End Construction.

End relayrequest.

(** ** Package keeper of module pairing: the compute units of a client *)

Module pairingkeeper.

Section ClientLimits.

(** [sdk.Coin] with its comparison [IsGTE], and the two parameters that the
    keeper reads from the store: the list of stake thresholds and the number
    of providers to pair. *)
Variable Coin : Type.
Variable IsGTE : Coin -> Coin -> bool.

Record StakeToMaxCU : Type := {
  StakeThreshold : Coin;
  MaxComputeUnits : Z
}.

(** The [for _, stakeToCU := range stakeToMaxCUMap] loop with its [break]. *)
Fixpoint allowedForStake (stake : Coin) (stakeToMaxCUMap : list StakeToMaxCU)
    (allowedCU : Z) : Z :=
  match stakeToMaxCUMap with
  | [] => allowedCU
  | stakeToCU :: rest =>
      if IsGTE stake (StakeThreshold stakeToCU)
      then allowedForStake stake rest (MaxComputeUnits stakeToCU)
      else allowedCU
  end.

(** [None] is the panic of a division by zero. *)
Definition ClientMaxCU (StakeToMaxCUList : list StakeToMaxCU) (ServicersToPairCount : Z)
    (stake : Coin) : option Z :=
  let allowedCU := allowedForStake stake StakeToMaxCUList 0 in
  if ServicersToPairCount =? 0 then None
  else Some (allowedCU / ServicersToPairCount).

(** [clientEntry.Stake.Amount.Int64()], of package sdk: the amount of the
    stake as an [int64]; [None] is its panic on an amount that does not fit
    one. *)
Variable Int64 : Coin -> option Z.

(** The two errors that [EnforceClientCUsUsageInEpoch] formats; the first
    one carries the amount of the stake. *)
Inductive EnforceError : Type :=
| MaxCUNotFound (stakeAmount : Z)
| BypassedAllowedCU (allowedCU totalCU : Z).

(** The outer [None] is a panic, of [ClientMaxCU] or of [Int64] while the
    first error is formatted; the inner one is [nil]. *)
Definition EnforceClientCUsUsageInEpoch (StakeToMaxCUList : list StakeToMaxCU)
    (ServicersToPairCount : Z) (stake : Coin) (totalCU : Z)
  : option (option EnforceError) :=
  match ClientMaxCU StakeToMaxCUList ServicersToPairCount stake with
  | None => None
  | Some allowedCU =>
      if allowedCU =? 0 then
        match Int64 stake with
        | None => None
        | Some stakeAmount => Some (Some (MaxCUNotFound stakeAmount))
        end
      else if allowedCU <? totalCU then Some (Some (BypassedAllowedCU allowedCU totalCU))
      else Some None
  end.

End ClientLimits.

End pairingkeeper.

(** ** Invariant of the session manager

    What the functions of the manager keep between two rotations of the
    pairing: no address is valid twice, and every valid address has its
    entry in the pairing. *)

Module Invariant.

Definition wellFormed (csm : lavasession.ConsumerSessionManager) : Prop :=
  NoDup (lavasession.validAddresses csm) /\
  forall address : string,
    address ∈ lavasession.validAddresses csm ->
    is_Some (lavasession.pairing csm !! address).

(** What blocking providers does to a manager, and nothing else: addresses
    leave the valid list, providers join the reported set. *)
Definition blockedFrom (csm csm' : lavasession.ConsumerSessionManager) : Prop :=
  lavasession.validAddresses csm' `sublist_of` lavasession.validAddresses csm /\
  lavasession.addedToPurgeAndReport csm ⊆ lavasession.addedToPurgeAndReport csm' /\
  lavasession.pairing csm' = lavasession.pairing csm /\
  lavasession.pairingPurge csm' = lavasession.pairingPurge csm /\
  lavasession.pairingAddresses csm' = lavasession.pairingAddresses csm /\
  lavasession.pairingAddressesLength csm' = lavasession.pairingAddressesLength csm /\
  lavasession.currentEpoch csm' = lavasession.currentEpoch csm /\
  lavasession.numberOfResets csm' = lavasession.numberOfResets csm.

End Invariant.

(** ** Notions of the specification

    The words in which section 4.6 of the specification states what the
    auditor reports. *)

Module Audit.

Import lavaprotocol.

(** "bytes(r_i.reply.data) == bytes(original.reply.data)" fails. *)
Definition differ (r1 r2 : RelayResult.t) : Prop :=
  RelayReply.Data (RelayResult.Reply r1) <> RelayReply.Data (RelayResult.Reply r2).

#[global] Instance differ_dec (r1 r2 : RelayResult.t) : Decision (differ r1 r2).
Proof. unfold differ. apply _. Defined.

(** "ResponseConflict{relayData0, relayData1}" *)
Definition conflictOf (r1 r2 : RelayResult.t) : ResponseConflict.t :=
  {| ResponseConflict.ConflictRelayData0 :=
       {| ConflictRelayData.Reply := RelayResult.Reply r1;
          ConflictRelayData.Request := RelayResult.Request r1 |};
     ResponseConflict.ConflictRelayData1 :=
       {| ConflictRelayData.Reply := RelayResult.Reply r2;
          ConflictRelayData.Request := RelayResult.Request r2 |} |}.

(** One conflict for "every mismatched pair (original, r_i)". *)
Definition conflictsWithOriginal (original : RelayResult.t) (results : list RelayResult.t)
  : list ResponseConflict.t :=
  conflictOf original <$> filter (differ original) results.

(** One conflict for "every mismatched pair (r_i, r_j)", [i < j]. *)
Fixpoint conflictsAmong (results : list RelayResult.t) : list ResponseConflict.t :=
  match results with
  | [] => []
  | r1 :: later => (conflictOf r1 <$> filter (differ r1) later) ++ conflictsAmong later
  end.

End Audit.

(** ** Inputs of the scenarios *)

Module Scenario.

Import lavaprotocol.

Definition request : RelayRequest.t :=
  {| RelayRequest.RelayData :=
       {| RelayPrivateData.ConnectionType := "POST";
          RelayPrivateData.ApiUrl := EmptyString;
          RelayPrivateData.Data := [x7b; x7d];
          RelayPrivateData.RequestBlock := 100;
          RelayPrivateData.ApiInterface := "jsonrpc";
          RelayPrivateData.Salt := [x01; x00; x00; x00; x00; x00; x00; x00] |} |}.

Definition resultOf (provider : string) (data : list byte) : RelayResult.t :=
  {| RelayResult.Request := request;
     RelayResult.Reply := {| RelayReply.Data := data; RelayReply.LatestBlock := 100 |};
     RelayResult.ProviderAddress := provider;
     RelayResult.Finalized := true |}.

(** Original reply of provider B, audits of A and C (scenario 5 of the
    specification). *)
Definition originalB : RelayResult.t := resultOf "B" [xaa].
Definition auditA : RelayResult.t := resultOf "A" [xbb].
Definition auditC : RelayResult.t := resultOf "C" [xbb].

(** Two VRF outputs whose numbers, 1 and 4, are both below the threshold 10
    and fall on index 1 of a pairing of 3 providers. *)
Definition vrf0 : list byte := [x01; x00; x00; x00].
Definition vrf1 : list byte := [x04; x00; x00; x00].

(** The values of the block constants in package spectypes. *)
Definition LATEST_BLOCK : Z := -2.
Definition EARLIEST_BLOCK : Z := -3.
Definition SAFE_BLOCK : Z := -5.
Definition FINALIZED_BLOCK : Z := -6.
Definition NOT_APPLICABLE : Z := -1.

(** A pairing of the providers A, B and C. *)
Definition provider (address : string) (usedCU epoch : Z)
  : lavasession.ConsumerSessionsWithProvider :=
  {| lavasession.PublicLavaAddress := address;
     lavasession.UsedComputeUnits := usedCU;
     lavasession.MaxComputeUnits := 100;
     lavasession.PairingEpoch := epoch |}.

Definition pairingList (epoch : Z) : gmap Z lavasession.ConsumerSessionsWithProvider :=
  {[ 0 := provider "A" 0 epoch; 1 := provider "B" 0 epoch; 2 := provider "C" 0 epoch ]}.

(** The manager in epoch 7, all three providers valid. *)
Definition csm7 : lavasession.ConsumerSessionManager :=
  {| lavasession.pairing :=
       {[ "A"%string := provider "A" 0 7; "B"%string := provider "B" 10 7;
          "C"%string := provider "C" 0 7 ]};
     lavasession.currentEpoch := 7;
     lavasession.numberOfResets := 0;
     lavasession.pairingAddresses := {[ 0 := "A"%string; 1 := "B"%string; 2 := "C"%string ]};
     lavasession.pairingAddressesLength := 3;
     lavasession.validAddresses := ["A"; "B"; "C"]%string;
     lavasession.addedToPurgeAndReport := ∅;
     lavasession.pairingPurge := ∅ |}.

(** The same manager once A and C were blocked. *)
Definition csm7_onlyB : lavasession.ConsumerSessionManager :=
  lavasession.set_validAddresses csm7 ["B"%string].

(** A locked session of relay number 6 with a relay of [relayCu] units in
    flight. *)
Definition session (relayCu failures : Z) (blockListed : bool)
  : lavasession.SingleConsumerSession :=
  {| lavasession.CuSum := 0;
     lavasession.LatestRelayCu := relayCu;
     lavasession.QoS := {| lavasession.LastQoSReport := None; lavasession.TotalRelays := 5 |};
     lavasession.SessionId := 42;
     lavasession.RelayNum := 6;
     lavasession.LatestBlock := 100;
     lavasession.BlockListed := blockListed;
     lavasession.ConsecutiveNumberOfFailures := failures;
     lavasession.locked := true |}.

(** The data-reliability session of a provider before its first relay. *)
Definition auditSession : lavasession.SingleConsumerSession :=
  {| lavasession.CuSum := 0;
     lavasession.LatestRelayCu := 0;
     lavasession.QoS := {| lavasession.LastQoSReport := None; lavasession.TotalRelays := 0 |};
     lavasession.SessionId := lavasession.DataReliabilitySessionId;
     lavasession.RelayNum := 0;
     lavasession.LatestBlock := 0;
     lavasession.BlockListed := false;
     lavasession.ConsecutiveNumberOfFailures := 0;
     lavasession.locked := true |}.

(** A deadline that passed: no status code of note, none of the sentinels. *)
Definition deadlineExceeded : RelayError :=
  {| statusCodeIsSessionOutOfSync := false;
     isSessionOutOfSyncError := false;
     isReportAndBlockProviderError := false;
     isBlockProviderError := false |}.

(** A relay for the earliest block, the VRF data of its audit, and a signer
    whose signature is empty. *)
Definition earliestRequest : RelayPrivateData.t :=
  {| RelayPrivateData.ConnectionType := "POST";
     RelayPrivateData.ApiUrl := EmptyString;
     RelayPrivateData.Data := [x7b; x7d];
     RelayPrivateData.RequestBlock := EARLIEST_BLOCK;
     RelayPrivateData.ApiInterface := "jsonrpc";
     RelayPrivateData.Salt := [x01; x00; x00; x00; x00; x00; x00; x00] |}.

Definition vrfData0 : relayrequest.VRFData.t :=
  {| relayrequest.VRFData.ChainId := "ETH1";
     relayrequest.VRFData.Epoch := 7;
     relayrequest.VRFData.Differentiator := false;
     relayrequest.VRFData.VrfValue := vrf0;
     relayrequest.VRFData.VrfProof := [];
     relayrequest.VRFData.ProviderSig := [];
     relayrequest.VRFData.AllDataHash := [];
     relayrequest.VRFData.QueryHash := [];
     relayrequest.VRFData.Sig := [] |}.

Definition sign {A : Type} (key : unit) (message : A) : list byte * option Error :=
  ([], None).

(** A network on which the first two connection attempts time out and the
    third one connects. *)
Definition endpointB : lavasession.Endpoint :=
  {| lavasession.NetworkAddress := "b.example:443"; lavasession.Enabled := true |}.

Definition thirdAttemptConnects (cswp : lavasession.ConsumerSessionsWithProvider)
    (attempt : nat) : bool * option lavasession.Endpoint * string * option Error :=
  if (attempt <? 2)%nat then (false, None, lavasession.PublicLavaAddress cswp, None)
  else (true, Some endpointB, lavasession.PublicLavaAddress cswp, None).

End Scenario.

(** * Properties *)

(** ** Requested block *)

Section RequestedBlockFacts.

Variables LATEST_BLOCK SAFE_BLOCK FINALIZED_BLOCK EARLIEST_BLOCK NOT_APPLICABLE : Z.

(** C8.  The three magic blocks LATEST, SAFE and FINALIZED are replaced by
    the latest block of the reply, EARLIEST by the NOT_APPLICABLE sentinel,
    and every other block number is kept.  The case constants of the switch
    are pairwise distinct (Go rejects a switch that repeats a constant);
    only that EARLIEST differs from the three before it is used. *)
Theorem ReplaceRequestedBlock_collapses_magic_blocks :
  EARLIEST_BLOCK <> LATEST_BLOCK ->
  EARLIEST_BLOCK <> SAFE_BLOCK ->
  EARLIEST_BLOCK <> FINALIZED_BLOCK ->
  forall L : Z,
    let Replace :=
      lavaprotocol.ReplaceRequestedBlock
        LATEST_BLOCK SAFE_BLOCK FINALIZED_BLOCK EARLIEST_BLOCK NOT_APPLICABLE in
    Replace LATEST_BLOCK L = L /\
    Replace SAFE_BLOCK L = L /\
    Replace FINALIZED_BLOCK L = L /\
    Replace EARLIEST_BLOCK L = NOT_APPLICABLE /\
    (forall x : Z,
        x <> LATEST_BLOCK -> x <> SAFE_BLOCK -> x <> FINALIZED_BLOCK ->
        x <> EARLIEST_BLOCK -> Replace x L = x).
Proof.
  intros HL HS HF L Replace. subst Replace.
  unfold lavaprotocol.ReplaceRequestedBlock.
  repeat split.
  - now rewrite Z.eqb_refl.
  - destruct (Z.eqb_spec SAFE_BLOCK LATEST_BLOCK); [reflexivity|].
    now rewrite Z.eqb_refl.
  - destruct (Z.eqb_spec FINALIZED_BLOCK LATEST_BLOCK); [reflexivity|].
    destruct (Z.eqb_spec FINALIZED_BLOCK SAFE_BLOCK); [reflexivity|].
    now rewrite Z.eqb_refl.
  - destruct (Z.eqb_spec EARLIEST_BLOCK LATEST_BLOCK); [contradiction|].
    destruct (Z.eqb_spec EARLIEST_BLOCK SAFE_BLOCK); [contradiction|].
    destruct (Z.eqb_spec EARLIEST_BLOCK FINALIZED_BLOCK); [contradiction|].
    now rewrite Z.eqb_refl.
  - intros x H1 H2 H3 H4.
    destruct (Z.eqb_spec x LATEST_BLOCK); [contradiction|].
    destruct (Z.eqb_spec x SAFE_BLOCK); [contradiction|].
    destruct (Z.eqb_spec x FINALIZED_BLOCK); [contradiction|].
    destruct (Z.eqb_spec x EARLIEST_BLOCK); [contradiction|].
    reflexivity.
Qed.

End RequestedBlockFacts.

Lemma ReplaceRequestedBlock_collapses_magic_blocks_witness :
  (Scenario.EARLIEST_BLOCK <> Scenario.LATEST_BLOCK /\
   Scenario.EARLIEST_BLOCK <> Scenario.SAFE_BLOCK /\
   Scenario.EARLIEST_BLOCK <> Scenario.FINALIZED_BLOCK) /\
  let Replace :=
    lavaprotocol.ReplaceRequestedBlock Scenario.LATEST_BLOCK Scenario.SAFE_BLOCK
      Scenario.FINALIZED_BLOCK Scenario.EARLIEST_BLOCK Scenario.NOT_APPLICABLE in
  Replace Scenario.LATEST_BLOCK 1234 = 1234 /\
  Replace Scenario.SAFE_BLOCK 1234 = 1234 /\
  Replace Scenario.FINALIZED_BLOCK 1234 = 1234 /\
  Replace Scenario.EARLIEST_BLOCK 1234 = Scenario.NOT_APPLICABLE /\
  (forall x : Z,
      x <> Scenario.LATEST_BLOCK -> x <> Scenario.SAFE_BLOCK ->
      x <> Scenario.FINALIZED_BLOCK -> x <> Scenario.EARLIEST_BLOCK ->
      Replace x 1234 = x).
Proof.
  split; [repeat split; discriminate|].
  apply (ReplaceRequestedBlock_collapses_magic_blocks
           Scenario.LATEST_BLOCK Scenario.SAFE_BLOCK Scenario.FINALIZED_BLOCK
           Scenario.EARLIEST_BLOCK Scenario.NOT_APPLICABLE);
    discriminate.
Defined.

(** ** VRF outputs to pairing indexes *)

Section ThresholdFacts.

Variable GetIndexForVrf : list byte -> Z -> Z -> Z * option Error.

(** A VRF output for which the index function reports [-1] or an error is
    skipped by the loop. *)
Lemma thresholdLoop_skip ids thr n k v rest indexes :
  fst (GetIndexForVrf v n thr) = -1 \/ snd (GetIndexForVrf v n thr) <> None ->
  lavaprotocol.thresholdLoop GetIndexForVrf ids thr n k (v :: rest) indexes
  = lavaprotocol.thresholdLoop GetIndexForVrf ids thr n (S k) rest indexes.
Proof.
  intros H. simpl. destruct (GetIndexForVrf v n thr) as [i e]. simpl in H.
  destruct H as [-> | H].
  - reflexivity.
  - rewrite (bool_decide_eq_true_2 _ H). now rewrite orb_true_r.
Qed.

(** A VRF output with a proper index claims that index unless it is taken. *)
Lemma thresholdLoop_take ids thr n k v rest indexes i :
  GetIndexForVrf v n thr = (i, None) -> i <> -1 ->
  lavaprotocol.thresholdLoop GetIndexForVrf ids thr n k (v :: rest) indexes
  = match indexes !! i with
    | Some _ => lavaprotocol.thresholdLoop GetIndexForVrf ids thr n (S k) rest indexes
    | None =>
        match ids !! k with
        | None => None
        | Some b =>
            lavaprotocol.thresholdLoop GetIndexForVrf ids thr n (S k) rest
              (<[i := b]> indexes)
        end
    end.
Proof.
  intros H Hi. simpl. rewrite H.
  destruct (Z.eqb_spec i (-1)); [contradiction|].
  rewrite bool_decide_eq_false_2 by (intros Hc; now apply Hc).
  reflexivity.
Qed.

(** C2 (as the code has it).  For the two VRF outputs of a relay, passed
    with the differentiators [false; true]: when both fall on the same
    index the map holds that index once, with the value [false] of the first
    output; an output whose index is [-1] (mapped value above the threshold)
    or in error contributes no index, and the other output alone decides;
    two different indexes are both kept, each with its own differentiator. *)
Theorem DataReliabilityThresholdToSession_keeps_first (v0 v1 : list byte) (thr n : Z) :
  let skipped v :=
    fst (GetIndexForVrf v n thr) = -1 \/ snd (GetIndexForVrf v n thr) <> None in
  let run :=
    lavaprotocol.DataReliabilityThresholdToSession GetIndexForVrf
      [v0; v1] [false; true] thr n in
  (forall i : Z,
      GetIndexForVrf v0 n thr = (i, None) -> GetIndexForVrf v1 n thr = (i, None) ->
      i <> -1 -> run = Some {[ i := false ]}) /\
  (forall i : Z,
      skipped v0 -> GetIndexForVrf v1 n thr = (i, None) -> i <> -1 ->
      run = Some {[ i := true ]}) /\
  (forall i : Z,
      GetIndexForVrf v0 n thr = (i, None) -> i <> -1 -> skipped v1 ->
      run = Some {[ i := false ]}) /\
  (skipped v0 -> skipped v1 -> run = Some ∅) /\
  (forall i j : Z,
      GetIndexForVrf v0 n thr = (i, None) -> i <> -1 ->
      GetIndexForVrf v1 n thr = (j, None) -> j <> -1 -> i <> j ->
      run = Some (<[ j := true ]> {[ i := false ]})).
Proof.
  intros skipped run. subst skipped run.
  unfold lavaprotocol.DataReliabilityThresholdToSession.
  repeat split.
  - intros i H0 H1 Hi.
    rewrite (thresholdLoop_take _ _ _ _ _ _ _ i H0 Hi), lookup_empty.
    change ([false; true] !! 0%nat) with (Some false); cbv beta iota.
    rewrite (thresholdLoop_take _ _ _ _ _ _ _ i H1 Hi).
    rewrite insert_empty, lookup_singleton_eq. reflexivity.
  - intros i H0 H1 Hi.
    rewrite (thresholdLoop_skip _ _ _ _ _ _ _ H0).
    rewrite (thresholdLoop_take _ _ _ _ _ _ _ i H1 Hi), lookup_empty.
    change ([false; true] !! 1%nat) with (Some true); cbv beta iota.
    now rewrite insert_empty.
  - intros i H0 Hi H1.
    rewrite (thresholdLoop_take _ _ _ _ _ _ _ i H0 Hi), lookup_empty.
    change ([false; true] !! 0%nat) with (Some false); cbv beta iota.
    rewrite (thresholdLoop_skip _ _ _ _ _ _ _ H1).
    now rewrite insert_empty.
  - intros H0 H1.
    rewrite (thresholdLoop_skip _ _ _ _ _ _ _ H0).
    now rewrite (thresholdLoop_skip _ _ _ _ _ _ _ H1).
  - intros i j H0 Hi H1 Hj Hij.
    rewrite (thresholdLoop_take _ _ _ _ _ _ _ i H0 Hi), lookup_empty.
    change ([false; true] !! 0%nat) with (Some false); cbv beta iota.
    rewrite (thresholdLoop_take _ _ _ _ _ _ _ j H1 Hj).
    rewrite insert_empty, lookup_singleton_ne by done. reflexivity.
Qed.

(** The loop reads the index function at the given VRF outputs only. *)
Lemma thresholdLoop_ext (G' : list byte -> Z -> Z -> Z * option Error) ids thr n vrfs :
  (forall v, v ∈ vrfs -> GetIndexForVrf v n thr = G' v n thr) ->
  forall k indexes,
    lavaprotocol.thresholdLoop GetIndexForVrf ids thr n k vrfs indexes
    = lavaprotocol.thresholdLoop G' ids thr n k vrfs indexes.
Proof.
  induction vrfs as [|v rest IH]; intros Hext k indexes; [reflexivity|].
  simpl. rewrite <- (Hext v) by apply list_elem_of_here.
  assert (Hrest : forall w, w ∈ rest -> GetIndexForVrf w n thr = G' w n thr)
    by (intros w Hw; apply Hext; now apply list_elem_of_further).
  destruct (GetIndexForVrf v n thr) as [i e].
  destruct ((i =? -1) || bool_decide (e <> None)); [now apply IH|].
  destruct (indexes !! i); [now apply IH|].
  destruct (ids !! k); [now apply IH | reflexivity].
Qed.

(** C9.  Two calls with identical VRF outputs, identical differentiators,
    identical threshold and identical providers count return identical index
    maps; the map depends on the index function through its values at the
    given VRF outputs only. *)
Theorem DataReliabilityThresholdToSession_deterministic
    (G' : list byte -> Z -> Z -> Z * option Error)
    (vrfs vrfs' : list (list byte)) (ids ids' : list bool) (thr thr' n n' : Z) :
  vrfs = vrfs' -> ids = ids' -> thr = thr' -> n = n' ->
  (forall v, v ∈ vrfs -> GetIndexForVrf v n thr = G' v n thr) ->
  lavaprotocol.DataReliabilityThresholdToSession GetIndexForVrf vrfs ids thr n
  = lavaprotocol.DataReliabilityThresholdToSession G' vrfs' ids' thr' n'.
Proof.
  intros <- <- <- <- Hext.
  unfold lavaprotocol.DataReliabilityThresholdToSession.
  now apply thresholdLoop_ext.
Qed.

End ThresholdFacts.

Lemma VrfToIndex_scenario :
  lavaprotocol.VrfToIndex Scenario.vrf0 3 10 = (1, None) /\
  lavaprotocol.VrfToIndex Scenario.vrf1 3 10 = (1, None).
Proof. split; reflexivity. Qed.

Lemma DataReliabilityThresholdToSession_keeps_first_witness :
  lavaprotocol.VrfToIndex Scenario.vrf0 3 10 = (1, None) /\
  lavaprotocol.VrfToIndex Scenario.vrf1 3 10 = (1, None) /\
  1 <> -1 /\
  lavaprotocol.DataReliabilityThresholdToSession lavaprotocol.VrfToIndex
    [Scenario.vrf0; Scenario.vrf1] [false; true] 10 3 = Some {[ 1 := false ]}.
Proof.
  split; [reflexivity|]. split; [reflexivity|]. split; [lia|].
  apply (proj1 (DataReliabilityThresholdToSession_keeps_first lavaprotocol.VrfToIndex
                  Scenario.vrf0 Scenario.vrf1 10 3) 1);
    [reflexivity | reflexivity | lia].
Defined.

(** C2 as stated fails: both VRF outputs fall on index 1, and the map does
    not hold [true] there. *)
Lemma DataReliabilityThresholdToSession_not_true_on_collision :
  lavaprotocol.VrfToIndex Scenario.vrf0 3 10 = (1, None) /\
  lavaprotocol.VrfToIndex Scenario.vrf1 3 10 = (1, None) /\
  ~ (exists m : gmap Z bool,
        lavaprotocol.DataReliabilityThresholdToSession lavaprotocol.VrfToIndex
          [Scenario.vrf0; Scenario.vrf1] [false; true] 10 3 = Some m
        /\ m !! 1 = Some true).
Proof.
  split; [reflexivity|]. split; [reflexivity|].
  intros [m [Hrun Hm]]. vm_compute in Hrun. injection Hrun as <-.
  vm_compute in Hm. discriminate.
Qed.

Lemma DataReliabilityThresholdToSession_deterministic_witness :
  let vrfs := [Scenario.vrf0; Scenario.vrf1] in
  (vrfs = vrfs /\ [false; true] = [false; true] /\ 10 = 10 /\ 3 = 3 /\
   (forall v, v ∈ vrfs -> lavaprotocol.VrfToIndex v 3 10 = lavaprotocol.VrfToIndex v 3 10)) /\
  lavaprotocol.DataReliabilityThresholdToSession lavaprotocol.VrfToIndex
    vrfs [false; true] 10 3
  = lavaprotocol.DataReliabilityThresholdToSession lavaprotocol.VrfToIndex
      vrfs [false; true] 10 3.
Proof.
  split; [repeat split; reflexivity|].
  apply (DataReliabilityThresholdToSession_deterministic
           lavaprotocol.VrfToIndex lavaprotocol.VrfToIndex);
    reflexivity.
Defined.

(** ** Comparing replies *)

Lemma bytes_Compare_refl (a : list byte) : lavaprotocol.bytes_Compare a a = 0.
Proof.
  induction a as [|x a IH]; [reflexivity|].
  simpl. now rewrite N.compare_refl.
Qed.

Lemma bytes_Compare_eq (a b : list byte) : lavaprotocol.bytes_Compare a b = 0 <-> a = b.
Proof.
  split; [|intros ->; apply bytes_Compare_refl].
  revert b. induction a as [|x a IH]; intros [|y b]; simpl; try discriminate.
  - reflexivity.
  - destruct (N.compare_spec (Byte.to_N x) (Byte.to_N y)) as [Heq | _ | _];
      try discriminate.
    intros H. f_equal; [|now apply IH].
    assert (Hx := Byte.of_to_N x). rewrite Heq, Byte.of_to_N in Hx. congruence.
Qed.

(** What a comparison returns: never a raised flag, and the record of the
    two results exactly when their reply data differ. *)
Lemma compareRelaysFindConflict_differ (r1 r2 : lavaprotocol.RelayResult.t) :
  lavaprotocol.compareRelaysFindConflict r1 r2 =
  (false,
   if bool_decide (lavaprotocol.RelayReply.Data (lavaprotocol.RelayResult.Reply r1)
                   = lavaprotocol.RelayReply.Data (lavaprotocol.RelayResult.Reply r2))
   then None
   else Some (Audit.conflictOf r1 r2)).
Proof.
  unfold lavaprotocol.compareRelaysFindConflict.
  case_bool_decide as Hd.
  - rewrite (proj2 (bytes_Compare_eq _ _) Hd). reflexivity.
  - destruct (Z.eqb_spec (lavaprotocol.bytes_Compare
        (lavaprotocol.RelayReply.Data (lavaprotocol.RelayResult.Reply r1))
        (lavaprotocol.RelayReply.Data (lavaprotocol.RelayResult.Reply r2))) 0) as [E|E].
    + apply bytes_Compare_eq in E. contradiction.
    + reflexivity.
Qed.


(** C1, scenario 5 of the specification, on the code.  The original reply of
    B is 0xAA, the audits of A and C both reply 0xBB.  The claim expects two
    conflicts, B with A and B with C, and none of A with C;
    [VerifyReliabilityResults] reports no conflict at all: the flag is false
    and the list of conflicts empty, because [compareRelaysFindConflict]
    hands back its flag unset although it built the record of B with A and
    that of B with C. *)
Theorem VerifyReliabilityResults_two_agreeing_audits :
  lavaprotocol.VerifyReliabilityResults Scenario.originalB
    [Scenario.auditA; Scenario.auditC] 2
  = (false, [])
  /\ lavaprotocol.compareRelaysFindConflict Scenario.originalB Scenario.auditA
     = (false, Some (Audit.conflictOf Scenario.originalB Scenario.auditA))
  /\ lavaprotocol.compareRelaysFindConflict Scenario.originalB Scenario.auditC
     = (false, Some (Audit.conflictOf Scenario.originalB Scenario.auditC))
  /\ Audit.conflictsWithOriginal Scenario.originalB [Scenario.auditA; Scenario.auditC]
     = [Audit.conflictOf Scenario.originalB Scenario.auditA;
        Audit.conflictOf Scenario.originalB Scenario.auditC]
  /\ Audit.conflictsAmong [Scenario.auditA; Scenario.auditC] = [].
Proof. repeat split; vm_compute; reflexivity. Qed.

(** ** Blocking a provider *)

Lemma removeAddressLoop_absent (address : string) (whole : list string) (idx : nat)
    (rest : list string) :
  address ∉ rest ->
  lavasession.removeAddressLoop address whole idx rest
  = (Some AddressIndexWasNotFoundError, whole).
Proof.
  revert idx. induction rest as [|addr rest IH]; intros idx Hnot; [reflexivity|].
  simpl. rewrite bool_decide_eq_false_2.
  - apply IH. intros Hin. apply Hnot. now apply list_elem_of_further.
  - intros ->. apply Hnot. apply list_elem_of_here.
Qed.

Lemma removeAddressLoop_present (address : string) (pre l1 l2 : list string) :
  address ∉ l1 ->
  lavasession.removeAddressLoop address (pre ++ l1 ++ address :: l2) (length pre)
    (l1 ++ address :: l2)
  = (None, pre ++ l1 ++ l2).
Proof.
  revert pre. induction l1 as [|x l1 IH]; intros pre Hnot.
  - simpl. rewrite bool_decide_eq_true_2 by reflexivity.
    rewrite take_app_length.
    replace (S (length pre)) with (length (pre ++ [address])) by
      (rewrite length_app; simpl; lia).
    replace (pre ++ address :: l2) with ((pre ++ [address]) ++ l2) by
      (now rewrite <- app_assoc).
    now rewrite drop_app_length.
  - simpl. rewrite bool_decide_eq_false_2.
    + replace (S (length pre)) with (length (pre ++ [x])) by
        (rewrite length_app; simpl; lia).
      replace (pre ++ x :: l1 ++ address :: l2)
        with ((pre ++ [x]) ++ l1 ++ address :: l2) by (now rewrite <- app_assoc).
      rewrite IH.
      * now rewrite <- app_assoc.
      * intros Hin. apply Hnot. now apply list_elem_of_further.
    + intros ->. apply Hnot. apply list_elem_of_here.
Qed.

(** The loop never fails with another error than "not found". *)
Lemma removeAddressLoop_error (address : string) (whole : list string) (idx : nat)
    (rest : list string) :
  fst (lavasession.removeAddressLoop address whole idx rest) = None \/
  fst (lavasession.removeAddressLoop address whole idx rest)
  = Some AddressIndexWasNotFoundError.
Proof.
  revert idx. induction rest as [|addr rest IH]; intros idx; simpl; [now right|].
  case_bool_decide; [now left | apply IH].
Qed.

Lemma set_addedToPurgeAndReport_same (csm : lavasession.ConsumerSessionManager) :
  lavasession.set_addedToPurgeAndReport csm (lavasession.addedToPurgeAndReport csm) = csm.
Proof. now destruct csm. Qed.

(** With a stale session epoch nothing happens. *)
Lemma blockProvider_other_epoch (csm : lavasession.ConsumerSessionManager)
    (address : string) (reportProvider : bool) (sessionEpoch : Z) :
  sessionEpoch <> lavasession.currentEpoch csm ->
  lavasession.blockProvider csm address reportProvider sessionEpoch
  = (Some EpochMismatchError, csm).
Proof.
  intros Hne. unfold lavasession.blockProvider, lavasession.atomicReadCurrentEpoch.
  now rewrite bool_decide_eq_true_2.
Qed.

(** In the current epoch the call succeeds; the new manager differs from the
    old one in [validAddresses] and [addedToPurgeAndReport] only. *)
Lemma blockProvider_current_epoch (csm : lavasession.ConsumerSessionManager)
    (address : string) (reportProvider : bool) :
  lavasession.blockProvider csm address reportProvider (lavasession.currentEpoch csm)
  = (None,
     lavasession.set_addedToPurgeAndReport
       (lavasession.set_validAddresses csm
          (snd (lavasession.removeAddressLoop address (lavasession.validAddresses csm)
                  0%nat (lavasession.validAddresses csm))))
       (if reportProvider
        then {[address]} ∪ lavasession.addedToPurgeAndReport csm
        else lavasession.addedToPurgeAndReport csm)).
Proof.
  unfold lavasession.blockProvider, lavasession.atomicReadCurrentEpoch,
    lavasession.removeAddressFromValidAddresses.
  rewrite bool_decide_eq_false_2 by (intros H; now apply H).
  destruct (removeAddressLoop_error address (lavasession.validAddresses csm) 0%nat
              (lavasession.validAddresses csm)) as [He | He];
    destruct (lavasession.removeAddressLoop address (lavasession.validAddresses csm)
                0%nat (lavasession.validAddresses csm)) as [err valid];
    simpl in He; subst err; simpl.
  all: destruct reportProvider; [|now destruct csm].
  all: case_bool_decide as Hin; [|reflexivity].
  all: assert (Hsame : {[address]} ∪ lavasession.addedToPurgeAndReport csm
                       = lavasession.addedToPurgeAndReport csm) by set_solver.
  all: rewrite Hsame; now destruct csm.
Qed.

(** C6.  With a session epoch other than the current one [blockProvider]
    returns EpochMismatch and leaves the manager as it was.  With the current
    epoch it succeeds, takes the (first occurrence of the) address out of
    [validAddresses] - so that, in a list without repetition, the address is
    no longer a member and all others still are -, adds the address to the
    reported set exactly when the report flag is set, and leaves every other
    field alone. *)
Theorem blockProvider_blocks_in_current_epoch_only
    (csm : lavasession.ConsumerSessionManager) (address : string)
    (reportProvider : bool) (sessionEpoch : Z) :
  let result := lavasession.blockProvider csm address reportProvider sessionEpoch in
  let csm' := snd result in
  (sessionEpoch <> lavasession.currentEpoch csm ->
     result = (Some EpochMismatchError, csm)) /\
  (sessionEpoch = lavasession.currentEpoch csm ->
     fst result = None /\
     (address ∉ lavasession.validAddresses csm ->
        lavasession.validAddresses csm' = lavasession.validAddresses csm) /\
     (forall l1 l2 : list string,
        lavasession.validAddresses csm = l1 ++ address :: l2 -> address ∉ l1 ->
        lavasession.validAddresses csm' = l1 ++ l2) /\
     (NoDup (lavasession.validAddresses csm) ->
        forall a : string,
          a ∈ lavasession.validAddresses csm'
          <-> a ∈ lavasession.validAddresses csm /\ a <> address) /\
     (forall a : string,
        a ∈ lavasession.addedToPurgeAndReport csm'
        <-> a ∈ lavasession.addedToPurgeAndReport csm
            \/ (reportProvider = true /\ a = address)) /\
     lavasession.pairing csm' = lavasession.pairing csm /\
     lavasession.pairingPurge csm' = lavasession.pairingPurge csm /\
     lavasession.pairingAddresses csm' = lavasession.pairingAddresses csm /\
     lavasession.pairingAddressesLength csm' = lavasession.pairingAddressesLength csm /\
     lavasession.currentEpoch csm' = lavasession.currentEpoch csm /\
     lavasession.numberOfResets csm' = lavasession.numberOfResets csm).
Proof.
  intros result csm'. subst csm' result. split.
  - apply blockProvider_other_epoch.
  - intros ->. rewrite blockProvider_current_epoch. simpl.
    assert (Hpresent : forall l1 l2 : list string,
      lavasession.validAddresses csm = l1 ++ address :: l2 -> address ∉ l1 ->
      snd (lavasession.removeAddressLoop address (lavasession.validAddresses csm) 0%nat
             (lavasession.validAddresses csm)) = l1 ++ l2).
    { intros l1 l2 Hv Hl1. rewrite Hv.
      exact (f_equal snd (removeAddressLoop_present address [] l1 l2 Hl1)). }
    split; [reflexivity|].
    split; [intros Hnot; now rewrite removeAddressLoop_absent|].
    split; [exact Hpresent|].
    split; [|split; [|repeat split; reflexivity]].
    + intros Hnodup a.
      destruct (decide (address ∈ lavasession.validAddresses csm)) as [Hin | Hnot].
      * apply list_elem_of_split_l in Hin as (l1 & l2 & Hv & Hl1).
        rewrite (Hpresent l1 l2 Hv Hl1). rewrite Hv in Hnodup |- *.
        apply NoDup_app in Hnodup as (_ & Hdisj & Hnd).
        apply NoDup_cons in Hnd as [Hl2 _].
        rewrite !elem_of_app, elem_of_cons.
        split.
        -- intros [Ha | Ha]; (split; [tauto|]); intros ->; contradiction.
        -- intros [[Ha | [Ha | Ha]] Hne]; tauto.
      * rewrite removeAddressLoop_absent by exact Hnot. simpl.
        split; [|tauto]. intros Ha. split; [exact Ha|]. intros ->. contradiction.
    + intros a. destruct reportProvider; set_solver.
Qed.

Lemma blockProvider_blocks_in_current_epoch_only_witness :
  let csm' := snd (lavasession.blockProvider Scenario.csm7 "B" true 7) in
  7 = lavasession.currentEpoch Scenario.csm7 /\
  NoDup (lavasession.validAddresses Scenario.csm7) /\
  lavasession.validAddresses csm' = ["A"; "C"]%string /\
  ("B"%string ∉ lavasession.validAddresses csm') /\
  "B"%string ∈ lavasession.addedToPurgeAndReport csm'.
Proof.
  intros csm'.
  assert (Hepoch : 7 = lavasession.currentEpoch Scenario.csm7) by reflexivity.
  assert (Hnodup : NoDup (lavasession.validAddresses Scenario.csm7))
    by (simpl; repeat constructor; set_solver).
  destruct (blockProvider_blocks_in_current_epoch_only Scenario.csm7 "B" true 7)
    as [_ Hblock].
  destruct (Hblock Hepoch) as (_ & _ & Hcut & Hmember & Hreported & _).
  split; [exact Hepoch|]. split; [exact Hnodup|].
  split; [apply (Hcut ["A"%string] ["C"%string]); [reflexivity | set_solver]|].
  split.
  - intros Hin. apply (Hmember Hnodup) in Hin. tauto.
  - apply Hreported. right. split; reflexivity.
Defined.

(** Blocking with the report flag, in the current epoch: the address is
    reported, and it is out of a valid list without repetition. *)
Lemma blockProvider_reports (csm : lavasession.ConsumerSessionManager) (address : string) :
  let csm' := snd (lavasession.blockProvider csm address true (lavasession.currentEpoch csm)) in
  address ∈ lavasession.addedToPurgeAndReport csm' /\
  (NoDup (lavasession.validAddresses csm) -> address ∉ lavasession.validAddresses csm').
Proof.
  intros csm'. subst csm'. rewrite blockProvider_current_epoch. simpl. split.
  - set_solver.
  - intros Hnodup.
    destruct (decide (address ∈ lavasession.validAddresses csm)) as [Hin | Hnot].
    + apply list_elem_of_split_l in Hin as (l1 & l2 & Hv & Hl1).
      assert (Hr : snd (lavasession.removeAddressLoop address
                          (lavasession.validAddresses csm) 0%nat
                          (lavasession.validAddresses csm)) = l1 ++ l2).
      { rewrite Hv.
        exact (f_equal snd (removeAddressLoop_present address [] l1 l2 Hl1)). }
      rewrite Hr. rewrite Hv in Hnodup.
      apply NoDup_app in Hnodup as (_ & _ & Hnd).
      apply NoDup_cons in Hnd as [Hl2 _].
      rewrite elem_of_app. tauto.
    + now rewrite removeAddressLoop_absent.
Qed.

(** [blockProvider] fails with EpochMismatch only. *)
Lemma blockProvider_error (csm : lavasession.ConsumerSessionManager) (address : string)
    (reportProvider : bool) (sessionEpoch : Z) :
  fst (lavasession.blockProvider csm address reportProvider sessionEpoch) = None \/
  fst (lavasession.blockProvider csm address reportProvider sessionEpoch)
  = Some EpochMismatchError.
Proof.
  destruct (decide (sessionEpoch = lavasession.currentEpoch csm)) as [-> | Hne].
  - left. now rewrite blockProvider_current_epoch.
  - right. now rewrite blockProvider_other_epoch.
Qed.

(** ** Releasing a session after a failure *)

Section ReleaseFacts.

Variable decreaseUsedComputeUnits :
  lavasession.ConsumerSessionsWithProvider -> Z ->
  option Error * lavasession.ConsumerSessionsWithProvider.

(** What [OnSessionFailure] does with the manager once the session is
    settled: block, and report, as the flags say. *)
Lemma OnSessionFailure_block_step (csm : lavasession.ConsumerSessionManager)
    (parent : lavasession.ConsumerSessionsWithProvider)
    (cs : lavasession.SingleConsumerSession) (blockFlag reportFlag : bool) :
  (if blockFlag then
     let '(publicProviderAddress, pairingEpoch) :=
       lavasession.getPublicLavaAddressAndPairingEpoch parent in
     let '(err1, csm1) :=
       lavasession.blockProvider csm publicProviderAddress reportFlag pairingEpoch in
     if bool_decide (err1 <> None) then
       if Is EpochMismatchError err1 then (None, csm1, parent, cs)
       else (err1, csm1, parent, cs)
     else (None, csm1, parent, cs)
   else (None, csm, parent, cs))
  = (None,
     if blockFlag
     then snd (lavasession.blockProvider csm (lavasession.PublicLavaAddress parent)
                 reportFlag (lavasession.PairingEpoch parent))
     else csm,
     parent, cs).
Proof.
  destruct blockFlag; [|reflexivity].
  unfold lavasession.getPublicLavaAddressAndPairingEpoch.
  destruct (blockProvider_error csm (lavasession.PublicLavaAddress parent) reportFlag
              (lavasession.PairingEpoch parent)) as [He | He];
    destruct (lavasession.blockProvider csm (lavasession.PublicLavaAddress parent)
                reportFlag (lavasession.PairingEpoch parent)) as [err1 csm1];
    simpl in He; subst err1; reflexivity.
Qed.

(** C10.  A failure reported on a session that is already block-listed is
    refused and changes nothing: manager, provider entry and session are
    handed back as they were.  The error is SessionIsAlreadyBlockListed when
    the caller holds the lock of the session, as the function requires
    (without the lock the misuse error comes first). *)
Theorem OnSessionFailure_block_listed_is_refused
    (csm : lavasession.ConsumerSessionManager)
    (parent : lavasession.ConsumerSessionsWithProvider)
    (cs : lavasession.SingleConsumerSession) (errorReceived : RelayError) :
  lavasession.BlockListed cs = true ->
  (exists e : Error,
      lavasession.OnSessionFailure decreaseUsedComputeUnits csm parent cs errorReceived
      = (Some e, csm, parent, cs)) /\
  (lavasession.locked cs = true ->
     lavasession.OnSessionFailure decreaseUsedComputeUnits csm parent cs errorReceived
     = (Some SessionIsAlreadyBlockListedError, csm, parent, cs)).
Proof.
  intros Hblocked. unfold lavasession.OnSessionFailure, lavasession.verifyLock.
  rewrite Hblocked. destruct (lavasession.locked cs); split; eauto; discriminate.
Qed.

(** The entry's method subtracts when the units are there (section 4.2 of
    the specification: "subtract latestRelayCu from entry.usedCU"). *)
Hypothesis decreaseUsedComputeUnits_subtracts :
  forall (p : lavasession.ConsumerSessionsWithProvider) (cu : Z),
    0 <= cu <= lavasession.UsedComputeUnits p ->
    decreaseUsedComputeUnits p cu
    = (None, lavasession.set_UsedComputeUnits p (lavasession.UsedComputeUnits p - cu)).

(** C5.  On a locked session that is not block-listed, whose relay units
    are booked on the provider entry, [OnSessionFailure] succeeds and:
    counts the failure and the relay; block-lists the session exactly when
    the new number of consecutive failures exceeds 3 or the status code is
    that of SessionOutOfSync; takes [LatestRelayCu] off the entry's used
    units and zeroes it; unlocks the session; calls [blockProvider] when the
    error asks for it or when the session became block-listed with no used
    units left on the entry - in that last case with the report flag, so
    that, the entry being of the current epoch, the provider is reported and
    (in a valid list without repetition) no longer valid. *)
Theorem OnSessionFailure_counts_and_blocks
    (csm : lavasession.ConsumerSessionManager)
    (parent : lavasession.ConsumerSessionsWithProvider)
    (cs : lavasession.SingleConsumerSession) (errorReceived : RelayError) :
  lavasession.locked cs = true ->
  lavasession.BlockListed cs = false ->
  0 <= lavasession.LatestRelayCu cs <= lavasession.UsedComputeUnits parent ->
  let failures := U64.add (lavasession.ConsecutiveNumberOfFailures cs) 1 in
  let used := lavasession.UsedComputeUnits parent - lavasession.LatestRelayCu cs in
  let address := lavasession.PublicLavaAddress parent in
  exists (csm' : lavasession.ConsumerSessionManager)
         (parent' : lavasession.ConsumerSessionsWithProvider)
         (cs' : lavasession.SingleConsumerSession),
    lavasession.OnSessionFailure decreaseUsedComputeUnits csm parent cs errorReceived
    = (None, csm', parent', cs') /\
    lavasession.ConsecutiveNumberOfFailures cs' = failures /\
    lavasession.TotalRelays (lavasession.QoS cs')
    = U64.add (lavasession.TotalRelays (lavasession.QoS cs)) 1 /\
    (lavasession.BlockListed cs' = true
     <-> 3 < failures \/ statusCodeIsSessionOutOfSync errorReceived = true) /\
    lavasession.LatestRelayCu cs' = 0 /\
    lavasession.locked cs' = false /\
    lavasession.CuSum cs' = lavasession.CuSum cs /\
    lavasession.RelayNum cs' = lavasession.RelayNum cs /\
    parent' = lavasession.set_UsedComputeUnits parent used /\
    csm' =
      (if isReportAndBlockProviderError errorReceived
          || isBlockProviderError errorReceived
          || (lavasession.BlockListed cs' && (used =? 0))
       then snd (lavasession.blockProvider csm address
                   (isReportAndBlockProviderError errorReceived
                    || (lavasession.BlockListed cs' && (used =? 0)))
                   (lavasession.PairingEpoch parent))
       else csm) /\
    (lavasession.BlockListed cs' = true -> used = 0 ->
       csm' = snd (lavasession.blockProvider csm address true
                     (lavasession.PairingEpoch parent)) /\
       (lavasession.PairingEpoch parent = lavasession.currentEpoch csm ->
          address ∈ lavasession.addedToPurgeAndReport csm' /\
          (NoDup (lavasession.validAddresses csm) ->
             address ∉ lavasession.validAddresses csm'))).
Proof.
  intros Hlocked Hfree Hcu failures used address.
  unfold lavasession.OnSessionFailure, lavasession.verifyLock.
  rewrite Hlocked, Hfree.
  unfold lavasession.MaximumNumberOfFailuresAllowedPerConsumerSession.
  cbn [lavasession.ConsecutiveNumberOfFailures lavasession.set_QoS
       lavasession.set_ConsecutiveNumberOfFailures].
  fold failures.
  set (listed := (3 <? failures) || statusCodeIsSessionOutOfSync errorReceived).
  assert (Hlisted : listed = true
                    <-> 3 < failures \/ statusCodeIsSessionOutOfSync errorReceived = true).
  { subst listed. rewrite orb_true_iff, Z.ltb_lt. tauto. }
  set (cs2 := lavasession.set_ConsecutiveNumberOfFailures _ failures).
  set (cs3 := if listed then lavasession.set_BlockListed cs2 true else cs2).
  assert (Hcu3 : lavasession.LatestRelayCu cs3 = lavasession.LatestRelayCu cs)
    by (subst cs3 cs2; now destruct listed).
  assert (Hlisted3 : lavasession.BlockListed cs3 = listed)
    by (subst cs3 cs2; destruct listed; [reflexivity | exact Hfree]).
  rewrite Hcu3, (decreaseUsedComputeUnits_subtracts parent _ Hcu).
  fold used. unfold lavasession.atomicReadUsedComputeUnits.
  cbn [lavasession.UsedComputeUnits lavasession.set_UsedComputeUnits].
  set (flags0 := if isReportAndBlockProviderError errorReceived then (true, true)
                 else if isBlockProviderError errorReceived then (true, false)
                 else (false, false)).
  set (flags1 := if listed && (used =? 0) then (true, true) else flags0).
  assert (Hflags :
    flags1 = (isReportAndBlockProviderError errorReceived
              || isBlockProviderError errorReceived || (listed && (used =? 0)),
              isReportAndBlockProviderError errorReceived || (listed && (used =? 0)))).
  { subst flags1 flags0.
    destruct (isReportAndBlockProviderError errorReceived),
      (isBlockProviderError errorReceived), (listed && (used =? 0)); reflexivity. }
  destruct flags0 as [b0 r0] eqn:E0. fold flags1. rewrite Hflags.
  rewrite OnSessionFailure_block_step.
  eexists _, _, _. split; [reflexivity|].
  cbn [lavasession.ConsecutiveNumberOfFailures lavasession.TotalRelays lavasession.QoS
       lavasession.BlockListed lavasession.LatestRelayCu lavasession.locked
       lavasession.CuSum lavasession.RelayNum lavasession.Unlock
       lavasession.set_locked lavasession.set_LatestRelayCu].
  rewrite Hlisted3.
  split; [subst cs3 cs2; now destruct listed|].
  split; [subst cs3 cs2; now destruct listed|].
  split; [exact Hlisted|].
  split; [reflexivity|].
  split; [reflexivity|].
  split; [subst cs3 cs2; now destruct listed|].
  split; [subst cs3 cs2; now destruct listed|].
  split; [reflexivity|].
  split; [reflexivity|].
  intros -> Hused. rewrite Hused. simpl. rewrite !orb_true_r.
  split; [reflexivity|].
  intros ->. apply blockProvider_reports.
Qed.

End ReleaseFacts.

Lemma decreaseUsedComputeUnits_spec_subtracts
    (p : lavasession.ConsumerSessionsWithProvider) (cu : Z) :
  0 <= cu <= lavasession.UsedComputeUnits p ->
  lavasession.decreaseUsedComputeUnits_spec p cu
  = (None, lavasession.set_UsedComputeUnits p (lavasession.UsedComputeUnits p - cu)).
Proof.
  intros Hcu. unfold lavasession.decreaseUsedComputeUnits_spec.
  destruct (Z.ltb_spec (lavasession.UsedComputeUnits p) cu); [lia | reflexivity].
Qed.

Lemma OnSessionFailure_block_listed_is_refused_witness :
  lavasession.BlockListed (Scenario.session 10 4 true) = true /\
  lavasession.OnSessionFailure lavasession.decreaseUsedComputeUnits_spec Scenario.csm7
    (Scenario.provider "B" 10 7) (Scenario.session 10 4 true) Scenario.deadlineExceeded
  = (Some SessionIsAlreadyBlockListedError, Scenario.csm7, Scenario.provider "B" 10 7,
     Scenario.session 10 4 true).
Proof.
  split; [reflexivity|].
  apply (OnSessionFailure_block_listed_is_refused
           lavasession.decreaseUsedComputeUnits_spec Scenario.csm7
           (Scenario.provider "B" 10 7) (Scenario.session 10 4 true)
           Scenario.deadlineExceeded);
    reflexivity.
Defined.

(** The fourth failure in a row of the only relay ever sent to B. *)
Lemma OnSessionFailure_counts_and_blocks_witness :
  (lavasession.locked (Scenario.session 10 3 false) = true /\
   lavasession.BlockListed (Scenario.session 10 3 false) = false /\
   0 <= lavasession.LatestRelayCu (Scenario.session 10 3 false)
     <= lavasession.UsedComputeUnits (Scenario.provider "B" 10 7)) /\
  exists (csm' : lavasession.ConsumerSessionManager)
         (parent' : lavasession.ConsumerSessionsWithProvider)
         (cs' : lavasession.SingleConsumerSession),
    lavasession.OnSessionFailure lavasession.decreaseUsedComputeUnits_spec Scenario.csm7
      (Scenario.provider "B" 10 7) (Scenario.session 10 3 false) Scenario.deadlineExceeded
    = (None, csm', parent', cs') /\
    lavasession.ConsecutiveNumberOfFailures cs' = 4 /\
    lavasession.BlockListed cs' = true /\
    lavasession.UsedComputeUnits parent' = 0 /\
    "B"%string ∈ lavasession.addedToPurgeAndReport csm' /\
    "B"%string ∉ lavasession.validAddresses csm'.
Proof.
  split; [repeat split; try reflexivity; simpl; lia|].
  destruct (OnSessionFailure_counts_and_blocks
              lavasession.decreaseUsedComputeUnits_spec
              decreaseUsedComputeUnits_spec_subtracts
              Scenario.csm7 (Scenario.provider "B" 10 7) (Scenario.session 10 3 false)
              Scenario.deadlineExceeded)
    as (csm' & parent' & cs' & Hrun & Hfail & _ & Hlisted & _ & _ & _ & _ & Hparent
        & _ & Hblock);
    [reflexivity | reflexivity | simpl; lia |].
  exists csm', parent', cs'.
  assert (Hl : lavasession.BlockListed cs' = true)
    by (apply Hlisted; left; reflexivity).
  destruct (Hblock Hl eq_refl) as [_ Hreport].
  destruct (Hreport eq_refl) as [Hin Hout].
  split; [exact Hrun|]. split; [exact Hfail|]. split; [exact Hl|].
  split; [now rewrite Hparent|]. split; [exact Hin|].
  apply Hout. repeat constructor; set_solver.
Defined.

(** ** Picking a provider *)

(** The scan returns the address at position [validAddressIndex] among the
    addresses that are not ignored. *)
Lemma scanValidAddresses_nth (ignored : gset string) (target : Z)
    (addresses : list string) (counter : Z) :
  counter <= target ->
  lavasession.scanValidAddresses ignored target addresses counter
  = match filter (fun a => a ∉ ignored) addresses !! Z.to_nat (target - counter) with
    | Some a => (a, None)
    | None => (EmptyString, Some UnreachableCodeError)
    end.
Proof.
  revert counter. induction addresses as [|address rest IH]; intros counter Hle.
  - reflexivity.
  - simpl. rewrite filter_cons. case_bool_decide as Hin.
    + rewrite decide_False by tauto. now apply IH.
    + rewrite decide_True by exact Hin.
      destruct (Z.eqb_spec counter target) as [-> | Hne].
      * now rewrite Z.sub_diag.
      * rewrite IH by lia.
        replace (Z.to_nat (target - counter))
          with (S (Z.to_nat (target - (counter + 1)))) by lia.
        reflexivity.
Qed.

Lemma filter_complement_length (ignored : gset string) (valid : list string) :
  (length (filter (fun a => a ∉ ignored) valid)
   + length (filter (fun a => a ∈ ignored) valid) = length valid)%nat.
Proof.
  induction valid as [|a valid IH]; [reflexivity|].
  rewrite !filter_cons. destruct (decide (a ∈ ignored)).
  - rewrite decide_False by tauto. simpl. lia.
  - rewrite decide_True by assumption. simpl. lia.
Qed.

(** When the ignored addresses are all valid and no valid address is
    repeated, the difference of the two lengths counts the candidates. *)
Lemma candidates_length (ignored : gset string) (valid : list string) :
  NoDup valid -> (forall a, a ∈ ignored -> a ∈ valid) ->
  Z.of_nat (length (filter (fun a => a ∉ ignored) valid))
  = Z.of_nat (length valid) - Z.of_nat (size ignored).
Proof.
  intros Hnodup Hsub.
  assert (Hsize : size ignored = length (filter (fun a => a ∈ ignored) valid)).
  { rewrite <- (size_list_to_set (C := gset string))
      by (apply NoDup_filter; exact Hnodup).
    f_equal. apply set_eq. intros a.
    rewrite elem_of_list_to_set, list_elem_of_filter. split; [|tauto].
    intros Ha. split; [exact Ha | now apply Hsub]. }
  pose proof (filter_complement_length ignored valid). lia.
Qed.

Section SelectionFacts.

Variable Intn : Z -> Z.

(** [rand.Intn(n)] is a number of the half-open interval [0, n). *)
Hypothesis Intn_range : forall n : Z, 0 < n -> 0 <= Intn n < n.

(** The selection in one equation: the failure depends on the two lengths,
    the address returned is the one at the drawn position among the
    addresses that are not ignored. *)
Lemma getValidProviderAddress_position
    (csm : lavasession.ConsumerSessionManager) (ignored : gset string) :
  let valid := lavasession.validAddresses csm in
  let total := Z.of_nat (length valid) - Z.of_nat (size ignored) in
  lavasession.getValidProviderAddress Intn csm ignored
  = if total <=? 0 then (EmptyString, Some PairingListEmptyError)
    else match filter (fun a => a ∉ ignored) valid !! Z.to_nat (Intn total) with
         | Some a => (a, None)
         | None => (EmptyString, Some UnreachableCodeError)
         end.
Proof.
  intros valid total. unfold lavasession.getValidProviderAddress. fold valid total.
  destruct (total <=? 0) eqn:E; [reflexivity|].
  apply Z.leb_gt in E. rewrite scanValidAddresses_nth by (apply Intn_range; lia).
  now rewrite Z.sub_0_r.
Qed.

(** The failure with PairingListEmpty is a matter of the two lengths alone:
    the function does not look which addresses are ignored. *)
Lemma getValidProviderAddress_empty_by_count
    (csm : lavasession.ConsumerSessionManager) (ignored : gset string) :
  snd (lavasession.getValidProviderAddress Intn csm ignored) = Some PairingListEmptyError
  <-> Z.of_nat (length (lavasession.validAddresses csm)) - Z.of_nat (size ignored) <= 0.
Proof.
  rewrite getValidProviderAddress_position. cbv zeta.
  destruct (Z.leb_spec (Z.of_nat (length (lavasession.validAddresses csm))
                        - Z.of_nat (size ignored)) 0) as [Hle | Hgt].
  - simpl. tauto.
  - split; [|lia].
    destruct (filter (fun a => a ∉ ignored) (lavasession.validAddresses csm) !! _);
      discriminate.
Qed.

(** X31.  When no valid address is
    repeated and every ignored address is a valid one, the difference of the
    two lengths is the number of candidates - the valid addresses that are
    not ignored.  Then [getValidProviderAddress] fails with PairingListEmpty
    exactly when there is no candidate; otherwise the address returned is a
    candidate, the one at position [Intn total] of the [total] candidates in
    their order in the valid list, and every candidate stands at exactly one
    position: a uniform draw returns every candidate with the same
    probability. *)
Theorem getValidProviderAddress_uniform_over_candidates
    (csm : lavasession.ConsumerSessionManager) (ignored : gset string) :
  NoDup (lavasession.validAddresses csm) ->
  (forall a, a ∈ ignored -> a ∈ lavasession.validAddresses csm) ->
  let valid := lavasession.validAddresses csm in
  let total := Z.of_nat (length valid) - Z.of_nat (size ignored) in
  let candidates := filter (fun a => a ∉ ignored) valid in
  let result := lavasession.getValidProviderAddress Intn csm ignored in
  Z.of_nat (length candidates) = total /\
  (forall a, a ∈ candidates <-> a ∈ valid /\ a ∉ ignored) /\
  (snd result = Some PairingListEmptyError <-> forall a, a ∈ valid -> a ∈ ignored) /\
  ((exists a, a ∈ valid /\ a ∉ ignored) ->
     exists a, result = (a, None) /\ a ∈ valid /\ (a ∉ ignored) /\
               candidates !! Z.to_nat (Intn total) = Some a) /\
  (forall a, a ∈ valid -> a ∉ ignored ->
     exists k, 0 <= k < total /\ candidates !! Z.to_nat k = Some a /\
               forall k', 0 <= k' < total ->
                          candidates !! Z.to_nat k' = Some a -> k' = k).
Proof.
  intros Hnodup Hsub valid total candidates result.
  assert (Hresult :
    result = if total <=? 0 then (EmptyString, Some PairingListEmptyError)
             else match candidates !! Z.to_nat (Intn total) with
                  | Some a => (a, None)
                  | None => (EmptyString, Some UnreachableCodeError)
                  end)
    by apply getValidProviderAddress_position.
  assert (Hempty : snd result = Some PairingListEmptyError <-> total <= 0)
    by apply getValidProviderAddress_empty_by_count.
  pose proof (candidates_length ignored valid Hnodup Hsub) as Hlen.
  fold candidates total in Hlen.
  assert (Hmem : forall a, a ∈ candidates <-> a ∈ valid /\ a ∉ ignored).
  { intros a. subst candidates. rewrite list_elem_of_filter. tauto. }
  assert (Hnone : total <= 0 <-> forall a, a ∈ valid -> a ∈ ignored).
  { split.
    - intros Hle a Ha. destruct (decide (a ∈ ignored)) as [|Hnot]; [assumption|].
      assert (Hc : a ∈ candidates) by (apply Hmem; tauto).
      destruct candidates; [inversion Hc | simpl in Hlen; lia].
    - intros Hall. destruct candidates as [|a rest] eqn:E; [simpl in Hlen; lia|].
      assert (Hc : a ∈ valid /\ a ∉ ignored) by (apply Hmem; apply list_elem_of_here).
      destruct Hc as [Hv Hi]. elim Hi. now apply Hall. }
  split; [exact Hlen|]. split; [exact Hmem|].
  split; [rewrite Hempty; exact Hnone|].
  split.
  - intros (a0 & Hv0 & Hi0).
    assert (Hpos : 0 < total).
    { destruct (Z.leb_spec total 0) as [Hle|]; [|lia].
      elim Hi0. now apply (proj1 Hnone Hle). }
    pose proof (Intn_range total Hpos) as Hdraw.
    destruct (lookup_lt_is_Some_2 candidates (Z.to_nat (Intn total))) as [a Ha]; [lia|].
    exists a. rewrite Hresult, Ha.
    destruct (Z.leb_spec total 0); [lia|].
    assert (Hc : a ∈ candidates) by (apply list_elem_of_lookup; eauto).
    apply Hmem in Hc. tauto.
  - intros a Hv Hi.
    assert (Hc : a ∈ candidates) by (apply Hmem; tauto).
    apply list_elem_of_lookup in Hc as [i Hi'].
    pose proof (lookup_lt_Some _ _ _ Hi') as Hlt.
    exists (Z.of_nat i). rewrite Nat2Z.id. split; [lia|]. split; [exact Hi'|].
    intros k' Hk' Hlook.
    assert (Hnd : NoDup candidates) by (apply NoDup_filter; exact Hnodup).
    pose proof (NoDup_lookup _ _ _ _ Hnd Hlook Hi'). lia.
Qed.

End SelectionFacts.

Lemma getValidProviderAddress_uniform_over_candidates_witness :
  let Intn := fun n : Z => n - 1 in
  let ignored : gset string := {[ "A"%string ]} in
  (forall n : Z, 0 < n -> 0 <= Intn n < n) /\
  NoDup (lavasession.validAddresses Scenario.csm7) /\
  (forall a, a ∈ ignored -> a ∈ lavasession.validAddresses Scenario.csm7) /\
  (exists a, a ∈ lavasession.validAddresses Scenario.csm7 /\ a ∉ ignored) /\
  exists a, lavasession.getValidProviderAddress Intn Scenario.csm7 ignored = (a, None) /\
            a ∈ lavasession.validAddresses Scenario.csm7 /\ a ∉ ignored.
Proof.
  intros Intn ignored.
  assert (HIntn : forall n : Z, 0 < n -> 0 <= Intn n < n) by (intros n Hn; unfold Intn; lia).
  assert (Hnodup : NoDup (lavasession.validAddresses Scenario.csm7))
    by (simpl; repeat constructor; set_solver).
  assert (Hsub : forall a, a ∈ ignored -> a ∈ lavasession.validAddresses Scenario.csm7)
    by (intros a Ha; simpl; set_solver).
  assert (Hsome : exists a, a ∈ lavasession.validAddresses Scenario.csm7 /\ a ∉ ignored)
    by (exists "B"%string; simpl; set_solver).
  split; [exact HIntn|]. split; [exact Hnodup|]. split; [exact Hsub|].
  split; [exact Hsome|].
  destruct (getValidProviderAddress_uniform_over_candidates Intn HIntn Scenario.csm7
              ignored Hnodup Hsub) as (_ & _ & _ & Hpick & _).
  destruct (Hpick Hsome) as (a & Hrun & Hv & Hi & _).
  exists a. tauto.
Defined.

(** C3 on the code.  Of the pairing A, B, C the providers A and C were
    blocked, and A, excluded by the caller after its relay failed, is still
    in the exclusion set.  B is valid and not excluded, and yet the
    selection fails with PairingListEmpty, whatever number is drawn: the
    function takes the difference of the two lengths, 1 - 1, for the number
    of candidates. *)
Theorem getValidProviderAddress_misses_candidate (Intn : Z -> Z) :
  let ignored : gset string := {[ "A"%string ]} in
  let blocked :=
    snd (lavasession.blockProvider
           (snd (lavasession.blockProvider Scenario.csm7 "A" true 7)) "C" true 7) in
  lavasession.validAddresses blocked = ["B"%string] /\
  lavasession.getValidProviderAddress Intn blocked ignored
  = (EmptyString, Some PairingListEmptyError) /\
  "B"%string ∈ lavasession.validAddresses blocked /\
  "B"%string ∉ ignored.
Proof.
  intros ignored blocked.
  assert (Hvalid : lavasession.validAddresses blocked = ["B"%string])
    by (vm_compute; reflexivity).
  split; [exact Hvalid|]. split.
  - unfold lavasession.getValidProviderAddress. rewrite Hvalid. subst ignored.
    rewrite size_singleton. reflexivity.
  - rewrite Hvalid. subst ignored. split; set_solver.
Qed.

(** With the valid addresses B and C and the blocked provider A still in the
    exclusion set, every draw returns B: C is a candidate that is never
    picked. *)
Lemma getValidProviderAddress_never_picks_last (Intn : Z -> Z) :
  (forall n : Z, 0 < n -> 0 <= Intn n < n) ->
  lavasession.getValidProviderAddress Intn
    (lavasession.set_validAddresses Scenario.csm7 ["B"; "C"]%string) {[ "A"%string ]}
  = ("B"%string, None).
Proof.
  intros Hrange. unfold lavasession.getValidProviderAddress.
  change (Z.of_nat (length (lavasession.validAddresses
            (lavasession.set_validAddresses Scenario.csm7 ["B"; "C"]%string)))) with 2.
  replace (Z.of_nat (size ({[ "A"%string ]} : gset string))) with 1
    by (now rewrite size_singleton).
  change (2 - 1 <=? 0) with false. cbv iota.
  assert (Hdraw : Intn (2 - 1) = 0) by (pose proof (Hrange (2 - 1)); lia).
  rewrite Hdraw. simpl.
  rewrite bool_decide_eq_false_2 by set_solver. reflexivity.
Qed.

(** ** Rotating the pairing *)

Lemma fold_fillValidAddress (entries : list (Z * string)) (pre : list string) :
  fst (fold_left lavasession.fillValidAddress entries
         (pre ++ replicate (length entries) EmptyString, length pre))
  = pre ++ entries.*2.
Proof.
  revert pre. induction entries as [|e entries IH]; intros pre.
  - simpl. now rewrite !app_nil_r.
  - cbn [fold_left length replicate]. unfold lavasession.fillValidAddress at 2.
    cbn [fst snd].
    rewrite insert_app_r_alt by lia. rewrite Nat.sub_diag. cbn [insert list_insert].
    replace (pre ++ e.2 :: replicate (length entries) EmptyString)
      with ((pre ++ [e.2]) ++ replicate (length entries) EmptyString)
      by (now rewrite <- app_assoc).
    replace (S (length pre)) with (length (pre ++ [e.2]))
      by (rewrite length_app; simpl; lia).
    rewrite IH. now rewrite <- app_assoc.
Qed.

(** The fold over the new providers leaves all fields but the two pairing
    maps alone. *)
Lemma fold_installProvider_frame entries (csm : lavasession.ConsumerSessionManager) :
  let csm' := fold_left lavasession.installProvider entries csm in
  lavasession.currentEpoch csm' = lavasession.currentEpoch csm /\
  lavasession.numberOfResets csm' = lavasession.numberOfResets csm /\
  lavasession.pairingAddressesLength csm' = lavasession.pairingAddressesLength csm /\
  lavasession.validAddresses csm' = lavasession.validAddresses csm /\
  lavasession.addedToPurgeAndReport csm' = lavasession.addedToPurgeAndReport csm /\
  lavasession.pairingPurge csm' = lavasession.pairingPurge csm.
Proof.
  revert csm. induction entries as [|e entries IH]; intros csm; [simpl; tauto|].
  simpl. specialize (IH (lavasession.installProvider csm e)). simpl in IH. exact IH.
Qed.

Lemma fold_installProvider_index_other entries (csm : lavasession.ConsumerSessionManager)
    (idx : Z) :
  idx ∉ entries.*1 ->
  lavasession.pairingAddresses (fold_left lavasession.installProvider entries csm) !! idx
  = lavasession.pairingAddresses csm !! idx.
Proof.
  revert csm. induction entries as [|e entries IH]; intros csm Hnot; [reflexivity|].
  simpl. rewrite fmap_cons, not_elem_of_cons in Hnot. destruct Hnot as [Hne Hnot].
  rewrite IH by exact Hnot. simpl. now rewrite lookup_insert_ne.
Qed.

Lemma fold_installProvider_index entries (csm : lavasession.ConsumerSessionManager)
    (idx : Z) (p : lavasession.ConsumerSessionsWithProvider) :
  NoDup entries.*1 -> (idx, p) ∈ entries ->
  lavasession.pairingAddresses (fold_left lavasession.installProvider entries csm) !! idx
  = Some (lavasession.PublicLavaAddress p).
Proof.
  revert csm. induction entries as [|e entries IH]; intros csm Hnodup Hin.
  - inversion Hin.
  - rewrite fmap_cons, NoDup_cons in Hnodup. destruct Hnodup as [Hfresh Hnodup].
    simpl. apply elem_of_cons in Hin as [Heq | Hin].
    + subst e. rewrite fold_installProvider_index_other by exact Hfresh.
      simpl. now rewrite lookup_insert_eq.
    + now apply IH.
Qed.

(** Every entry of the address map comes from the list (or was there
    before). *)
Lemma fold_installProvider_pairing_from entries (csm : lavasession.ConsumerSessionManager)
    (a : string) (p : lavasession.ConsumerSessionsWithProvider) :
  lavasession.pairing (fold_left lavasession.installProvider entries csm) !! a = Some p ->
  lavasession.pairing csm !! a = Some p \/
  (lavasession.PublicLavaAddress p = a /\ exists idx, (idx, p) ∈ entries).
Proof.
  revert csm. induction entries as [|e entries IH]; intros csm Hlook; [now left|].
  simpl in Hlook. apply IH in Hlook as [Hlook | (Ha & idx & Hin)].
  - simpl in Hlook. rewrite lookup_insert in Hlook. case_decide as Heq.
    + right. injection Hlook as <-. split; [exact Heq|].
      exists e.1. destruct e. apply list_elem_of_here.
    + now left.
  - right. split; [exact Ha|]. exists idx. now apply list_elem_of_further.
Qed.

Lemma fold_installProvider_pairing_keeps entries (csm : lavasession.ConsumerSessionManager)
    (a : string) :
  is_Some (lavasession.pairing csm !! a) ->
  is_Some (lavasession.pairing (fold_left lavasession.installProvider entries csm) !! a).
Proof.
  revert csm. induction entries as [|e entries IH]; intros csm Hsome; [exact Hsome|].
  simpl. apply IH. simpl. rewrite lookup_insert. case_decide; [eauto | exact Hsome].
Qed.

(** Every provider of the list has an entry under its address. *)
Lemma fold_installProvider_pairing_has entries (csm : lavasession.ConsumerSessionManager)
    (idx : Z) (p : lavasession.ConsumerSessionsWithProvider) :
  (idx, p) ∈ entries ->
  is_Some (lavasession.pairing (fold_left lavasession.installProvider entries csm)
             !! lavasession.PublicLavaAddress p).
Proof.
  revert csm. induction entries as [|e entries IH]; intros csm Hin.
  - inversion Hin.
  - simpl. apply elem_of_cons in Hin as [Heq | Hin].
    + subst e. apply fold_installProvider_pairing_keeps. simpl.
      rewrite lookup_insert_eq. eauto.
    + now apply IH.
Qed.

Section MapRangeFacts.

Variable rangeOrder : forall V : Type, gmap Z V -> list (Z * V).

(** A [range] statement visits every entry of the map once. *)
Hypothesis rangeOrder_visits_each_once :
  forall (V : Type) (m : gmap Z V), rangeOrder V m ≡ₚ map_to_list m.

Lemma setValidAddressesToDefaultValue_values (csm : lavasession.ConsumerSessionManager) :
  lavasession.validAddresses (lavasession.setValidAddressesToDefaultValue rangeOrder csm)
  = (rangeOrder _ (lavasession.pairingAddresses csm)).*2.
Proof.
  unfold lavasession.setValidAddressesToDefaultValue. simpl.
  assert (Hlen : size (lavasession.pairingAddresses csm)
                 = length (rangeOrder _ (lavasession.pairingAddresses csm))).
  { rewrite (Permutation_length (rangeOrder_visits_each_once _ _)).
    now rewrite length_map_to_list. }
  rewrite Hlen.
  exact (fold_fillValidAddress (rangeOrder _ (lavasession.pairingAddresses csm)) []).
Qed.

(** C4.  [UpdateAllProviders] fails exactly when the epoch is not beyond the
    current one, and then changes nothing.  Otherwise it sets the current
    epoch, keeps the old pairing as the purge set, maps every index of the
    new list to the address of its provider, holds under every such address
    a provider of the list with that address (the provider itself when no
    two providers of the list share an address), empties the reported set,
    and makes the valid addresses the addresses of the new list, one for
    every index. *)
Theorem UpdateAllProviders_rotates_pairing
    (csm : lavasession.ConsumerSessionManager) (epoch : Z)
    (pairingList : gmap Z lavasession.ConsumerSessionsWithProvider) :
  let result := lavasession.UpdateAllProviders rangeOrder csm epoch pairingList in
  let csm' := snd result in
  (fst result <> None <-> epoch <= lavasession.currentEpoch csm) /\
  (epoch <= lavasession.currentEpoch csm -> result = (Some OlderEpochError, csm)) /\
  (lavasession.currentEpoch csm < epoch ->
     fst result = None /\
     lavasession.currentEpoch csm' = epoch /\
     lavasession.pairingPurge csm' = lavasession.pairing csm /\
     lavasession.pairingAddresses csm' = lavasession.PublicLavaAddress <$> pairingList /\
     lavasession.pairingAddressesLength csm' = Z.of_nat (size pairingList) /\
     (forall a p, lavasession.pairing csm' !! a = Some p ->
        lavasession.PublicLavaAddress p = a /\ exists idx, pairingList !! idx = Some p) /\
     (forall idx p, pairingList !! idx = Some p ->
        is_Some (lavasession.pairing csm' !! lavasession.PublicLavaAddress p)) /\
     ((forall i j p q, pairingList !! i = Some p -> pairingList !! j = Some q ->
          lavasession.PublicLavaAddress p = lavasession.PublicLavaAddress q -> p = q) ->
        forall idx p, pairingList !! idx = Some p ->
          lavasession.pairing csm' !! lavasession.PublicLavaAddress p = Some p) /\
     lavasession.addedToPurgeAndReport csm' = ∅ /\
     lavasession.numberOfResets csm' = 0 /\
     lavasession.validAddresses csm'
       ≡ₚ (fun entry => lavasession.PublicLavaAddress (snd entry)) <$> map_to_list pairingList /\
     (forall a, a ∈ lavasession.validAddresses csm'
        <-> exists idx p, pairingList !! idx = Some p
                          /\ lavasession.PublicLavaAddress p = a)).
Proof.
  intros result csm'. subst csm' result.
  unfold lavasession.UpdateAllProviders, lavasession.atomicReadCurrentEpoch.
  destruct (Z.leb_spec epoch (lavasession.currentEpoch csm)) as [Hle | Hgt].
  { split; [simpl; split; [tauto | discriminate]|]. split; [reflexivity | lia]. }
  split; [simpl; split; [intros H; now elim H | lia]|].
  split; [lia|]. intros _.
  set (csm2 := {| lavasession.pairing := ∅;
                  lavasession.currentEpoch := _;
                  lavasession.numberOfResets := 0;
                  lavasession.pairingAddresses := ∅;
                  lavasession.pairingAddressesLength := _;
                  lavasession.validAddresses := _;
                  lavasession.addedToPurgeAndReport := ∅;
                  lavasession.pairingPurge := _ |}).
  set (entries := rangeOrder _ pairingList).
  assert (Hperm : entries ≡ₚ map_to_list pairingList)
    by apply rangeOrder_visits_each_once.
  assert (Hentry : forall idx p, (idx, p) ∈ entries <-> pairingList !! idx = Some p).
  { intros idx p. rewrite Hperm. apply elem_of_map_to_list. }
  assert (Hnodup : NoDup entries.*1).
  { rewrite Hperm. apply NoDup_fst_map_to_list. }
  destruct (fold_installProvider_frame entries csm2)
    as (Hepoch & Hresets & Hlen & _ & Hreported & Hpurge).
  assert (Haddresses :
    lavasession.pairingAddresses (fold_left lavasession.installProvider entries csm2)
    = lavasession.PublicLavaAddress <$> pairingList).
  { apply map_eq. intros idx. rewrite lookup_fmap.
    destruct (pairingList !! idx) as [p|] eqn:Hp.
    - simpl. apply fold_installProvider_index; [exact Hnodup | now apply Hentry].
    - simpl. rewrite fold_installProvider_index_other; [reflexivity|].
      intros Hin. apply list_elem_of_fmap in Hin as ([idx' p] & Hidx & Hin).
      simpl in Hidx. subst idx'. apply Hentry in Hin. congruence. }
  assert (Hfrom : forall a p,
            lavasession.pairing (fold_left lavasession.installProvider entries csm2) !! a
            = Some p ->
            lavasession.PublicLavaAddress p = a /\ exists idx, pairingList !! idx = Some p).
  { intros a p Hlook.
    apply fold_installProvider_pairing_from in Hlook as [Hlook | (Ha & idx & Hin)].
    - simpl in Hlook. now rewrite lookup_empty in Hlook.
    - split; [exact Ha|]. exists idx. now apply Hentry. }
  assert (Hhas : forall idx p, pairingList !! idx = Some p ->
            is_Some (lavasession.pairing
                       (fold_left lavasession.installProvider entries csm2)
                       !! lavasession.PublicLavaAddress p)).
  { intros idx p Hp.
    apply (fold_installProvider_pairing_has entries csm2 idx). now apply Hentry. }
  remember (fold_left lavasession.installProvider entries csm2) as csm3 eqn:E3.
  assert (Hvalid :
    lavasession.validAddresses (lavasession.setValidAddressesToDefaultValue rangeOrder csm3)
    ≡ₚ (fun entry => lavasession.PublicLavaAddress (snd entry)) <$> map_to_list pairingList).
  { rewrite setValidAddressesToDefaultValue_values, Haddresses.
    rewrite (rangeOrder_visits_each_once _ _), map_to_list_fmap.
    rewrite <- list_fmap_compose. reflexivity. }
  cbn [fst snd].
  split; [reflexivity|].
  split; [exact Hepoch|].
  split; [exact Hpurge|].
  split; [exact Haddresses|].
  split; [exact Hlen|].
  split; [exact Hfrom|].
  split; [exact Hhas|].
  split.
  { intros Hinj idx p Hp. destruct (Hhas idx p Hp) as [q Hq].
    destruct (Hfrom _ _ Hq) as [Ha [j Hj]].
    cbn [lavasession.pairing lavasession.setValidAddressesToDefaultValue
         lavasession.set_validAddresses].
    rewrite Hq. f_equal. exact (Hinj j idx q p Hj Hp Ha). }
  split; [exact Hreported|].
  split; [exact Hresets|].
  split; [exact Hvalid|].
  intros a. rewrite Hvalid, list_elem_of_fmap. split.
  - intros ([idx p] & -> & Hin). apply elem_of_map_to_list in Hin. eauto.
  - intros (idx & p & Hp & <-). exists (idx, p). split; [reflexivity|].
    now apply elem_of_map_to_list.
Qed.

End MapRangeFacts.

Lemma UpdateAllProviders_rotates_pairing_witness :
  let rangeOrder := fun (V : Type) (m : gmap Z V) => map_to_list m in
  let csm' :=
    snd (lavasession.UpdateAllProviders rangeOrder Scenario.csm7 8 (Scenario.pairingList 8)) in
  (forall (V : Type) (m : gmap Z V), rangeOrder V m ≡ₚ map_to_list m) /\
  lavasession.currentEpoch Scenario.csm7 < 8 /\
  lavasession.currentEpoch csm' = 8 /\
  lavasession.pairingPurge csm' = lavasession.pairing Scenario.csm7 /\
  lavasession.addedToPurgeAndReport csm' = ∅ /\
  (forall a, a ∈ lavasession.validAddresses csm'
     <-> exists idx p, Scenario.pairingList 8 !! idx = Some p
                       /\ lavasession.PublicLavaAddress p = a).
Proof.
  intros rangeOrder csm'.
  assert (Hrange : forall (V : Type) (m : gmap Z V), rangeOrder V m ≡ₚ map_to_list m)
    by reflexivity.
  assert (Hepoch : lavasession.currentEpoch Scenario.csm7 < 8) by (simpl; lia).
  split; [exact Hrange|]. split; [exact Hepoch|].
  destruct (UpdateAllProviders_rotates_pairing rangeOrder Hrange Scenario.csm7 8
              (Scenario.pairingList 8)) as (_ & _ & Hrotate).
  destruct (Hrotate Hepoch)
    as (_ & Hcurrent & Hpurge & _ & _ & _ & _ & _ & Hreported & _ & _ & Hvalid).
  split; [exact Hcurrent|]. split; [exact Hpurge|]. split; [exact Hreported|].
  exact Hvalid.
Defined.

(** ** Data-reliability sessions *)

Section DataReliabilityFacts.

Variable verifyDataReliabilitySessionWasNotAlreadyCreated :
  lavasession.ConsumerSessionsWithProvider ->
  option lavasession.SingleConsumerSession * Z * option Error.

Variable fetchEndpointConnectionFromConsumerSessionWithProvider :
  lavasession.ConsumerSessionsWithProvider -> nat ->
  bool * option lavasession.Endpoint * string * option Error.

Variable getDataReliabilitySingleConsumerSession :
  lavasession.ConsumerSessionsWithProvider -> option lavasession.Endpoint ->
  option lavasession.SingleConsumerSession * Z * option Error.

Variable CalculateQoS : lavasession.QoSInfo -> Z -> Z -> Z -> Z -> Z -> Z -> lavasession.QoSInfo.

Lemma returnDataReliabilitySession_incremented
    (csm csm' : lavasession.ConsumerSessionManager)
    (found : option lavasession.SingleConsumerSession) (address address' : string)
    (currentEpoch pairingEpoch epoch' : Z) (cs' : lavasession.SingleConsumerSession) :
  lavasession.returnDataReliabilitySession csm found address currentEpoch pairingEpoch
  = (Some cs', address', epoch', None, csm') ->
  exists cs, found = Some cs
             /\ cs' = lavasession.set_RelayNum cs (U64.add (lavasession.RelayNum cs) 1).
Proof.
  unfold lavasession.returnDataReliabilitySession.
  destruct found as [cs|]; [|discriminate].
  intros H. injection H as <- _ _ _. now exists cs.
Qed.

(** The release functions of data-reliability sessions leave [CuSum] as it
    is. *)
Lemma OnDataReliabilitySessionDone_CuSum (cs : lavasession.SingleConsumerSession)
    (latestServicedBlock specComputeUnits currentLatency expectedLatency expectedBH
       numOfProviders providersCount : Z) :
  lavasession.CuSum
    (snd (lavasession.OnDataReliabilitySessionDone CalculateQoS cs latestServicedBlock
            specComputeUnits currentLatency expectedLatency expectedBH numOfProviders
            providersCount))
  = lavasession.CuSum cs.
Proof.
  unfold lavasession.OnDataReliabilitySessionDone.
  now destruct (lavasession.verifyLock cs).
Qed.

Lemma OnDataReliabilitySessionFailure_CuSum (csm : lavasession.ConsumerSessionManager)
    (parent : lavasession.ConsumerSessionsWithProvider)
    (cs : lavasession.SingleConsumerSession) (errorReceived : RelayError) :
  lavasession.CuSum
    (snd (lavasession.OnDataReliabilitySessionFailure csm parent cs errorReceived))
  = lavasession.CuSum cs.
Proof.
  unfold lavasession.OnDataReliabilitySessionFailure.
  destruct (lavasession.verifyLock cs); [reflexivity|].
  destruct (lavasession.BlockListed cs); [reflexivity|].
  cbn [lavasession.ConsecutiveNumberOfFailures lavasession.set_RelayNum
       lavasession.set_ConsecutiveNumberOfFailures lavasession.set_QoS].
  unfold lavasession.getPublicLavaAddressAndPairingEpoch.
  repeat match goal with
         | |- context [if ?b then _ else _] => destruct b
         | |- context [let '(_, _) := ?x in _] => destruct x
         end; reflexivity.
Qed.

Lemma OnDataReliabilitySessionFailure_RelayNum (csm : lavasession.ConsumerSessionManager)
    (parent : lavasession.ConsumerSessionsWithProvider)
    (cs : lavasession.SingleConsumerSession) (errorReceived : RelayError) :
  lavasession.locked cs = true -> lavasession.BlockListed cs = false ->
  lavasession.RelayNum
    (snd (lavasession.OnDataReliabilitySessionFailure csm parent cs errorReceived))
  = U64.sub (lavasession.RelayNum cs) 1.
Proof.
  intros Hlocked Hfree.
  unfold lavasession.OnDataReliabilitySessionFailure, lavasession.verifyLock.
  rewrite Hlocked, Hfree.
  cbn [lavasession.ConsecutiveNumberOfFailures lavasession.set_RelayNum
       lavasession.set_ConsecutiveNumberOfFailures lavasession.set_QoS
       lavasession.RelayNum].
  unfold lavasession.getPublicLavaAddressAndPairingEpoch.
  repeat match goal with
         | |- context [if ?b then _ else _] => destruct b
         | |- context [let '(_, _) := ?x in _] => destruct x
         end; reflexivity.
Qed.

Lemma U64_sub_add_1 (x : Z) : U64.in_range x -> U64.sub (U64.add x 1) 1 = x.
Proof.
  unfold U64.in_range, U64.sub, U64.add, U64.wrap, U64.modulus. intros Hx.
  rewrite Zminus_mod_idemp_l. replace (x + 1 - 1) with x by lia.
  apply Z.mod_small. exact Hx.
Qed.

(** C7.  A session that [GetDataReliabilitySession] returns is the session
    that the provider entry handed over (found, or newly created), with its
    relay number one higher and nothing else changed.  Neither
    [OnDataReliabilitySessionDone] nor [OnDataReliabilitySessionFailure]
    changes [CuSum].  On the session as it was handed over - locked and not
    block-listed - [OnDataReliabilitySessionFailure] takes the relay number
    down by one: after a failed audit it is what it was before the
    session was acquired. *)
Theorem GetDataReliabilitySession_failure_restores_relay_number
    (csm csm' : lavasession.ConsumerSessionManager) (originalProviderAddress : string)
    (index sessionEpoch : Z) (cs' : lavasession.SingleConsumerSession)
    (providerAddress : string) (epoch : Z) :
  lavasession.GetDataReliabilitySession
    verifyDataReliabilitySessionWasNotAlreadyCreated
    fetchEndpointConnectionFromConsumerSessionWithProvider
    getDataReliabilitySingleConsumerSession
    csm originalProviderAddress index sessionEpoch
  = (Some cs', providerAddress, epoch, None, csm') ->
  exists cs : lavasession.SingleConsumerSession,
    ((exists cswp pairingEpoch,
         verifyDataReliabilitySessionWasNotAlreadyCreated cswp
         = (Some cs, pairingEpoch, None)) \/
     (exists cswp endpoint pairingEpoch,
         getDataReliabilitySingleConsumerSession cswp endpoint
         = (Some cs, pairingEpoch, None))) /\
    cs' = lavasession.set_RelayNum cs (U64.add (lavasession.RelayNum cs) 1) /\
    lavasession.RelayNum cs' = U64.add (lavasession.RelayNum cs) 1 /\
    lavasession.CuSum cs' = lavasession.CuSum cs /\
    (forall latestServicedBlock specComputeUnits currentLatency expectedLatency
            expectedBH numOfProviders providersCount,
        lavasession.CuSum
          (snd (lavasession.OnDataReliabilitySessionDone CalculateQoS cs'
                  latestServicedBlock specComputeUnits currentLatency expectedLatency
                  expectedBH numOfProviders providersCount))
        = lavasession.CuSum cs') /\
    (forall csm1 parent errorReceived,
        lavasession.CuSum
          (snd (lavasession.OnDataReliabilitySessionFailure csm1 parent cs' errorReceived))
        = lavasession.CuSum cs') /\
    (lavasession.locked cs = true -> lavasession.BlockListed cs = false ->
     forall csm1 parent errorReceived,
       let released :=
         snd (lavasession.OnDataReliabilitySessionFailure csm1 parent cs' errorReceived) in
       lavasession.RelayNum released = U64.sub (lavasession.RelayNum cs') 1 /\
       (U64.in_range (lavasession.RelayNum cs) ->
          lavasession.RelayNum released = lavasession.RelayNum cs)).
Proof.
  intros Hget.
  assert (Hhanded : exists cs : lavasession.SingleConsumerSession,
    ((exists cswp pairingEpoch,
         verifyDataReliabilitySessionWasNotAlreadyCreated cswp
         = (Some cs, pairingEpoch, None)) \/
     (exists cswp endpoint pairingEpoch,
         getDataReliabilitySingleConsumerSession cswp endpoint
         = (Some cs, pairingEpoch, None))) /\
    cs' = lavasession.set_RelayNum cs (U64.add (lavasession.RelayNum cs) 1)).
  { revert Hget. unfold lavasession.GetDataReliabilitySession.
    destruct (lavasession.getDataReliabilityProviderIndex csm originalProviderAddress
                (U64.of_int64 index)) as [[[found address] currentEpoch] err].
    destruct err; [discriminate|].
    case_bool_decide; [discriminate|].
    destruct found as [cswp|]; [|discriminate].
    destruct (verifyDataReliabilitySessionWasNotAlreadyCreated cswp)
      as [[found1 pairingEpoch1] err1] eqn:Everify.
    destruct (Is NoDataReliabilitySessionWasCreatedError err1).
    - destruct (lavasession.fetchEndpointFromConsumerSessionsWithProviderWithRetry
                  fetchEndpointConnectionFromConsumerSessionWithProvider csm cswp
                  currentEpoch) as [[endpoint err2] csm1].
      destruct err2; [discriminate|].
      destruct (getDataReliabilitySingleConsumerSession cswp endpoint)
        as [[found3 pairingEpoch3] err3] eqn:Esingle.
      destruct err3; [discriminate|].
      intros Hreturn.
      apply returnDataReliabilitySession_incremented in Hreturn as (cs & -> & ->).
      exists cs. split; [right; eauto | reflexivity].
    - destruct err1; [discriminate|].
      intros Hreturn.
      apply returnDataReliabilitySession_incremented in Hreturn as (cs & -> & ->).
      exists cs. split; [left; eauto | reflexivity]. }
  destruct Hhanded as (cs & Hfrom & ->).
  exists cs. split; [exact Hfrom|].
  split; [reflexivity|]. split; [reflexivity|]. split; [reflexivity|].
  split; [intros; apply OnDataReliabilitySessionDone_CuSum|].
  split; [intros; apply OnDataReliabilitySessionFailure_CuSum|].
  intros Hlocked Hfree csm1 parent errorReceived released. subst released.
  rewrite OnDataReliabilitySessionFailure_RelayNum by assumption.
  split; [reflexivity|].
  intros Hrange. cbn [lavasession.RelayNum lavasession.set_RelayNum].
  now apply U64_sub_add_1.
Qed.

End DataReliabilityFacts.

(** The first audit sent to provider A, index 0 of the pairing, for a relay
    that B answered. *)
Lemma GetDataReliabilitySession_failure_restores_relay_number_witness :
  let verify := fun _ : lavasession.ConsumerSessionsWithProvider =>
                  (Some Scenario.auditSession, 7, @None Error) in
  let fetch := fun (_ : lavasession.ConsumerSessionsWithProvider) (_ : nat) =>
                 (true, @None lavasession.Endpoint, EmptyString, @None Error) in
  let single := fun (_ : lavasession.ConsumerSessionsWithProvider)
                    (_ : option lavasession.Endpoint) =>
                  (@None lavasession.SingleConsumerSession, 7,
                   Some NoDataReliabilitySessionWasCreatedError) in
  let acquired := lavasession.set_RelayNum Scenario.auditSession 1 in
  lavasession.GetDataReliabilitySession verify fetch single Scenario.csm7 "B" 0 7
  = (Some acquired, "A"%string, 7, None, Scenario.csm7) /\
  lavasession.RelayNum
    (snd (lavasession.OnDataReliabilitySessionFailure Scenario.csm7
            (Scenario.provider "A" 0 7) acquired Scenario.deadlineExceeded))
  = lavasession.RelayNum Scenario.auditSession.
Proof.
  intros verify fetch single acquired.
  assert (Hget :
    lavasession.GetDataReliabilitySession verify fetch single Scenario.csm7 "B" 0 7
    = (Some acquired, "A"%string, 7, None, Scenario.csm7)) by (vm_compute; reflexivity).
  split; [exact Hget|].
  destruct (GetDataReliabilitySession_failure_restores_relay_number
              verify fetch single (fun q _ _ _ _ _ _ => q)
              Scenario.csm7 Scenario.csm7 "B"%string 0 7 acquired "A"%string 7 Hget)
    as (cs & _ & Hcs & _ & _ & _ & _ & Hfail).
  assert (Hlocked : lavasession.locked cs = true)
    by (exact (eq_sym (f_equal lavasession.locked Hcs))).
  assert (Hfree : lavasession.BlockListed cs = false)
    by (exact (eq_sym (f_equal lavasession.BlockListed Hcs))).
  destruct (Hfail Hlocked Hfree Scenario.csm7 (Scenario.provider "A" 0 7)
              Scenario.deadlineExceeded) as [Hnum _].
  exact Hnum.
Defined.

(** * Further properties *)

(** ** Salt *)






(** A salt of fewer than eight bytes reads as zero, and no salt reads as a
    number outside [uint64]. *)
Lemma UintLE_range (n : nat) (b : list byte) :
  0 <= lavaprotocol.UintLE n b < 256 ^ Z.of_nat n.
Proof.
  revert b. induction n as [|n IH]; intros b.
  - simpl. lia.
  - rewrite Nat2Z.inj_succ, Z.pow_succ_r by lia.
    destruct b as [|x b]; simpl.
    + split; [lia|]. apply Z.mul_pos_pos; [lia|]. apply Z.pow_pos_nonneg; lia.
    + specialize (IH b). pose proof (Byte.to_N_bounded x). lia.
Qed.

(** X2.  [GetSalt] never leaves [uint64], and a salt shorter than eight
    bytes - a request that carries none - has the salt zero. *)
Theorem GetSalt_range (requestData : lavaprotocol.RelayPrivateData.t) :
  U64.in_range (lavaprotocol.GetSalt requestData) /\
  ((length (lavaprotocol.RelayPrivateData.Salt requestData) < 8)%nat ->
   lavaprotocol.GetSalt requestData = 0).
Proof.
  unfold lavaprotocol.GetSalt, U64.in_range, U64.modulus. split.
  - destruct (length (lavaprotocol.RelayPrivateData.Salt requestData) <? 8)%nat;
      [lia|].
    exact (UintLE_range 8 (lavaprotocol.RelayPrivateData.Salt requestData)).
  - intros Hshort. now rewrite (proj2 (Nat.ltb_lt _ _) Hshort).
Qed.

(** ** VRF outputs to pairing indexes, in general *)

Section ThresholdGeneral.

Variable GetIndexForVrf : list byte -> Z -> Z -> Z * option Error.

(** The loop overwrites no entry, never enters the index [-1] and adds at
    most one entry for each VRF output. *)
Lemma thresholdLoop_grows (ids : list bool) (thr n : Z) (vrfs : list (list byte)) :
  forall (k : nat) (m0 m : gmap Z bool),
    lavaprotocol.thresholdLoop GetIndexForVrf ids thr n k vrfs m0 = Some m ->
    (size m <= size m0 + length vrfs)%nat /\
    (m0 !! (-1) = None -> m !! (-1) = None) /\
    (forall i b, m0 !! i = Some b -> m !! i = Some b).
Proof.
  induction vrfs as [|v rest IH]; intros k m0 m Hrun.
  - simpl in Hrun. injection Hrun as <-. simpl. split; [lia|]. tauto.
  - simpl in Hrun. destruct (GetIndexForVrf v n thr) as [i0 e0].
    destruct (Z.eqb_spec i0 (-1)) as [Hi0 | Hi0]; cbn [orb] in Hrun.
    { apply IH in Hrun as (Hs & Hneg & Hkeep). simpl. split; [lia|]. tauto. }
    destruct (bool_decide (e0 <> None)).
    { apply IH in Hrun as (Hs & Hneg & Hkeep). simpl. split; [lia|]. tauto. }
    destruct (m0 !! i0) as [b0|] eqn:Hm0.
    { apply IH in Hrun as (Hs & Hneg & Hkeep). simpl. split; [lia|]. tauto. }
    destruct (ids !! k) as [b|]; [|discriminate].
    apply IH in Hrun as (Hs & Hneg & Hkeep).
    rewrite map_size_insert_None in Hs by exact Hm0. simpl.
    split; [lia|]. split.
    + intros Hnone. apply Hneg. now rewrite lookup_insert_ne.
    + intros i b' Hi. apply Hkeep.
      rewrite lookup_insert_ne; [exact Hi | congruence].
Qed.

(** X3.  A map that [DataReliabilityThresholdToSession] returns has at most
    one index for each VRF output and never the index [-1]: with the two VRF
    outputs of a relay, at most two audits are started. *)
Theorem DataReliabilityThresholdToSession_size (vrfs : list (list byte))
    (ids : list bool) (thr n : Z) (indexes : gmap Z bool) :
  lavaprotocol.DataReliabilityThresholdToSession GetIndexForVrf vrfs ids thr n
  = Some indexes ->
  (size indexes <= length vrfs)%nat /\ indexes !! (-1) = None.
Proof.
  unfold lavaprotocol.DataReliabilityThresholdToSession. intros Hrun.
  apply thresholdLoop_grows in Hrun as (Hs & Hneg & _).
  rewrite map_size_empty in Hs. split; [exact Hs | now apply Hneg].
Qed.

(** The map after the loop: what it held before, and for every other index
    the differentiator of the first VRF output that falls on it. *)
Lemma thresholdLoop_first (ids : list bool) (thr n : Z) (vrfs : list (list byte)) :
  forall (k : nat) (m0 : gmap Z bool),
    (k + length vrfs <= length ids)%nat ->
    exists m,
      lavaprotocol.thresholdLoop GetIndexForVrf ids thr n k vrfs m0 = Some m /\
      forall i b,
        m !! i = Some b <->
        (m0 !! i = Some b \/
         (m0 !! i = None /\
          exists j v, vrfs !! j = Some v /\ GetIndexForVrf v n thr = (i, None) /\
                      i <> -1 /\ ids !! (k + j)%nat = Some b /\
                      forall j' v', (j' < j)%nat -> vrfs !! j' = Some v' ->
                                    GetIndexForVrf v' n thr <> (i, None))).
Proof.
  induction vrfs as [|v rest IH]; intros k m0 Hlen.
  - exists m0. split; [reflexivity|]. intros i b. split; [tauto|].
    intros [H | (_ & j & v & Hj & _)]; [exact H | now rewrite lookup_nil in Hj].
  - simpl in Hlen.
    assert (Hshift : forall (i : Z) (b : bool),
      GetIndexForVrf v n thr <> (i, None) \/ i = -1 ->
      ((exists j w, (v :: rest) !! j = Some w /\ GetIndexForVrf w n thr = (i, None) /\
                    i <> -1 /\ ids !! (k + j)%nat = Some b /\
                    forall j' w', (j' < j)%nat -> (v :: rest) !! j' = Some w' ->
                                  GetIndexForVrf w' n thr <> (i, None))
       <->
       (exists j w, rest !! j = Some w /\ GetIndexForVrf w n thr = (i, None) /\
                    i <> -1 /\ ids !! (S k + j)%nat = Some b /\
                    forall j' w', (j' < j)%nat -> rest !! j' = Some w' ->
                                  GetIndexForVrf w' n thr <> (i, None)))).
    { intros i b Hv. split.
      - intros (j & w & Hj & Hw & Hi & Hb & Hfirst). destruct j as [|j].
        + simpl in Hj. injection Hj as <-. destruct Hv; congruence.
        + exists j, w. simpl in Hj. split; [exact Hj|]. split; [exact Hw|].
          split; [exact Hi|].
          split; [now replace (S k + j)%nat with (k + S j)%nat by lia|].
          intros j' w' Hlt Hj'. apply (Hfirst (S j') w'); [lia | exact Hj'].
      - intros (j & w & Hj & Hw & Hi & Hb & Hfirst).
        exists (S j), w. split; [exact Hj|]. split; [exact Hw|]. split; [exact Hi|].
        split; [now replace (k + S j)%nat with (S k + j)%nat by lia|].
        intros [|j'] w' Hlt Hj'.
        + simpl in Hj'. injection Hj' as <-. destruct Hv; congruence.
        + apply (Hfirst j' w'); [lia | exact Hj']. }
    simpl. destruct (GetIndexForVrf v n thr) as [i0 e0] eqn:EG.
    assert (Hskip : forall m1,
      (forall i, m1 !! i = None -> (i0, e0) <> (i, None) \/ i = -1) ->
      (forall i b, m1 !! i = Some b -> m0 !! i = Some b) ->
      (forall i, m1 !! i = None -> m0 !! i = None) ->
      exists m,
        lavaprotocol.thresholdLoop GetIndexForVrf ids thr n (S k) rest m1 = Some m /\
        (m1 = m0 ->
         forall i b,
           m !! i = Some b <->
           (m0 !! i = Some b \/
            (m0 !! i = None /\
             exists j w, (v :: rest) !! j = Some w /\
                         GetIndexForVrf w n thr = (i, None) /\
                         i <> -1 /\ ids !! (k + j)%nat = Some b /\
                         forall j' w', (j' < j)%nat -> (v :: rest) !! j' = Some w' ->
                                       GetIndexForVrf w' n thr <> (i, None))))).
    { intros m1 Hnot _ _. destruct (IH (S k) m1) as (m & Hrun & Hm); [lia|].
      exists m. split; [exact Hrun|]. intros -> i b. rewrite Hm. split.
      - intros [H | (Hnone & Hex)]; [now left|]. right. split; [exact Hnone|].
        apply Hshift; [|exact Hex]. now apply Hnot.
      - intros [H | (Hnone & Hex)]; [now left|]. right. split; [exact Hnone|].
        apply Hshift in Hex; [exact Hex|]. now apply Hnot. }
    destruct (Z.eqb_spec i0 (-1)) as [Hi0 | Hi0]; cbn [orb].
    { destruct (Hskip m0) as (m & Hrun & Hm); try tauto.
      - intros i _. destruct (decide (i = -1)); [now right|]. left. congruence.
      - exists m. split; [exact Hrun | now apply Hm]. }
    case_bool_decide as He0.
    { destruct (Hskip m0) as (m & Hrun & Hm); try tauto.
      - intros i _. left. intros Heq. injection Heq as _ ->. now apply He0.
      - exists m. split; [exact Hrun | now apply Hm]. }
    assert (e0 = None) as -> by (destruct e0; [elim He0; discriminate | reflexivity]).
    destruct (m0 !! i0) as [b0|] eqn:Hm0.
    { destruct (Hskip m0) as (m & Hrun & Hm); try tauto.
      - intros i Hnone. left. intros Heq. injection Heq as ->. congruence.
      - exists m. split; [exact Hrun | now apply Hm]. }
    destruct (lookup_lt_is_Some_2 ids k) as [b0 Hb0]; [lia|]. rewrite Hb0.
    destruct (IH (S k) (<[i0 := b0]> m0)) as (m & Hrun & Hm); [lia|].
    exists m. split; [exact Hrun|]. intros i b. rewrite Hm.
    destruct (decide (i = i0)) as [-> | Hne].
    + rewrite lookup_insert_eq, Hm0. split.
      * intros [Heq | (Hnone & _)]; [|discriminate]. injection Heq as <-.
        right. split; [reflexivity|]. exists 0%nat, v.
        split; [reflexivity|]. split; [exact EG|]. split; [exact Hi0|].
        split; [now rewrite Nat.add_0_r|]. intros j' w' Hlt. lia.
      * intros [Hsome | (_ & j & w & Hj & Hw & _ & Hb & Hfirst)]; [discriminate|].
        left. destruct j as [|j].
        -- rewrite Nat.add_0_r in Hb. congruence.
        -- elim (Hfirst 0%nat v); [lia | reflexivity | exact EG].
    + rewrite lookup_insert_ne by congruence. split.
      * intros [H | (Hnone & Hex)]; [now left|]. right. split; [exact Hnone|].
        apply Hshift; [|exact Hex]. left. congruence.
      * intros [H | (Hnone & Hex)]; [now left|]. right. split; [exact Hnone|].
        apply Hshift in Hex; [exact Hex|]. left. congruence.
Qed.

(** X4.  With a differentiator for every VRF output the call does not panic,
    and its map holds exactly the indexes that some VRF output falls on
    (index other than [-1], no error), each with the differentiator of the
    first such VRF output. *)
Theorem DataReliabilityThresholdToSession_first_wins (vrfs : list (list byte))
    (ids : list bool) (thr n : Z) :
  (length vrfs <= length ids)%nat ->
  exists indexes : gmap Z bool,
    lavaprotocol.DataReliabilityThresholdToSession GetIndexForVrf vrfs ids thr n
    = Some indexes /\
    forall (i : Z) (b : bool),
      indexes !! i = Some b <->
      exists (j : nat) (v : list byte),
        vrfs !! j = Some v /\ GetIndexForVrf v n thr = (i, None) /\ i <> -1 /\
        ids !! j = Some b /\
        forall (j' : nat) (v' : list byte),
          (j' < j)%nat -> vrfs !! j' = Some v' -> GetIndexForVrf v' n thr <> (i, None).
Proof.
  intros Hlen. unfold lavaprotocol.DataReliabilityThresholdToSession.
  destruct (thresholdLoop_first ids thr n vrfs 0%nat ∅) as (m & Hrun & Hm); [simpl; lia|].
  exists m. split; [exact Hrun|]. intros i b. rewrite Hm, lookup_empty. split.
  - intros [H | (_ & Hex)]; [discriminate | exact Hex].
  - intros Hex. right. split; [reflexivity | exact Hex].
Qed.

End ThresholdGeneral.

Lemma DataReliabilityThresholdToSession_size_witness :
  lavaprotocol.DataReliabilityThresholdToSession lavaprotocol.VrfToIndex
    [Scenario.vrf0; Scenario.vrf1] [false; true] 10 3 = Some {[ 1 := false ]} /\
  (size ({[ 1%Z := false ]} : gmap Z bool) <= 2)%nat.
Proof.
  assert (Hrun :
    lavaprotocol.DataReliabilityThresholdToSession lavaprotocol.VrfToIndex
      [Scenario.vrf0; Scenario.vrf1] [false; true] 10 3 = Some {[ 1 := false ]})
    by (vm_compute; reflexivity).
  split; [exact Hrun|].
  exact (proj1 (DataReliabilityThresholdToSession_size lavaprotocol.VrfToIndex
                  [Scenario.vrf0; Scenario.vrf1] [false; true] 10 3 _ Hrun)).
Defined.

Lemma DataReliabilityThresholdToSession_first_wins_witness :
  (length [Scenario.vrf0; Scenario.vrf1] <= length [false; true])%nat /\
  exists indexes : gmap Z bool,
    lavaprotocol.DataReliabilityThresholdToSession lavaprotocol.VrfToIndex
      [Scenario.vrf0; Scenario.vrf1] [false; true] 10 3 = Some indexes.
Proof.
  assert (Hlen : (length [Scenario.vrf0; Scenario.vrf1] <= length [false; true])%nat)
    by (simpl; lia).
  split; [exact Hlen|].
  destruct (DataReliabilityThresholdToSession_first_wins lavaprotocol.VrfToIndex
              [Scenario.vrf0; Scenario.vrf1] [false; true] 10 3 Hlen)
    as (indexes & Hrun & _).
  now exists indexes.
Defined.

(** ** The report of the auditor, in general *)


(** X7.  [compareRelaysFindConflict] never raises its flag, whether the
    reply data of the two results differ or not.  It hands back the record
    of the two results, in the order given, exactly when their reply data
    differ, and no record when they are equal, as for a result and itself. *)
Theorem compareRelaysFindConflict_flag_never_set (r1 r2 : lavaprotocol.RelayResult.t) :
  fst (lavaprotocol.compareRelaysFindConflict r1 r2) = false /\
  (Audit.differ r1 r2 ->
   snd (lavaprotocol.compareRelaysFindConflict r1 r2) = Some (Audit.conflictOf r1 r2)) /\
  (~ Audit.differ r1 r2 -> snd (lavaprotocol.compareRelaysFindConflict r1 r2) = None) /\
  lavaprotocol.compareRelaysFindConflict r1 r1 = (false, None).
Proof.
  rewrite !compareRelaysFindConflict_differ. unfold Audit.differ. cbn [fst snd].
  split; [reflexivity|]. split; [|split].
  - intros Hd. now rewrite bool_decide_eq_false_2.
  - intros Hd. apply dec_stable in Hd. now rewrite bool_decide_eq_true_2.
  - now rewrite bool_decide_eq_true_2.
Qed.

(** ** Relay requests *)

Section ConstructionFacts.

Variable PrivateKey : Type.
Variable CalculateContentHashForRelayData : lavaprotocol.RelayPrivateData.t -> list byte.
Variable SignRelay : PrivateKey -> relayrequest.RelaySession.t -> list byte * option Error.
Variable SignVRFData : PrivateKey -> relayrequest.VRFData.t -> list byte * option Error.
Variable CalculateQoS : lavasession.QoSInfo -> Z -> Z -> Z -> Z -> Z -> Z -> lavasession.QoSInfo.

(** X8.  [ConstructDataReliabilityRelayRequest] returns a request exactly
    when the requested block is not negative and both signatures were made;
    a negative block is refused before anything is signed.  The request
    returned carries the relay data as given, the session id 0 and the
    compute units 0 of data reliability, the relay number and provider
    given, no quality-of-service report, and the VRF data with its
    differentiator. *)
Theorem ConstructDataReliabilityRelayRequest_guard (lavaChainID : string)
    (vrfData : relayrequest.VRFData.t) (privKey : PrivateKey) (chainID : string)
    (relayRequestData : lavaprotocol.RelayPrivateData.t) (providerPublicAddress : string)
    (epoch : Z) (reportedProviders : list byte) (relayNum : Z) :
  let result :=
    relayrequest.ConstructDataReliabilityRelayRequest PrivateKey
      CalculateContentHashForRelayData
      SignRelay SignVRFData lavaChainID vrfData privKey chainID relayRequestData
      providerPublicAddress epoch reportedProviders relayNum in
  let session :=
    relayrequest.dataReliabilityRelaySession CalculateContentHashForRelayData
      lavaChainID relayRequestData chainID providerPublicAddress epoch relayNum in
  (lavaprotocol.RelayPrivateData.RequestBlock relayRequestData < 0 ->
     result = (None, Some relayrequest.InvalidRequestBlockError)) /\
  (is_Some (fst result) <->
     0 <= lavaprotocol.RelayPrivateData.RequestBlock relayRequestData /\
     snd (SignRelay privKey session) = None /\
     snd (SignVRFData privKey vrfData) = None) /\
  (forall request, fst result = Some request ->
     snd result = None /\
     relayrequest.RelayRequest.RelayData request = relayRequestData /\
     relayrequest.RelaySession.SessionId (relayrequest.RelayRequest.Session request) = 0 /\
     relayrequest.RelaySession.CuSum (relayrequest.RelayRequest.Session request) = 0 /\
     relayrequest.RelaySession.RelayNum (relayrequest.RelayRequest.Session request)
     = relayNum /\
     relayrequest.RelaySession.Provider (relayrequest.RelayRequest.Session request)
     = providerPublicAddress /\
     relayrequest.RelaySession.QosReport (relayrequest.RelayRequest.Session request)
     = None /\
     relayrequest.RelaySession.Sig (relayrequest.RelayRequest.Session request)
     = fst (SignRelay privKey session) /\
     exists signed,
       relayrequest.RelayRequest.DataReliability request = Some signed /\
       relayrequest.VRFData.Differentiator signed
       = relayrequest.VRFData.Differentiator vrfData /\
       relayrequest.VRFData.VrfValue signed = relayrequest.VRFData.VrfValue vrfData /\
       relayrequest.VRFData.Sig signed = fst (SignVRFData privKey vrfData)).
Proof.
  intros result session. subst result.
  unfold relayrequest.ConstructDataReliabilityRelayRequest. fold session.
  destruct (Z.ltb_spec (lavaprotocol.RelayPrivateData.RequestBlock relayRequestData) 0)
    as [Hneg | Hpos].
  { split; [reflexivity|]. split.
    - simpl. split; [intros [x Hx]; discriminate | lia].
    - intros request Hreq. discriminate. }
  split; [lia|].
  destruct (SignRelay privKey session) as [sig err].
  destruct err as [e|].
  { split; [|intros request Hreq; discriminate].
    simpl. split; [intros [x Hx]; discriminate | intros (_ & H & _); discriminate]. }
  destruct (SignVRFData privKey vrfData) as [vrfSig err1].
  destruct err1 as [e1|].
  { split; [|intros request Hreq; discriminate].
    simpl. split; [intros [x Hx]; discriminate | intros (_ & _ & H); discriminate]. }
  split.
  - simpl. split; [intros _; tauto | intros _; eauto].
  - intros request Hreq. simpl in Hreq. injection Hreq as <-. simpl.
    repeat split; try reflexivity. eexists. repeat split; reflexivity.
Qed.

(** X9.  The compute units that a relay request reports are those of the
    session once the relay is done: [ConstructRelaySession] adds the units
    of the relay in flight, and [OnSessionDone] books them in [CuSum].  The
    next relay of the session, in flight with [nextCu] units, reports the
    sum of both; the relay number reported is the one of the session. *)
Theorem ConstructRelaySession_reports_booked_units (lavaChainID chainID address : string)
    (relayRequestData : lavaprotocol.RelayPrivateData.t)
    (cs : lavasession.SingleConsumerSession) (epoch : Z) (reportedProviders : list byte)
    (latestServicedBlock specComputeUnits currentLatency expectedLatency expectedBH
       numOfProviders providersCount nextCu : Z) :
  lavasession.locked cs = true ->
  let report s :=
    relayrequest.ConstructRelaySession CalculateContentHashForRelayData lavaChainID
      relayRequestData chainID address s epoch reportedProviders in
  let done :=
    lavasession.OnSessionDone CalculateQoS cs epoch latestServicedBlock specComputeUnits
      currentLatency expectedLatency expectedBH numOfProviders providersCount in
  fst done = None /\
  relayrequest.RelaySession.CuSum (report cs) = lavasession.CuSum (snd done) /\
  relayrequest.RelaySession.RelayNum (report cs) = lavasession.RelayNum (snd done) /\
  lavasession.LatestRelayCu (snd done) = 0 /\
  relayrequest.RelaySession.CuSum
    (report (lavasession.set_LatestRelayCu (snd done) nextCu))
  = U64.add (relayrequest.RelaySession.CuSum (report cs)) nextCu.
Proof.
  intros Hlocked report done. subst report done.
  unfold lavasession.OnSessionDone, lavasession.verifyLock. rewrite Hlocked.
  repeat split; reflexivity.
Qed.

End ConstructionFacts.

Lemma ConstructRelaySession_reports_booked_units_witness :
  let cs := Scenario.session 10 0 false in
  let sessionOf s :=
    relayrequest.ConstructRelaySession (fun _ => []) "lava" 
      (lavaprotocol.RelayRequest.RelayData Scenario.request) "ETH1" "B" s 7 [] in
  lavasession.locked cs = true /\
  relayrequest.RelaySession.CuSum (sessionOf cs)
  = lavasession.CuSum
      (snd (lavasession.OnSessionDone (fun q _ _ _ _ _ _ => q) cs 7 100 10 5 8 100 3 3)).
Proof.
  intros cs sessionOf. split; [reflexivity|].
  exact (proj1 (proj2 (ConstructRelaySession_reports_booked_units
                         (fun _ => []) (fun q _ _ _ _ _ _ => q) "lava" "ETH1" "B"
                         (lavaprotocol.RelayRequest.RelayData Scenario.request)
                         cs 7 [] 100 10 5 8 100 3 3 0 eq_refl))).
Defined.

Section EarliestBlock.

Variables LATEST_BLOCK SAFE_BLOCK FINALIZED_BLOCK EARLIEST_BLOCK NOT_APPLICABLE : Z.
Variable PrivateKey : Type.
Variable CalculateContentHashForRelayData : lavaprotocol.RelayPrivateData.t -> list byte.
Variable SignRelay : PrivateKey -> relayrequest.RelaySession.t -> list byte * option Error.
Variable SignVRFData : PrivateKey -> relayrequest.VRFData.t -> list byte * option Error.

(** X10.  No data-reliability request is built for a relay that asked for
    the earliest block: [UpdateRequestedBlock] turns that block into the
    NOT_APPLICABLE sentinel, which is negative, and
    [ConstructDataReliabilityRelayRequest] refuses it.  A relay that asked
    for the latest, safe or finalized block passes the guard with the latest
    block of the reply. *)
Theorem UpdateRequestedBlock_earliest_is_not_audited
    (request : lavaprotocol.RelayPrivateData.t) (response : lavaprotocol.RelayReply.t)
    (lavaChainID : string) (vrfData : relayrequest.VRFData.t) (privKey : PrivateKey)
    (chainID providerPublicAddress : string) (epoch : Z) (reportedProviders : list byte)
    (relayNum : Z) :
  EARLIEST_BLOCK <> LATEST_BLOCK -> EARLIEST_BLOCK <> SAFE_BLOCK ->
  EARLIEST_BLOCK <> FINALIZED_BLOCK -> NOT_APPLICABLE < 0 ->
  let updated :=
    lavaprotocol.UpdateRequestedBlock LATEST_BLOCK SAFE_BLOCK FINALIZED_BLOCK
      EARLIEST_BLOCK NOT_APPLICABLE request response in
  let result :=
    relayrequest.ConstructDataReliabilityRelayRequest PrivateKey
      CalculateContentHashForRelayData
      SignRelay SignVRFData lavaChainID vrfData privKey chainID updated
      providerPublicAddress epoch reportedProviders relayNum in
  (lavaprotocol.RelayPrivateData.RequestBlock request = EARLIEST_BLOCK ->
     result = (None, Some relayrequest.InvalidRequestBlockError)) /\
  (lavaprotocol.RelayPrivateData.RequestBlock request = LATEST_BLOCK \/
   lavaprotocol.RelayPrivateData.RequestBlock request = SAFE_BLOCK \/
   lavaprotocol.RelayPrivateData.RequestBlock request = FINALIZED_BLOCK ->
   0 <= lavaprotocol.RelayReply.LatestBlock response ->
   lavaprotocol.RelayPrivateData.RequestBlock updated
   = lavaprotocol.RelayReply.LatestBlock response /\
   snd result <> Some relayrequest.InvalidRequestBlockError).
Proof.
  intros HL HS HF Hneg updated result.
  assert (Hblock : lavaprotocol.RelayPrivateData.RequestBlock updated
    = lavaprotocol.ReplaceRequestedBlock LATEST_BLOCK SAFE_BLOCK FINALIZED_BLOCK
        EARLIEST_BLOCK NOT_APPLICABLE (lavaprotocol.RelayPrivateData.RequestBlock request)
        (lavaprotocol.RelayReply.LatestBlock response)) by reflexivity.
  split.
  - intros Hearliest. subst result.
    unfold relayrequest.ConstructDataReliabilityRelayRequest.
    rewrite Hblock, Hearliest. unfold lavaprotocol.ReplaceRequestedBlock.
    destruct (Z.eqb_spec EARLIEST_BLOCK LATEST_BLOCK); [contradiction|].
    destruct (Z.eqb_spec EARLIEST_BLOCK SAFE_BLOCK); [contradiction|].
    destruct (Z.eqb_spec EARLIEST_BLOCK FINALIZED_BLOCK); [contradiction|].
    rewrite Z.eqb_refl.
    now rewrite (proj2 (Z.ltb_lt _ _) Hneg).
  - intros Hmagic Hlatest.
    assert (Hnew : lavaprotocol.RelayPrivateData.RequestBlock updated
                   = lavaprotocol.RelayReply.LatestBlock response).
    { rewrite Hblock. unfold lavaprotocol.ReplaceRequestedBlock.
      destruct Hmagic as [-> | [-> | ->]].
      - now rewrite Z.eqb_refl.
      - destruct (SAFE_BLOCK =? LATEST_BLOCK); [reflexivity | now rewrite Z.eqb_refl].
      - destruct (FINALIZED_BLOCK =? LATEST_BLOCK); [reflexivity|].
        destruct (FINALIZED_BLOCK =? SAFE_BLOCK); [reflexivity | now rewrite Z.eqb_refl]. }
    split; [exact Hnew|]. subst result.
    unfold relayrequest.ConstructDataReliabilityRelayRequest. rewrite Hnew.
    destruct (Z.ltb_spec (lavaprotocol.RelayReply.LatestBlock response) 0); [lia|].
    destruct (SignRelay privKey _) as [sig [e|]]; [discriminate|].
    destruct (SignVRFData privKey vrfData) as [vrfSig [e1|]]; discriminate.
Qed.

End EarliestBlock.

Lemma UpdateRequestedBlock_earliest_is_not_audited_witness :
  Scenario.EARLIEST_BLOCK <> Scenario.LATEST_BLOCK /\
  Scenario.NOT_APPLICABLE < 0 /\
  relayrequest.ConstructDataReliabilityRelayRequest unit (fun _ => [])
    Scenario.sign Scenario.sign "lava" Scenario.vrfData0 tt "ETH1"
    (lavaprotocol.UpdateRequestedBlock Scenario.LATEST_BLOCK Scenario.SAFE_BLOCK
       Scenario.FINALIZED_BLOCK Scenario.EARLIEST_BLOCK Scenario.NOT_APPLICABLE
       Scenario.earliestRequest
       {| lavaprotocol.RelayReply.Data := [xaa];
          lavaprotocol.RelayReply.LatestBlock := 100 |})
    "A" 7 [] 1
  = (None, Some relayrequest.InvalidRequestBlockError).
Proof.
  assert (HL : Scenario.EARLIEST_BLOCK <> Scenario.LATEST_BLOCK) by discriminate.
  assert (HS : Scenario.EARLIEST_BLOCK <> Scenario.SAFE_BLOCK) by discriminate.
  assert (HF : Scenario.EARLIEST_BLOCK <> Scenario.FINALIZED_BLOCK) by discriminate.
  assert (HN : Scenario.NOT_APPLICABLE < 0) by reflexivity.
  split; [exact HL|]. split; [exact HN|].
  pose proof (UpdateRequestedBlock_earliest_is_not_audited
                Scenario.LATEST_BLOCK Scenario.SAFE_BLOCK Scenario.FINALIZED_BLOCK
                Scenario.EARLIEST_BLOCK Scenario.NOT_APPLICABLE unit (fun _ => [])
                Scenario.sign Scenario.sign Scenario.earliestRequest
                {| lavaprotocol.RelayReply.Data := [xaa];
                   lavaprotocol.RelayReply.LatestBlock := 100 |}
                "lava" Scenario.vrfData0 tt "ETH1" "A" 7 [] 1 HL HS HF HN) as H.
  cbv zeta in H. destruct H as [H _]. apply H. reflexivity.
Defined.

(** ** Picking a provider, in general *)

Lemma scanValidAddresses_sound (ignored : gset string) (validAddressIndex : Z)
    (addresses : list string) (counter : Z) (address : string) :
  lavasession.scanValidAddresses ignored validAddressIndex addresses counter
  = (address, None) ->
  address ∈ addresses /\ address ∉ ignored.
Proof.
  revert counter. induction addresses as [|a rest IH]; intros counter; simpl.
  - discriminate.
  - case_bool_decide as Hin.
    + intros H. apply IH in H as [H1 H2]. split; [now apply list_elem_of_further | exact H2].
    + destruct (counter =? validAddressIndex).
      * intros [= <-]. split; [apply list_elem_of_here | exact Hin].
      * intros H. apply IH in H as [H1 H2].
        split; [now apply list_elem_of_further | exact H2].
Qed.

Lemma scanValidAddresses_failure (ignored : gset string) (validAddressIndex : Z)
    (addresses : list string) (counter : Z) :
  snd (lavasession.scanValidAddresses ignored validAddressIndex addresses counter) <> None ->
  lavasession.scanValidAddresses ignored validAddressIndex addresses counter
  = (EmptyString, Some UnreachableCodeError).
Proof.
  revert counter. induction addresses as [|a rest IH]; intros counter; simpl.
  - reflexivity.
  - case_bool_decide as Hin; [apply IH|].
    destruct (counter =? validAddressIndex); [intros H; now elim H | apply IH].
Qed.

(** The two ways in which [getValidProviderAddress] ends. *)
Lemma getValidProviderAddress_outcome (Intn : Z -> Z)
    (csm : lavasession.ConsumerSessionManager) (ignored : gset string) :
  match lavasession.getValidProviderAddress Intn csm ignored with
  | (address, None) => address ∈ lavasession.validAddresses csm /\ address ∉ ignored
  | (address, Some e) =>
      address = EmptyString /\ (e = PairingListEmptyError \/ e = UnreachableCodeError)
  end.
Proof.
  unfold lavasession.getValidProviderAddress.
  destruct (_ <=? 0); [split; [reflexivity | now left]|].
  destruct (lavasession.scanValidAddresses ignored _ (lavasession.validAddresses csm) 0)
    as [address [e|]] eqn:Hscan.
  - assert (Hne : snd (lavasession.scanValidAddresses ignored
                         (Intn (Z.of_nat (length (lavasession.validAddresses csm))
                                - Z.of_nat (size ignored)))
                         (lavasession.validAddresses csm) 0) <> None)
      by (rewrite Hscan; discriminate).
    apply scanValidAddresses_failure in Hne. rewrite Hne in Hscan.
    injection Hscan as <- <-. split; [reflexivity | now right].
  - now apply scanValidAddresses_sound in Hscan.
Qed.

(** X11.  Whatever number [rand.Intn] draws, an address that
    [getValidProviderAddress] returns without an error is one of the valid
    addresses and is not among the ignored providers. *)
Theorem getValidProviderAddress_sound (Intn : Z -> Z)
    (csm : lavasession.ConsumerSessionManager) (ignored : gset string)
    (address : string) :
  lavasession.getValidProviderAddress Intn csm ignored = (address, None) ->
  address ∈ lavasession.validAddresses csm /\ address ∉ ignored.
Proof.
  unfold lavasession.getValidProviderAddress.
  destruct (_ <=? 0); [discriminate|]. apply scanValidAddresses_sound.
Qed.

Lemma getValidProviderAddress_sound_witness :
  lavasession.getValidProviderAddress (fun _ => 1) Scenario.csm7 {["A"%string]}
  = ("C"%string, None) /\
  "C"%string ∈ lavasession.validAddresses Scenario.csm7 /\
  "C"%string ∉ ({["A"%string]} : gset string).
Proof.
  assert (H : lavasession.getValidProviderAddress (fun _ => 1) Scenario.csm7
                {["A"%string]} = ("C"%string, None)) by reflexivity.
  split; [exact H|].
  exact (getValidProviderAddress_sound (fun _ => 1) Scenario.csm7 {["A"%string]} "C" H).
Defined.

(** X12.  When [getValidProviderAddress] fails it returns the empty address,
    and the error is PairingListEmpty - exactly when the ignored providers
    are at least as many as the valid addresses - or UnreachableCode. *)
Theorem getValidProviderAddress_failure (Intn : Z -> Z)
    (csm : lavasession.ConsumerSessionManager) (ignored : gset string) :
  let result := lavasession.getValidProviderAddress Intn csm ignored in
  (snd result = Some PairingListEmptyError
   <-> (length (lavasession.validAddresses csm) <= size ignored)%nat) /\
  (snd result <> None ->
   fst result = EmptyString /\
   (snd result = Some PairingListEmptyError \/ snd result = Some UnreachableCodeError)).
Proof.
  intros result. subst result. unfold lavasession.getValidProviderAddress.
  destruct (Z.leb_spec (Z.of_nat (length (lavasession.validAddresses csm))
                        - Z.of_nat (size ignored)) 0) as [Hle | Hgt].
  - simpl. split; [split; [lia | reflexivity]|]. intros _. split; [reflexivity | now left].
  - split.
    + split; [|lia]. intros Herr.
      assert (Hne : snd (lavasession.scanValidAddresses ignored
                           (Intn (Z.of_nat (length (lavasession.validAddresses csm))
                                  - Z.of_nat (size ignored)))
                           (lavasession.validAddresses csm) 0) <> None) by congruence.
      apply scanValidAddresses_failure in Hne. rewrite Hne in Herr. discriminate.
    + intros Hne. apply scanValidAddresses_failure in Hne. rewrite Hne.
      split; [reflexivity | now right].
Qed.

Section ProviderEntryFacts.

Variable Intn : Z -> Z.
Variable validateComputeUnits : lavasession.ConsumerSessionsWithProvider -> Z -> option Error.

(** X13.  [getValidConsumerSessionsWithProvider] forgets the ignored
    providers of an older epoch: the call then runs as with no provider
    ignored, and leaves the ignored providers empty at the current epoch.
    Ignored providers of the current epoch, or of a later one, are kept as
    they are. *)
Theorem getValidConsumerSessionsWithProvider_new_epoch
    (csm : lavasession.ConsumerSessionManager) (ignored : lavasession.ignoredProviders)
    (cuNeededForSession : Z) :
  let result :=
    lavasession.getValidConsumerSessionsWithProvider Intn validateComputeUnits csm ignored
      cuNeededForSession in
  let fresh :=
    {| lavasession.providers := ∅;
       lavasession.ignoredEpoch := lavasession.currentEpoch csm |} in
  (lavasession.ignoredEpoch ignored < lavasession.currentEpoch csm ->
   snd result = fresh /\
   result = lavasession.getValidConsumerSessionsWithProvider Intn validateComputeUnits csm
              fresh cuNeededForSession) /\
  (lavasession.currentEpoch csm <= lavasession.ignoredEpoch ignored ->
   snd result = ignored).
Proof.
  intros result fresh. subst result fresh.
  unfold lavasession.getValidConsumerSessionsWithProvider,
    lavasession.atomicReadCurrentEpoch. cbn [lavasession.ignoredEpoch].
  rewrite Z.ltb_irrefl.
  destruct (Z.ltb_spec (lavasession.ignoredEpoch ignored) (lavasession.currentEpoch csm))
    as [Hlt | Hge].
  - split; [|lia]. intros _.
    destruct (lavasession.getValidProviderAddress Intn csm _) as [a [e|]];
      [now split|].
    destruct (lavasession.pairing csm !! a) as [p|]; [|now split].
    destruct (validateComputeUnits p cuNeededForSession); now split.
  - split; [lia|]. intros _.
    destruct (lavasession.getValidProviderAddress Intn csm _) as [a [e|]];
      [reflexivity|].
    destruct (lavasession.pairing csm !! a) as [p|]; [|reflexivity].
    destruct (validateComputeUnits p cuNeededForSession); reflexivity.
Qed.

(** X14.  A provider entry that [getValidConsumerSessionsWithProvider]
    returns is the entry of the pairing under the address returned; the
    address is valid and was not ignored in this epoch, the entry has the
    compute units asked for, and the epoch returned is the current one. *)
Theorem getValidConsumerSessionsWithProvider_entry
    (csm : lavasession.ConsumerSessionManager) (ignored : lavasession.ignoredProviders)
    (cuNeededForSession : Z) (entry : lavasession.ConsumerSessionsWithProvider)
    (address : string) (epoch : Z) (err : option Error)
    (ignored' : lavasession.ignoredProviders) :
  lavasession.getValidConsumerSessionsWithProvider Intn validateComputeUnits csm ignored
    cuNeededForSession
  = (Some entry, address, epoch, err, ignored') ->
  err = None /\
  epoch = lavasession.currentEpoch csm /\
  lavasession.pairing csm !! address = Some entry /\
  address ∈ lavasession.validAddresses csm /\
  (lavasession.currentEpoch csm <= lavasession.ignoredEpoch ignored ->
   address ∉ lavasession.providers ignored) /\
  validateComputeUnits entry cuNeededForSession = None.
Proof.
  unfold lavasession.getValidConsumerSessionsWithProvider,
    lavasession.atomicReadCurrentEpoch.
  destruct (lavasession.getValidProviderAddress Intn csm _) as [a [e|]] eqn:Hpick;
    [discriminate|].
  destruct (lavasession.pairing csm !! a) as [p|] eqn:Hp; [|discriminate].
  destruct (validateComputeUnits p cuNeededForSession) eqn:Hcu; [discriminate|].
  intros [= <- <- <- <- <-].
  match type of Hpick with
  | lavasession.getValidProviderAddress _ _ ?ign = _ =>
      pose proof (getValidProviderAddress_outcome Intn csm ign) as Hout
  end.
  rewrite Hpick in Hout. destruct Hout as [Hvalid Hnot].
  split; [reflexivity|]. split; [reflexivity|]. split; [exact Hp|].
  split; [exact Hvalid|]. split; [|exact Hcu].
  intros Hge. destruct (Z.ltb_spec (lavasession.ignoredEpoch ignored)
                          (lavasession.currentEpoch csm)); [lia | exact Hnot].
Qed.

(** X15.  On a well-formed manager [getValidConsumerSessionsWithProvider]
    never reads an entry that the pairing does not have: unless the check of
    the compute units itself reports it, the error is never that of a nil
    entry. *)
Theorem getValidConsumerSessionsWithProvider_entry_exists
    (csm : lavasession.ConsumerSessionManager) (ignored : lavasession.ignoredProviders)
    (cuNeededForSession : Z) :
  Invariant.wellFormed csm ->
  (forall entry cu, validateComputeUnits entry cu <> Some NilPointerPanic) ->
  snd (fst (lavasession.getValidConsumerSessionsWithProvider Intn validateComputeUnits csm
              ignored cuNeededForSession))
  <> Some NilPointerPanic.
Proof.
  intros [_ Hentries] Hvalidate.
  unfold lavasession.getValidConsumerSessionsWithProvider.
  match goal with
  | |- context [lavasession.getValidProviderAddress Intn csm ?ign] =>
      pose proof (getValidProviderAddress_outcome Intn csm ign) as Hout;
      destruct (lavasession.getValidProviderAddress Intn csm ign) as [a [e|]]
  end.
  - simpl. destruct Hout as [_ [-> | ->]]; discriminate.
  - destruct Hout as [Hin _].
    destruct (Hentries a Hin) as [p Hp]. rewrite Hp.
    destruct (validateComputeUnits p cuNeededForSession) eqn:Hcu; simpl.
    + rewrite <- Hcu. apply Hvalidate.
    + discriminate.
Qed.

End ProviderEntryFacts.

Lemma getValidConsumerSessionsWithProvider_entry_witness :
  let ignored := {| lavasession.providers := {["A"%string]};
                    lavasession.ignoredEpoch := 7 |} in
  lavasession.getValidConsumerSessionsWithProvider (fun _ => 0) (fun _ _ => None)
    Scenario.csm7 ignored 10
  = (Some (Scenario.provider "B" 10 7), "B"%string, 7, None, ignored) /\
  lavasession.pairing Scenario.csm7 !! "B"%string = Some (Scenario.provider "B" 10 7) /\
  "B"%string ∈ lavasession.validAddresses Scenario.csm7.
Proof.
  intros ignored.
  assert (H : lavasession.getValidConsumerSessionsWithProvider (fun _ => 0)
                (fun _ _ => None) Scenario.csm7 ignored 10
              = (Some (Scenario.provider "B" 10 7), "B"%string, 7, None, ignored))
    by reflexivity.
  split; [exact H|].
  destruct (getValidConsumerSessionsWithProvider_entry (fun _ => 0) (fun _ _ => None)
              Scenario.csm7 ignored 10 _ _ _ _ _ H) as (_ & _ & Hentry & Hvalid & _).
  split; [exact Hentry | exact Hvalid].
Defined.

Lemma getValidConsumerSessionsWithProvider_entry_exists_witness :
  Invariant.wellFormed Scenario.csm7 /\
  snd (fst (lavasession.getValidConsumerSessionsWithProvider (fun _ => 0)
              (fun _ _ => None) Scenario.csm7
              {| lavasession.providers := ∅; lavasession.ignoredEpoch := 7 |} 10))
  <> Some NilPointerPanic.
Proof.
  assert (Hwf : Invariant.wellFormed Scenario.csm7).
  { split.
    - simpl. repeat constructor; set_solver.
    - intros address Hin. simpl in Hin.
      apply elem_of_cons in Hin as [-> | Hin]; [now eexists|].
      apply elem_of_cons in Hin as [-> | Hin]; [now eexists|].
      apply elem_of_cons in Hin as [-> | Hin]; [now eexists|].
      inversion Hin. }
  split; [exact Hwf|].
  apply (getValidConsumerSessionsWithProvider_entry_exists (fun _ => 0) (fun _ _ => None)
           Scenario.csm7 _ 10 Hwf).
  intros entry cu. discriminate.
Defined.

(** ** Resetting the valid addresses *)

Section ResetFacts.

Variable rangeOrder : forall V : Type, gmap Z V -> list (Z * V).

Hypothesis rangeOrder_visits_each_once :
  forall (V : Type) (m : gmap Z V), rangeOrder V m ≡ₚ map_to_list m.

(** X16.  [validatePairingListNotEmpty] does nothing while a valid address
    is left.  Once none is left, it makes every address of the pairing valid
    again, one for every index, and counts the reset; the reported providers
    stay reported, so that a provider can be both reported and valid, and no
    other field changes. *)
Theorem validatePairingListNotEmpty_resets_when_empty
    (csm : lavasession.ConsumerSessionManager) :
  let result := lavasession.validatePairingListNotEmpty rangeOrder csm in
  let csm' := snd result in
  (lavasession.validAddresses csm <> [] -> result = (lavasession.numberOfResets csm, csm)) /\
  (lavasession.validAddresses csm = [] ->
     fst result = U64.add (lavasession.numberOfResets csm) 1 /\
     lavasession.numberOfResets csm' = U64.add (lavasession.numberOfResets csm) 1 /\
     lavasession.validAddresses csm' ≡ₚ (map_to_list (lavasession.pairingAddresses csm)).*2 /\
     (forall a, a ∈ lavasession.validAddresses csm'
        <-> exists idx, lavasession.pairingAddresses csm !! idx = Some a) /\
     lavasession.addedToPurgeAndReport csm' = lavasession.addedToPurgeAndReport csm /\
     lavasession.pairing csm' = lavasession.pairing csm /\
     lavasession.pairingAddresses csm' = lavasession.pairingAddresses csm /\
     lavasession.pairingPurge csm' = lavasession.pairingPurge csm /\
     lavasession.currentEpoch csm' = lavasession.currentEpoch csm).
Proof.
  intros result csm'. subst csm' result.
  unfold lavasession.validatePairingListNotEmpty, lavasession.shouldResetValidAddresses,
    lavasession.resetValidAddresses.
  destruct (lavasession.validAddresses csm) as [|a rest] eqn:Hvalid.
  - split; [intros H; now elim H|]. intros _. cbn [length].
    rewrite !bool_decide_eq_true_2 by reflexivity. cbn [fst snd].
    assert (Hvalues := setValidAddressesToDefaultValue_values rangeOrder
                         rangeOrder_visits_each_once csm).
    assert (Hperm : lavasession.validAddresses
                      (lavasession.setValidAddressesToDefaultValue rangeOrder csm)
                    ≡ₚ (map_to_list (lavasession.pairingAddresses csm)).*2).
    { rewrite Hvalues. now rewrite (rangeOrder_visits_each_once _ _). }
    split; [reflexivity|]. split; [reflexivity|].
    split; [exact Hperm|].
    split; [|repeat split; reflexivity].
    intros address.
    change (lavasession.validAddresses
              (lavasession.set_numberOfResets
                 (lavasession.setValidAddressesToDefaultValue rangeOrder csm)
                 (U64.add
                    (lavasession.numberOfResets
                       (lavasession.setValidAddressesToDefaultValue rangeOrder csm)) 1)))
      with (lavasession.validAddresses
              (lavasession.setValidAddressesToDefaultValue rangeOrder csm)).
    rewrite Hperm, list_elem_of_fmap. split.
    + intros ([idx a'] & -> & Hin). apply elem_of_map_to_list in Hin. eauto.
    + intros (idx & Hidx). exists (idx, address). split; [reflexivity|].
      now apply elem_of_map_to_list.
  - split; [|discriminate]. intros _. cbn [length].
    now rewrite bool_decide_eq_false_2 by discriminate.
Qed.

End ResetFacts.

Lemma validatePairingListNotEmpty_resets_when_empty_witness :
  let rangeOrder := fun (V : Type) (m : gmap Z V) => map_to_list m in
  let blocked :=
    lavasession.set_addedToPurgeAndReport
      (lavasession.set_validAddresses Scenario.csm7 []) {["B"%string]} in
  let csm' := snd (lavasession.validatePairingListNotEmpty rangeOrder blocked) in
  (forall (V : Type) (m : gmap Z V), rangeOrder V m ≡ₚ map_to_list m) /\
  lavasession.validAddresses blocked = [] /\
  lavasession.numberOfResets csm' = 1 /\
  "B"%string ∈ lavasession.validAddresses csm' /\
  "B"%string ∈ lavasession.addedToPurgeAndReport csm'.
Proof.
  intros rangeOrder blocked csm'.
  assert (Hrange : forall (V : Type) (m : gmap Z V), rangeOrder V m ≡ₚ map_to_list m)
    by reflexivity.
  assert (Hempty : lavasession.validAddresses blocked = []) by reflexivity.
  split; [exact Hrange|]. split; [exact Hempty|].
  destruct (validatePairingListNotEmpty_resets_when_empty rangeOrder Hrange blocked)
    as [_ Hreset].
  destruct (Hreset Hempty) as (_ & Hcount & _ & Hvalid & Hreported & _).
  split; [exact Hcount|]. split.
  - apply Hvalid. exists 1. reflexivity.
  - fold csm' in Hreported. rewrite Hreported. simpl. set_solver.
Defined.

(** ** Blocking providers, in general *)

(** The address list after a removal, by its head. *)
Lemma removeAddressLoop_cons (address x : string) (l : list string) :
  snd (lavasession.removeAddressLoop address (x :: l) 0%nat (x :: l))
  = if bool_decide (x = address) then l
    else x :: snd (lavasession.removeAddressLoop address l 0%nat l).
Proof.
  case_bool_decide as Hx.
  - subst x. exact (f_equal snd (removeAddressLoop_present address [] [] l
                                   (not_elem_of_nil address))).
  - destruct (decide (address ∈ l)) as [Hin | Hnot].
    + apply list_elem_of_split_l in Hin as (l1 & l2 & -> & Hl1).
      assert (Hx1 : address ∉ x :: l1).
      { apply not_elem_of_cons. split; [congruence | exact Hl1]. }
      assert (H1 : snd (lavasession.removeAddressLoop address (l1 ++ address :: l2) 0%nat
                          (l1 ++ address :: l2)) = l1 ++ l2)
        by exact (f_equal snd (removeAddressLoop_present address [] l1 l2 Hl1)).
      rewrite H1.
      exact (f_equal snd (removeAddressLoop_present address [] (x :: l1) l2 Hx1)).
    + rewrite (removeAddressLoop_absent address l 0%nat l Hnot).
      rewrite removeAddressLoop_absent; [reflexivity|].
      apply not_elem_of_cons. split; [congruence | exact Hnot].
Qed.

Lemma removeAddressLoop_sublist (address : string) (l : list string) :
  snd (lavasession.removeAddressLoop address l 0%nat l) `sublist_of` l.
Proof.
  induction l as [|x l IH]; [simpl; constructor|].
  rewrite removeAddressLoop_cons. case_bool_decide.
  - now apply sublist_cons.
  - now apply sublist_skip.
Qed.

Lemma removeAddressLoop_commute (a b : string) (l : list string) :
  let remove address l := snd (lavasession.removeAddressLoop address l 0%nat l) in
  remove a (remove b l) = remove b (remove a l).
Proof.
  intros remove. subst remove. cbv beta.
  induction l as [|x l IH]; [reflexivity|].
  rewrite (removeAddressLoop_cons b x l), (removeAddressLoop_cons a x l).
  destruct (bool_decide (x = b)) eqn:Hb; destruct (bool_decide (x = a)) eqn:Ha.
  - apply bool_decide_eq_true in Hb, Ha. congruence.
  - rewrite removeAddressLoop_cons, Hb. reflexivity.
  - rewrite removeAddressLoop_cons, Ha. reflexivity.
  - rewrite !removeAddressLoop_cons, Ha, Hb. now rewrite IH.
Qed.

(** X17.  Blocking is idempotent on a valid list without repetition:
    blocking a provider a second time, with the same flag and epoch, returns
    what the first call returned and leaves the manager as the first call
    left it. *)
Theorem blockProvider_idempotent (csm : lavasession.ConsumerSessionManager)
    (address : string) (reportProvider : bool) (sessionEpoch : Z) :
  NoDup (lavasession.validAddresses csm) ->
  lavasession.blockProvider
    (snd (lavasession.blockProvider csm address reportProvider sessionEpoch))
    address reportProvider sessionEpoch
  = lavasession.blockProvider csm address reportProvider sessionEpoch.
Proof.
  intros Hnodup.
  destruct (decide (sessionEpoch = lavasession.currentEpoch csm)) as [-> | Hne].
  - rewrite (blockProvider_current_epoch csm).
    set (valid' := snd (lavasession.removeAddressLoop address
                          (lavasession.validAddresses csm) 0%nat
                          (lavasession.validAddresses csm))).
    cbn [snd].
    match goal with
    | |- lavasession.blockProvider ?c _ _ _ = _ =>
        change (lavasession.currentEpoch csm) with (lavasession.currentEpoch c) at 1;
        rewrite (blockProvider_current_epoch c)
    end.
    cbn [lavasession.validAddresses lavasession.addedToPurgeAndReport
         lavasession.set_addedToPurgeAndReport lavasession.set_validAddresses
         lavasession.pairing lavasession.currentEpoch lavasession.numberOfResets
         lavasession.pairingAddresses lavasession.pairingAddressesLength
         lavasession.pairingPurge].
    assert (Hgone : address ∉ valid').
    { subst valid'.
      destruct (decide (address ∈ lavasession.validAddresses csm)) as [Hin | Hnot].
      - apply list_elem_of_split_l in Hin as (l1 & l2 & Hv & Hl1).
        rewrite Hv in Hnodup |- *.
        assert (H1 : snd (lavasession.removeAddressLoop address (l1 ++ address :: l2)
                            0%nat (l1 ++ address :: l2)) = l1 ++ l2)
          by exact (f_equal snd (removeAddressLoop_present address [] l1 l2 Hl1)).
        rewrite H1.
        apply NoDup_app in Hnodup as (_ & _ & Hnd).
        apply NoDup_cons in Hnd as [Hl2 _]. rewrite elem_of_app. tauto.
      - now rewrite removeAddressLoop_absent. }
    rewrite (removeAddressLoop_absent address valid' 0%nat valid' Hgone). cbn [snd].
    f_equal. f_equal. destruct reportProvider; [set_solver | reflexivity].
  - rewrite (blockProvider_other_epoch csm) by exact Hne. cbn [snd].
    now rewrite blockProvider_other_epoch.
Qed.

Lemma blockProvider_idempotent_witness :
  NoDup (lavasession.validAddresses Scenario.csm7) /\
  lavasession.blockProvider (snd (lavasession.blockProvider Scenario.csm7 "B" true 7))
    "B" true 7
  = lavasession.blockProvider Scenario.csm7 "B" true 7.
Proof.
  assert (Hnodup : NoDup (lavasession.validAddresses Scenario.csm7))
    by (simpl; repeat constructor; set_solver).
  split; [exact Hnodup|].
  exact (blockProvider_idempotent Scenario.csm7 "B" true 7 Hnodup).
Defined.

(** X18.  The order in which two providers are blocked does not matter:
    whatever the addresses, flags and session epochs of the two calls, both
    orders leave the same manager. *)
Theorem blockProvider_commutes (csm : lavasession.ConsumerSessionManager)
    (a b : string) (reportA reportB : bool) (epochA epochB : Z) :
  snd (lavasession.blockProvider
         (snd (lavasession.blockProvider csm a reportA epochA)) b reportB epochB)
  = snd (lavasession.blockProvider
           (snd (lavasession.blockProvider csm b reportB epochB)) a reportA epochA).
Proof.
  assert (Hepoch : forall c address report epoch,
            lavasession.currentEpoch (snd (lavasession.blockProvider c address report epoch))
            = lavasession.currentEpoch c).
  { intros c address report epoch.
    destruct (decide (epoch = lavasession.currentEpoch c)) as [-> | Hne].
    - now rewrite blockProvider_current_epoch.
    - now rewrite blockProvider_other_epoch. }
  destruct (decide (epochA = lavasession.currentEpoch csm)) as [HA | HA];
    destruct (decide (epochB = lavasession.currentEpoch csm)) as [HB | HB].
  - subst epochA. rewrite HB.
    rewrite (blockProvider_current_epoch csm a), (blockProvider_current_epoch csm b).
    cbn [snd].
    match goal with
    | |- snd (lavasession.blockProvider ?c1 _ _ _)
         = snd (lavasession.blockProvider ?c2 _ _ _) =>
        change (lavasession.currentEpoch csm) with (lavasession.currentEpoch c1) at 1;
        rewrite (blockProvider_current_epoch c1);
        change (lavasession.currentEpoch csm) with (lavasession.currentEpoch c2) at 1;
        rewrite (blockProvider_current_epoch c2)
    end.
    cbn [snd lavasession.validAddresses lavasession.addedToPurgeAndReport
         lavasession.set_addedToPurgeAndReport lavasession.set_validAddresses
         lavasession.pairing lavasession.currentEpoch lavasession.numberOfResets
         lavasession.pairingAddresses lavasession.pairingAddressesLength
         lavasession.pairingPurge].
    pose proof (removeAddressLoop_commute b a (lavasession.validAddresses csm)) as Hcomm.
    cbv zeta beta in Hcomm. rewrite Hcomm.
    f_equal. destruct reportA, reportB; set_solver.
  - rewrite (blockProvider_other_epoch csm b reportB epochB HB). cbn [snd].
    rewrite (blockProvider_other_epoch _ b reportB epochB); [reflexivity|].
    now rewrite Hepoch.
  - rewrite (blockProvider_other_epoch csm a reportA epochA HA). cbn [snd].
    rewrite (blockProvider_other_epoch _ a reportA epochA); [reflexivity|].
    now rewrite Hepoch.
  - rewrite (blockProvider_other_epoch csm a reportA epochA HA),
      (blockProvider_other_epoch csm b reportB epochB HB). cbn [snd].
    now rewrite (blockProvider_other_epoch csm a reportA epochA HA),
      (blockProvider_other_epoch csm b reportB epochB HB).
Qed.

Lemma blockedFrom_refl (csm : lavasession.ConsumerSessionManager) :
  Invariant.blockedFrom csm csm.
Proof. unfold Invariant.blockedFrom. repeat split; reflexivity. Qed.

Lemma blockedFrom_wellFormed (csm csm' : lavasession.ConsumerSessionManager) :
  Invariant.blockedFrom csm csm' -> Invariant.wellFormed csm -> Invariant.wellFormed csm'.
Proof.
  intros (Hsub & _ & Hpairing & _) [Hnodup Hentries]. split.
  - exact (sublist_NoDup _ _ Hnodup Hsub).
  - intros a Hin. rewrite Hpairing. apply Hentries.
    exact (elem_of_sublist _ _ _ Hin Hsub).
Qed.

Lemma blockProvider_blockedFrom (csm : lavasession.ConsumerSessionManager)
    (address : string) (reportProvider : bool) (sessionEpoch : Z) :
  Invariant.blockedFrom csm
    (snd (lavasession.blockProvider csm address reportProvider sessionEpoch)).
Proof.
  destruct (decide (sessionEpoch = lavasession.currentEpoch csm)) as [-> | Hne].
  - rewrite blockProvider_current_epoch. unfold Invariant.blockedFrom. simpl.
    split; [apply removeAddressLoop_sublist|].
    split; [destruct reportProvider; set_solver|].
    repeat split; reflexivity.
  - rewrite blockProvider_other_epoch by exact Hne. apply blockedFrom_refl.
Qed.

Section FailureFacts.

Variable decreaseUsedComputeUnits :
  lavasession.ConsumerSessionsWithProvider -> Z ->
  option Error * lavasession.ConsumerSessionsWithProvider.

(** The manager that [OnSessionFailure] leaves: the one it was given, or
    the one that blocking the session's provider leaves. *)
Lemma OnSessionFailure_manager (csm : lavasession.ConsumerSessionManager)
    (parent : lavasession.ConsumerSessionsWithProvider)
    (cs : lavasession.SingleConsumerSession) (errorReceived : RelayError) :
  let csm' :=
    snd (fst (fst (lavasession.OnSessionFailure decreaseUsedComputeUnits csm parent cs
                     errorReceived))) in
  let parent1 := snd (decreaseUsedComputeUnits parent (lavasession.LatestRelayCu cs)) in
  csm' = csm \/
  exists reportProvider,
    csm' = snd (lavasession.blockProvider csm (lavasession.PublicLavaAddress parent1)
                  reportProvider (lavasession.PairingEpoch parent1)).
Proof.
  intros csm' parent1. subst csm' parent1. unfold lavasession.OnSessionFailure.
  destruct (lavasession.verifyLock cs); [now left|].
  destruct (lavasession.BlockListed cs); [now left|].
  set (blockListed := (_ <? _) || _).
  assert (Hcu : lavasession.LatestRelayCu
                  (if blockListed
                   then lavasession.set_BlockListed
                          (lavasession.set_ConsecutiveNumberOfFailures
                             (lavasession.set_QoS cs
                                (lavasession.set_TotalRelays (lavasession.QoS cs)
                                   (U64.add (lavasession.TotalRelays (lavasession.QoS cs)) 1)))
                             (U64.add
                                (lavasession.ConsecutiveNumberOfFailures
                                   (lavasession.set_QoS cs
                                      (lavasession.set_TotalRelays (lavasession.QoS cs)
                                         (U64.add
                                            (lavasession.TotalRelays (lavasession.QoS cs))
                                            1)))) 1)) true
                   else lavasession.set_ConsecutiveNumberOfFailures
                          (lavasession.set_QoS cs
                             (lavasession.set_TotalRelays (lavasession.QoS cs)
                                (U64.add (lavasession.TotalRelays (lavasession.QoS cs)) 1)))
                          (U64.add
                             (lavasession.ConsecutiveNumberOfFailures
                                (lavasession.set_QoS cs
                                   (lavasession.set_TotalRelays (lavasession.QoS cs)
                                      (U64.add
                                         (lavasession.TotalRelays (lavasession.QoS cs))
                                         1)))) 1))
                = lavasession.LatestRelayCu cs) by (now destruct blockListed).
  cbv zeta. rewrite Hcu.
  destruct (decreaseUsedComputeUnits parent (lavasession.LatestRelayCu cs))
    as [err parent1].
  destruct err as [e|]; [now left|]. cbn [snd].
  unfold lavasession.getPublicLavaAddressAndPairingEpoch.
  repeat match goal with
         | |- context [if ?b then _ else _] =>
             lazymatch b with
             | bool_decide _ => fail
             | Is _ _ => fail
             | _ => destruct b
             end
         end.
  all: try (now left).
  all: match goal with
       | |- context [lavasession.blockProvider ?c ?a ?r ?e] =>
           right; exists r; destruct (lavasession.blockProvider c a r e) as [err1 csm1]
       end;
    cbn [snd fst];
    repeat match goal with
           | |- context [if ?b then _ else _] => destruct b
           end; reflexivity.
Qed.

Lemma OnDataReliabilitySessionFailure_manager (csm : lavasession.ConsumerSessionManager)
    (parent : lavasession.ConsumerSessionsWithProvider)
    (cs : lavasession.SingleConsumerSession) (errorReceived : RelayError) :
  let csm' :=
    snd (fst (lavasession.OnDataReliabilitySessionFailure csm parent cs errorReceived)) in
  csm' = csm \/
  exists reportProvider,
    csm' = snd (lavasession.blockProvider csm (lavasession.PublicLavaAddress parent)
                  reportProvider (lavasession.PairingEpoch parent)).
Proof.
  intros csm'. subst csm'. unfold lavasession.OnDataReliabilitySessionFailure.
  destruct (lavasession.verifyLock cs); [now left|].
  destruct (lavasession.BlockListed cs); [now left|].
  unfold lavasession.getPublicLavaAddressAndPairingEpoch. cbv zeta.
  destruct (isReportAndBlockProviderError errorReceived);
    [|destruct (isBlockProviderError errorReceived); [|now left]].
  all: match goal with
       | |- context [lavasession.blockProvider ?c ?a ?r ?e] =>
           right; exists r; destruct (lavasession.blockProvider c a r e) as [err1 csm1]
       end;
    cbn [snd fst];
    repeat match goal with
           | |- context [if ?b then _ else _] => destruct b
           end; reflexivity.
Qed.

(** X19.  A failed relay can only block: whatever the error,
    [OnSessionFailure] and [OnDataReliabilitySessionFailure] take addresses
    out of the valid list and add providers to the reported set, and touch no
    other field of the manager; a well-formed manager stays well formed. *)
Theorem failures_only_block (csm : lavasession.ConsumerSessionManager)
    (parent : lavasession.ConsumerSessionsWithProvider)
    (cs : lavasession.SingleConsumerSession) (errorReceived : RelayError) :
  let afterFailure :=
    snd (fst (fst (lavasession.OnSessionFailure decreaseUsedComputeUnits csm parent cs
                     errorReceived))) in
  let afterAuditFailure :=
    snd (fst (lavasession.OnDataReliabilitySessionFailure csm parent cs errorReceived)) in
  Invariant.blockedFrom csm afterFailure /\
  Invariant.blockedFrom csm afterAuditFailure /\
  (Invariant.wellFormed csm ->
   Invariant.wellFormed afterFailure /\ Invariant.wellFormed afterAuditFailure).
Proof.
  intros afterFailure afterAuditFailure.
  assert (H1 : Invariant.blockedFrom csm afterFailure).
  { subst afterFailure.
    destruct (OnSessionFailure_manager csm parent cs errorReceived) as [-> | [r ->]];
      [apply blockedFrom_refl | apply blockProvider_blockedFrom]. }
  assert (H2 : Invariant.blockedFrom csm afterAuditFailure).
  { subst afterAuditFailure.
    destruct (OnDataReliabilitySessionFailure_manager csm parent cs errorReceived)
      as [-> | [r ->]]; [apply blockedFrom_refl | apply blockProvider_blockedFrom]. }
  split; [exact H1|]. split; [exact H2|].
  intros Hwf. split; eapply blockedFrom_wellFormed; eassumption.
Qed.

(** X20.  The failure of a session of an older pairing does not touch the
    manager: when the epoch of the session's provider entry is not the
    current one, [OnSessionFailure] and [OnDataReliabilitySessionFailure]
    leave the manager as it is, whatever the error asks for. *)
Theorem failure_of_older_session_blocks_nothing
    (csm : lavasession.ConsumerSessionManager)
    (parent : lavasession.ConsumerSessionsWithProvider)
    (cs : lavasession.SingleConsumerSession) (errorReceived : RelayError) :
  (forall entry cu,
     lavasession.PairingEpoch (snd (decreaseUsedComputeUnits entry cu))
     = lavasession.PairingEpoch entry) ->
  lavasession.PairingEpoch parent <> lavasession.currentEpoch csm ->
  snd (fst (fst (lavasession.OnSessionFailure decreaseUsedComputeUnits csm parent cs
                   errorReceived))) = csm /\
  snd (fst (lavasession.OnDataReliabilitySessionFailure csm parent cs errorReceived))
  = csm.
Proof.
  intros Hkeeps Hepoch. split.
  - destruct (OnSessionFailure_manager csm parent cs errorReceived) as [H | [r H]];
      [exact H|].
    rewrite H. rewrite blockProvider_other_epoch; [reflexivity|].
    now rewrite Hkeeps.
  - destruct (OnDataReliabilitySessionFailure_manager csm parent cs errorReceived)
      as [H | [r H]]; [exact H|].
    rewrite H. now rewrite blockProvider_other_epoch.
Qed.

End FailureFacts.

Lemma failure_of_older_session_blocks_nothing_witness :
  let reportAndBlock :=
    {| statusCodeIsSessionOutOfSync := false; isSessionOutOfSyncError := false;
       isReportAndBlockProviderError := true; isBlockProviderError := false |} in
  let older := Scenario.provider "B" 10 6 in
  lavasession.PairingEpoch older <> lavasession.currentEpoch Scenario.csm7 /\
  snd (fst (fst (lavasession.OnSessionFailure lavasession.decreaseUsedComputeUnits_spec
                   Scenario.csm7 older (Scenario.session 10 0 false) reportAndBlock)))
  = Scenario.csm7.
Proof.
  intros reportAndBlock older.
  assert (Hepoch : lavasession.PairingEpoch older <> lavasession.currentEpoch Scenario.csm7)
    by discriminate.
  split; [exact Hepoch|].
  apply (failure_of_older_session_blocks_nothing lavasession.decreaseUsedComputeUnits_spec
           Scenario.csm7 older (Scenario.session 10 0 false) reportAndBlock);
    [|exact Hepoch].
  intros entry cu. unfold lavasession.decreaseUsedComputeUnits_spec.
  destruct (lavasession.UsedComputeUnits entry <? cu); reflexivity.
Defined.

(** ** A new pairing is well formed *)

Section RotationFacts.

Variable rangeOrder : forall V : Type, gmap Z V -> list (Z * V).

Hypothesis rangeOrder_visits_each_once :
  forall (V : Type) (m : gmap Z V), rangeOrder V m ≡ₚ map_to_list m.

(** The maps and the valid addresses after a rotation. *)
Lemma UpdateAllProviders_installs (csm : lavasession.ConsumerSessionManager) (epoch : Z)
    (pairingList : gmap Z lavasession.ConsumerSessionsWithProvider) :
  lavasession.currentEpoch csm < epoch ->
  let csm' := snd (lavasession.UpdateAllProviders rangeOrder csm epoch pairingList) in
  lavasession.pairingAddresses csm' = lavasession.PublicLavaAddress <$> pairingList /\
  (forall idx p, pairingList !! idx = Some p ->
     is_Some (lavasession.pairing csm' !! lavasession.PublicLavaAddress p)) /\
  lavasession.validAddresses csm'
  ≡ₚ (map_to_list (lavasession.PublicLavaAddress <$> pairingList)).*2.
Proof.
  intros Hgt csm'. subst csm'.
  unfold lavasession.UpdateAllProviders, lavasession.atomicReadCurrentEpoch.
  destruct (Z.leb_spec epoch (lavasession.currentEpoch csm)) as [Hle | _]; [lia|].
  set (csm2 := {| lavasession.pairing := ∅;
                  lavasession.currentEpoch := _;
                  lavasession.numberOfResets := 0;
                  lavasession.pairingAddresses := ∅;
                  lavasession.pairingAddressesLength := _;
                  lavasession.validAddresses := _;
                  lavasession.addedToPurgeAndReport := ∅;
                  lavasession.pairingPurge := _ |}).
  set (entries := rangeOrder _ pairingList).
  assert (Hperm : entries ≡ₚ map_to_list pairingList)
    by apply rangeOrder_visits_each_once.
  assert (Hentry : forall idx p, (idx, p) ∈ entries <-> pairingList !! idx = Some p).
  { intros idx p. rewrite Hperm. apply elem_of_map_to_list. }
  assert (Hnodup : NoDup entries.*1).
  { rewrite Hperm. apply NoDup_fst_map_to_list. }
  assert (Haddresses :
    lavasession.pairingAddresses (fold_left lavasession.installProvider entries csm2)
    = lavasession.PublicLavaAddress <$> pairingList).
  { apply map_eq. intros idx. rewrite lookup_fmap.
    destruct (pairingList !! idx) as [p|] eqn:Hp.
    - simpl. apply fold_installProvider_index; [exact Hnodup | now apply Hentry].
    - simpl. rewrite fold_installProvider_index_other; [reflexivity|].
      intros Hin. apply list_elem_of_fmap in Hin as ([idx' p] & Hidx & Hin).
      simpl in Hidx. subst idx'. apply Hentry in Hin. congruence. }
  assert (Hhas : forall idx p, pairingList !! idx = Some p ->
            is_Some (lavasession.pairing
                       (fold_left lavasession.installProvider entries csm2)
                       !! lavasession.PublicLavaAddress p)).
  { intros idx p Hp.
    apply (fold_installProvider_pairing_has entries csm2 idx). now apply Hentry. }
  remember (fold_left lavasession.installProvider entries csm2) as csm3 eqn:E3.
  cbn [snd]. split; [exact Haddresses|]. split; [exact Hhas|].
  rewrite (setValidAddressesToDefaultValue_values rangeOrder rangeOrder_visits_each_once),
    Haddresses.
  now rewrite (rangeOrder_visits_each_once _ _).
Qed.

(** X21.  [UpdateAllProviders] starts every epoch with a well-formed
    manager, provided that no two indexes of the new list hold providers of
    the same address: no address is valid twice, and every valid address has
    its entry in the pairing. *)
Theorem UpdateAllProviders_wellFormed (csm : lavasession.ConsumerSessionManager)
    (epoch : Z) (pairingList : gmap Z lavasession.ConsumerSessionsWithProvider) :
  lavasession.currentEpoch csm < epoch ->
  (forall i j p q, pairingList !! i = Some p -> pairingList !! j = Some q ->
     lavasession.PublicLavaAddress p = lavasession.PublicLavaAddress q -> i = j) ->
  Invariant.wellFormed
    (snd (lavasession.UpdateAllProviders rangeOrder csm epoch pairingList)).
Proof.
  intros Hgt Hinj.
  destruct (UpdateAllProviders_installs csm epoch pairingList Hgt)
    as (Haddresses & Hhas & Hvalid).
  split.
  - rewrite Hvalid. apply NoDup_fmap_2_strong; [|apply NoDup_map_to_list].
    intros [i a] [j b] Hi Hj Hab. simpl in Hab. subst b.
    apply elem_of_map_to_list in Hi, Hj.
    rewrite lookup_fmap in Hi, Hj.
    destruct (pairingList !! i) as [p|] eqn:Hp; [|discriminate].
    destruct (pairingList !! j) as [q|] eqn:Hq; [|discriminate].
    simpl in Hi, Hj. injection Hi as Hi. injection Hj as Hj.
    f_equal. apply (Hinj i j p q Hp Hq). congruence.
  - intros a Hin. rewrite Hvalid in Hin.
    apply list_elem_of_fmap in Hin as ([idx a'] & -> & Hin).
    apply elem_of_map_to_list in Hin. rewrite lookup_fmap in Hin.
    destruct (pairingList !! idx) as [p|] eqn:Hp; [|discriminate].
    simpl in Hin. injection Hin as <-. exact (Hhas idx p Hp).
Qed.

End RotationFacts.

Lemma UpdateAllProviders_wellFormed_witness :
  let rangeOrder := fun (V : Type) (m : gmap Z V) => map_to_list m in
  (forall (V : Type) (m : gmap Z V), rangeOrder V m ≡ₚ map_to_list m) /\
  lavasession.currentEpoch Scenario.csm7 < 8 /\
  Invariant.wellFormed
    (snd (lavasession.UpdateAllProviders rangeOrder Scenario.csm7 8
            (Scenario.pairingList 8))).
Proof.
  intros rangeOrder.
  assert (Hrange : forall (V : Type) (m : gmap Z V), rangeOrder V m ≡ₚ map_to_list m)
    by reflexivity.
  assert (Hepoch : lavasession.currentEpoch Scenario.csm7 < 8) by (simpl; lia).
  split; [exact Hrange|]. split; [exact Hepoch|].
  apply (UpdateAllProviders_wellFormed rangeOrder Hrange Scenario.csm7 8
           (Scenario.pairingList 8) Hepoch).
  intros i j p q Hi Hj Heq. unfold Scenario.pairingList in Hi, Hj.
  apply lookup_insert_Some in Hi as [[<- <-] | [Hi0 Hi]];
    [|apply lookup_insert_Some in Hi as [[<- <-] | [Hi1 Hi]];
      [|apply lookup_singleton_Some in Hi as [<- <-]]].
  all: apply lookup_insert_Some in Hj as [[<- <-] | [Hj0 Hj]];
    [|apply lookup_insert_Some in Hj as [[<- <-] | [Hj1 Hj]];
      [|apply lookup_singleton_Some in Hj as [<- <-]]].
  all: first [reflexivity | discriminate Heq].
Defined.

(** ** Data-reliability sessions, in general *)

Section DataReliabilityGeneral.

Variable verifyDataReliabilitySessionWasNotAlreadyCreated :
  lavasession.ConsumerSessionsWithProvider ->
  option lavasession.SingleConsumerSession * Z * option Error.

Variable fetchEndpointConnectionFromConsumerSessionWithProvider :
  lavasession.ConsumerSessionsWithProvider -> nat ->
  bool * option lavasession.Endpoint * string * option Error.

Variable getDataReliabilitySingleConsumerSession :
  lavasession.ConsumerSessionsWithProvider -> option lavasession.Endpoint ->
  option lavasession.SingleConsumerSession * Z * option Error.

(** Attempts that neither connect nor fail are skipped. *)
Lemma connectionAttempts_skip (cswp : lavasession.ConsumerSessionsWithProvider)
    (sessionEpoch : Z) (csm : lavasession.ConsumerSessionManager) (k : nat) :
  forall attemptsLeft idx : nat,
    (forall i, (idx <= i < idx + k)%nat ->
       fst (fst (fst (fetchEndpointConnectionFromConsumerSessionWithProvider cswp i)))
       = false /\
       snd (fetchEndpointConnectionFromConsumerSessionWithProvider cswp i) = None) ->
    lavasession.connectionAttempts fetchEndpointConnectionFromConsumerSessionWithProvider
      cswp sessionEpoch (k + attemptsLeft) idx csm
    = lavasession.connectionAttempts fetchEndpointConnectionFromConsumerSessionWithProvider
        cswp sessionEpoch attemptsLeft (idx + k) csm.
Proof.
  induction k as [|k IH]; intros attemptsLeft idx Hskip.
  - now rewrite Nat.add_0_r.
  - cbn [Nat.add lavasession.connectionAttempts].
    destruct (Hskip idx ltac:(lia)) as [Hc He].
    destruct (fetchEndpointConnectionFromConsumerSessionWithProvider cswp idx)
      as [[[connected endpoint] address] err].
    simpl in Hc, He. subst connected err.
    rewrite bool_decide_eq_false_2 by (intros H; now apply H).
    rewrite IH.
    + f_equal. lia.
    + intros i Hi. apply Hskip. lia.
Qed.

Lemma connectionAttempts_blockedFrom (cswp : lavasession.ConsumerSessionsWithProvider)
    (sessionEpoch : Z) (attemptsLeft idx : nat) (csm : lavasession.ConsumerSessionManager) :
  Invariant.blockedFrom csm
    (snd (lavasession.connectionAttempts
            fetchEndpointConnectionFromConsumerSessionWithProvider cswp sessionEpoch
            attemptsLeft idx csm)).
Proof.
  revert idx. induction attemptsLeft as [|n IH]; intros idx.
  - apply blockedFrom_refl.
  - cbn [lavasession.connectionAttempts].
    destruct (fetchEndpointConnectionFromConsumerSessionWithProvider cswp idx)
      as [[[connected endpoint] address] err].
    case_bool_decide.
    + destruct (Is AllProviderEndpointsDisabledError err); [|apply blockedFrom_refl].
      pose proof (blockProvider_blockedFrom csm address true sessionEpoch) as Hb.
      destruct (lavasession.blockProvider csm address true sessionEpoch) as [err1 csm1].
      destruct (bool_decide (err1 <> None) && negb (Is EpochMismatchError err1));
        exact Hb.
    + destruct connected; [apply blockedFrom_refl | apply IH].
Qed.

(** X22.  The retry loop stops at the first attempt that does not simply
    fail to connect, among the first [MaxConsecutiveConnectionAttempts].  If
    that attempt connects, its endpoint is returned and the manager is
    untouched.  If it finds all endpoints of the provider disabled, the
    provider it names is blocked and reported in the session's epoch, and the
    result is the connection error unless the attempt also reported a
    connection.  Any other error is fatal. *)
Theorem fetchEndpointFromConsumerSessionsWithProviderWithRetry_first_outcome
    (csm : lavasession.ConsumerSessionManager)
    (cswp : lavasession.ConsumerSessionsWithProvider) (sessionEpoch : Z) (k : nat)
    (connected : bool) (endpoint : option lavasession.Endpoint) (address : string)
    (err : option Error) :
  (k < lavasession.MaxConsecutiveConnectionAttempts)%nat ->
  (forall i, (i < k)%nat ->
     fst (fst (fst (fetchEndpointConnectionFromConsumerSessionWithProvider cswp i)))
     = false /\
     snd (fetchEndpointConnectionFromConsumerSessionWithProvider cswp i) = None) ->
  fetchEndpointConnectionFromConsumerSessionWithProvider cswp k
  = (connected, endpoint, address, err) ->
  let result :=
    lavasession.fetchEndpointFromConsumerSessionsWithProviderWithRetry
      fetchEndpointConnectionFromConsumerSessionWithProvider csm cswp sessionEpoch in
  (err = None -> connected = true -> result = (endpoint, None, csm)) /\
  (err = Some AllProviderEndpointsDisabledError ->
   result
   = (if connected then endpoint else None,
      if connected then None else Some FailedToConnectToEndPointForDataReliabilityError,
      snd (lavasession.blockProvider csm address true sessionEpoch))) /\
  (err <> None -> err <> Some AllProviderEndpointsDisabledError ->
   result = (None, Some FatalError, csm)).
Proof.
  intros Hk Hskip Hfetch result. subst result.
  unfold lavasession.fetchEndpointFromConsumerSessionsWithProviderWithRetry.
  replace lavasession.MaxConsecutiveConnectionAttempts
    with (k + S (lavasession.MaxConsecutiveConnectionAttempts - S k))%nat by lia.
  rewrite connectionAttempts_skip by (intros i Hi; apply Hskip; lia).
  cbn [Nat.add lavasession.connectionAttempts]. rewrite Hfetch.
  split; [|split].
  - intros -> ->. now rewrite bool_decide_eq_false_2 by (intros H; now apply H).
  - intros ->. rewrite bool_decide_eq_true_2 by discriminate.
    cbn [Is]. rewrite bool_decide_eq_true_2 by reflexivity.
    destruct (blockProvider_error csm address true sessionEpoch) as [He | He];
      destruct (lavasession.blockProvider csm address true sessionEpoch) as [err1 csm1];
      simpl in He; subst err1; simpl; now destruct connected.
  - intros Hsome Hother. rewrite bool_decide_eq_true_2 by exact Hsome.
    destruct err as [e|]; [|now elim Hsome]. cbn [Is].
    rewrite bool_decide_eq_false_2 by congruence. reflexivity.
Qed.

(** X23.  After [MaxConsecutiveConnectionAttempts] attempts that did not
    connect the loop gives up with the connection error and leaves the
    manager untouched; what a later attempt would give is never asked. *)
Theorem fetchEndpointFromConsumerSessionsWithProviderWithRetry_gives_up
    (csm : lavasession.ConsumerSessionManager)
    (cswp : lavasession.ConsumerSessionsWithProvider) (sessionEpoch : Z) :
  (forall i, (i < lavasession.MaxConsecutiveConnectionAttempts)%nat ->
     fst (fst (fst (fetchEndpointConnectionFromConsumerSessionWithProvider cswp i)))
     = false /\
     snd (fetchEndpointConnectionFromConsumerSessionWithProvider cswp i) = None) ->
  lavasession.fetchEndpointFromConsumerSessionsWithProviderWithRetry
    fetchEndpointConnectionFromConsumerSessionWithProvider csm cswp sessionEpoch
  = (None, Some FailedToConnectToEndPointForDataReliabilityError, csm).
Proof.
  intros Hskip.
  unfold lavasession.fetchEndpointFromConsumerSessionsWithProviderWithRetry.
  replace lavasession.MaxConsecutiveConnectionAttempts
    with (lavasession.MaxConsecutiveConnectionAttempts + 0)%nat at 1 by lia.
  rewrite connectionAttempts_skip by (intros i Hi; apply Hskip; lia).
  reflexivity.
Qed.

(** X24.  A data-reliability session is handed out only for an index of the
    pairing, for the address under that index, which is not the provider
    audited and has its entry in the pairing, and only in the epoch the
    caller asked for; on the way the manager can only have blocked
    providers. *)
Theorem GetDataReliabilitySession_success
    (csm csm' : lavasession.ConsumerSessionManager) (originalProviderAddress : string)
    (index sessionEpoch : Z) (session : option lavasession.SingleConsumerSession)
    (providerAddress : string) (epoch : Z) :
  lavasession.GetDataReliabilitySession verifyDataReliabilitySessionWasNotAlreadyCreated
    fetchEndpointConnectionFromConsumerSessionWithProvider
    getDataReliabilitySingleConsumerSession csm originalProviderAddress index sessionEpoch
  = (session, providerAddress, epoch, None, csm') ->
  is_Some session /\
  U64.of_int64 index < lavasession.pairingAddressesLength csm /\
  providerAddress
  = default EmptyString (lavasession.pairingAddresses csm !! U64.of_int64 index) /\
  providerAddress <> originalProviderAddress /\
  is_Some (lavasession.pairing csm !! providerAddress) /\
  sessionEpoch = lavasession.currentEpoch csm /\
  Invariant.blockedFrom csm csm'.
Proof.
  unfold lavasession.GetDataReliabilitySession, lavasession.getDataReliabilityProviderIndex,
    lavasession.GetAtomicPairingAddressesLength, lavasession.atomicReadCurrentEpoch.
  destruct (Z.leb_spec (lavasession.pairingAddressesLength csm) (U64.of_int64 index))
    as [Hle | Hlt]; [discriminate|].
  case_bool_decide as Horiginal; [discriminate|].
  case_bool_decide as Hepoch; [discriminate|].
  destruct (lavasession.pairing csm !! _) as [cswp|] eqn:Hentry; [|discriminate].
  assert (Hreturn : forall c cs a e p s a' e' c',
            lavasession.returnDataReliabilitySession c cs a e p = (s, a', e', None, c') ->
            is_Some s /\ a' = a /\ c' = c).
  { intros c cs a e p s a' e' c'. unfold lavasession.returnDataReliabilitySession.
    destruct cs; [|discriminate]. intros [= <- <- _ <-]. eauto. }
  destruct (verifyDataReliabilitySessionWasNotAlreadyCreated cswp)
    as [[consumerSession pairingEpoch] err1].
  destruct (Is NoDataReliabilitySessionWasCreatedError err1).
  - unfold lavasession.fetchEndpointFromConsumerSessionsWithProviderWithRetry.
    pose proof (connectionAttempts_blockedFrom cswp (lavasession.currentEpoch csm)
                  lavasession.MaxConsecutiveConnectionAttempts 0%nat csm) as Hblocked.
    destruct (lavasession.connectionAttempts _ cswp _ _ _ csm) as [[|connected endpoint] csm1];
      [discriminate|].
    destruct (negb connected); [discriminate|].
    destruct (getDataReliabilitySingleConsumerSession cswp endpoint)
      as [[consumerSession1 pairingEpoch1] [e3|]]; [discriminate|].
    intros H. apply Hreturn in H as (Hs & -> & ->).
    rewrite Hentry.
    split; [exact Hs|]. split; [exact Hlt|]. split; [reflexivity|].
    split; [exact Horiginal|]. split; [eauto|]. split; [exact Hepoch|]. exact Hblocked.
  - destruct err1 as [e1|]; [discriminate|].
    intros H. apply Hreturn in H as (Hs & -> & ->).
    rewrite Hentry.
    split; [exact Hs|]. split; [exact Hlt|]. split; [reflexivity|].
    split; [exact Horiginal|]. split; [eauto|]. split; [exact Hepoch|].
    apply blockedFrom_refl.
Qed.

(** X25.  What [GetDataReliabilitySession] refuses before it looks at the
    provider: an index beyond the pairing, which every negative index is
    once converted to an unsigned number; the index of the provider audited;
    a session epoch other than the current one.  The first two return the
    epoch 0, the third the current epoch, and none touches the manager. *)
Theorem GetDataReliabilitySession_refusals (csm : lavasession.ConsumerSessionManager)
    (originalProviderAddress : string) (index sessionEpoch : Z) :
  let result :=
    lavasession.GetDataReliabilitySession verifyDataReliabilitySessionWasNotAlreadyCreated
      fetchEndpointConnectionFromConsumerSessionWithProvider
      getDataReliabilitySingleConsumerSession csm originalProviderAddress index
      sessionEpoch in
  let providerAddress :=
    default EmptyString (lavasession.pairingAddresses csm !! U64.of_int64 index) in
  (lavasession.pairingAddressesLength csm <= U64.of_int64 index ->
   result = (None, EmptyString, 0, Some DataReliabilityIndexOutOfRangeError, csm)) /\
  (- 2 ^ 63 <= index < 0 -> lavasession.pairingAddressesLength csm <= 2 ^ 63 ->
   result = (None, EmptyString, 0, Some DataReliabilityIndexOutOfRangeError, csm)) /\
  (U64.of_int64 index < lavasession.pairingAddressesLength csm ->
   providerAddress = originalProviderAddress ->
   result
   = (None, EmptyString, 0, Some DataReliabilityIndexRequestedIsOriginalProviderError,
      csm)) /\
  (U64.of_int64 index < lavasession.pairingAddressesLength csm ->
   providerAddress <> originalProviderAddress ->
   sessionEpoch <> lavasession.currentEpoch csm ->
   result
   = (None, EmptyString, lavasession.currentEpoch csm,
      Some DataReliabilityEpochMismatchError, csm)).
Proof.
  intros result providerAddress. subst result providerAddress.
  unfold lavasession.GetDataReliabilitySession, lavasession.getDataReliabilityProviderIndex,
    lavasession.GetAtomicPairingAddressesLength, lavasession.atomicReadCurrentEpoch.
  assert (Hout : lavasession.pairingAddressesLength csm <= U64.of_int64 index ->
                 (lavasession.pairingAddressesLength csm <=? U64.of_int64 index) = true)
    by (intros H; now apply Z.leb_le).
  split; [|split; [|split]].
  - intros Hle. now rewrite Hout.
  - intros Hneg Hlen. rewrite Hout; [reflexivity|].
    unfold U64.of_int64, U64.wrap, U64.modulus.
    replace index with (index + 2 ^ 64 - 1 * 2 ^ 64) by lia.
    rewrite Zminus_mod, Z_mod_mult, Z.sub_0_r, Z.mod_mod by lia.
    rewrite Z.mod_small by lia. lia.
  - intros Hlt Horiginal.
    destruct (Z.leb_spec (lavasession.pairingAddressesLength csm) (U64.of_int64 index));
      [lia|].
    now rewrite bool_decide_eq_true_2.
  - intros Hlt Hother Hepoch.
    destruct (Z.leb_spec (lavasession.pairingAddressesLength csm) (U64.of_int64 index));
      [lia|].
    rewrite bool_decide_eq_false_2 by exact Hother.
    now rewrite bool_decide_eq_true_2.
Qed.

End DataReliabilityGeneral.

Lemma fetchEndpointFromConsumerSessionsWithProviderWithRetry_first_outcome_witness :
  (2 < lavasession.MaxConsecutiveConnectionAttempts)%nat /\
  lavasession.fetchEndpointFromConsumerSessionsWithProviderWithRetry
    Scenario.thirdAttemptConnects Scenario.csm7 (Scenario.provider "B" 10 7) 7
  = (Some Scenario.endpointB, None, Scenario.csm7).
Proof.
  assert (Hk : (2 < lavasession.MaxConsecutiveConnectionAttempts)%nat)
    by (unfold lavasession.MaxConsecutiveConnectionAttempts; lia).
  split; [exact Hk|].
  assert (Hskip : forall i, (i < 2)%nat ->
            fst (fst (fst (Scenario.thirdAttemptConnects (Scenario.provider "B" 10 7) i)))
            = false /\
            snd (Scenario.thirdAttemptConnects (Scenario.provider "B" 10 7) i) = None).
  { intros i Hi. unfold Scenario.thirdAttemptConnects.
    destruct (Nat.ltb_spec i 2); [now split | lia]. }
  pose proof (fetchEndpointFromConsumerSessionsWithProviderWithRetry_first_outcome
                Scenario.thirdAttemptConnects Scenario.csm7 (Scenario.provider "B" 10 7)
                7 2%nat true (Some Scenario.endpointB) "B"%string None Hk Hskip eq_refl)
    as H.
  cbv zeta in H. destruct H as [H _]. now apply H.
Defined.

Lemma fetchEndpointFromConsumerSessionsWithProviderWithRetry_gives_up_witness :
  let neverConnects :=
    fun (_ : lavasession.ConsumerSessionsWithProvider) (_ : nat) =>
      (false, @None lavasession.Endpoint, "B"%string, @None Error) in
  lavasession.fetchEndpointFromConsumerSessionsWithProviderWithRetry neverConnects
    Scenario.csm7 (Scenario.provider "B" 10 7) 7
  = (None, Some FailedToConnectToEndPointForDataReliabilityError, Scenario.csm7).
Proof.
  intros neverConnects.
  apply (fetchEndpointFromConsumerSessionsWithProviderWithRetry_gives_up neverConnects
           Scenario.csm7 (Scenario.provider "B" 10 7) 7).
  intros i Hi. now split.
Defined.

Lemma GetDataReliabilitySession_success_witness :
  let verify := fun _ : lavasession.ConsumerSessionsWithProvider =>
                  (@None lavasession.SingleConsumerSession, 0,
                   Some NoDataReliabilitySessionWasCreatedError) in
  let single := fun (cswp : lavasession.ConsumerSessionsWithProvider)
                    (_ : option lavasession.Endpoint) =>
                  (Some Scenario.auditSession, lavasession.PairingEpoch cswp,
                   @None Error) in
  lavasession.GetDataReliabilitySession verify Scenario.thirdAttemptConnects single
    Scenario.csm7 "B" 0 7
  = (Some (lavasession.set_RelayNum Scenario.auditSession 1), "A"%string, 7, None,
     Scenario.csm7) /\
  "A"%string <> "B"%string /\
  is_Some (lavasession.pairing Scenario.csm7 !! "A"%string).
Proof.
  intros verify single.
  assert (Hget :
    lavasession.GetDataReliabilitySession verify Scenario.thirdAttemptConnects single
      Scenario.csm7 "B" 0 7
    = (Some (lavasession.set_RelayNum Scenario.auditSession 1), "A"%string, 7, None,
       Scenario.csm7)) by (vm_compute; reflexivity).
  split; [exact Hget|].
  destruct (GetDataReliabilitySession_success verify Scenario.thirdAttemptConnects single
              Scenario.csm7 Scenario.csm7 "B" 0 7 _ _ _ Hget)
    as (_ & _ & _ & Hother & Hentry & _).
  split; [exact Hother | exact Hentry].
Defined.

(** ** The lock of a session *)

Section LockFacts.

Variable decreaseUsedComputeUnits :
  lavasession.ConsumerSessionsWithProvider -> Z ->
  option Error * lavasession.ConsumerSessionsWithProvider.

Variable CalculateQoS :
  lavasession.QoSInfo -> Z -> Z -> Z -> Z -> Z -> Z -> lavasession.QoSInfo.

(** X26.  None of the six functions that release a session acts on a session
    whose lock is not held: each returns LockMisUseDetected and leaves the
    session, its provider entry and the manager as they are. *)
Theorem release_needs_the_lock (csm : lavasession.ConsumerSessionManager)
    (parent : lavasession.ConsumerSessionsWithProvider)
    (cs : lavasession.SingleConsumerSession) (errorReceived : RelayError)
    (epoch latestServicedBlock specComputeUnits currentLatency expectedLatency expectedBH
       numOfProviders providersCount : Z) :
  lavasession.locked cs = false ->
  lavasession.OnSessionUnUsed decreaseUsedComputeUnits parent cs
  = (Some LockMisUseDetectedError, parent, cs) /\
  lavasession.OnSessionFailure decreaseUsedComputeUnits csm parent cs errorReceived
  = (Some LockMisUseDetectedError, csm, parent, cs) /\
  lavasession.OnDataReliabilitySessionFailure csm parent cs errorReceived
  = (Some LockMisUseDetectedError, csm, cs) /\
  lavasession.OnSessionDone CalculateQoS cs epoch latestServicedBlock specComputeUnits
    currentLatency expectedLatency expectedBH numOfProviders providersCount
  = (Some LockMisUseDetectedError, cs) /\
  lavasession.OnDataReliabilitySessionDone CalculateQoS cs latestServicedBlock
    specComputeUnits currentLatency expectedLatency expectedBH numOfProviders
    providersCount
  = (Some LockMisUseDetectedError, cs) /\
  lavasession.OnSessionDoneIncreaseCUOnly cs = (Some LockMisUseDetectedError, cs).
Proof.
  intros Hfree.
  unfold lavasession.OnSessionUnUsed, lavasession.OnSessionFailure,
    lavasession.OnDataReliabilitySessionFailure, lavasession.OnSessionDone,
    lavasession.OnDataReliabilitySessionDone, lavasession.OnSessionDoneIncreaseCUOnly,
    lavasession.verifyLock.
  rewrite Hfree. repeat split; reflexivity.
Qed.

(** X27.  Every release of a locked session ends with the lock free and, in
    the four functions of ordinary sessions, with no compute units of a relay
    in flight - except that the two failure functions return a session that
    is block listed as they got it, lock held. *)
Theorem release_frees_the_lock (csm : lavasession.ConsumerSessionManager)
    (parent : lavasession.ConsumerSessionsWithProvider)
    (cs : lavasession.SingleConsumerSession) (errorReceived : RelayError)
    (epoch latestServicedBlock specComputeUnits currentLatency expectedLatency expectedBH
       numOfProviders providersCount : Z) :
  lavasession.locked cs = true ->
  let unused := snd (lavasession.OnSessionUnUsed decreaseUsedComputeUnits parent cs) in
  let done :=
    snd (lavasession.OnSessionDone CalculateQoS cs epoch latestServicedBlock
           specComputeUnits currentLatency expectedLatency expectedBH numOfProviders
           providersCount) in
  let increased := snd (lavasession.OnSessionDoneIncreaseCUOnly cs) in
  let audited :=
    snd (lavasession.OnDataReliabilitySessionDone CalculateQoS cs latestServicedBlock
           specComputeUnits currentLatency expectedLatency expectedBH numOfProviders
           providersCount) in
  let failed :=
    snd (lavasession.OnSessionFailure decreaseUsedComputeUnits csm parent cs
           errorReceived) in
  let auditFailed :=
    snd (lavasession.OnDataReliabilitySessionFailure csm parent cs errorReceived) in
  (lavasession.locked unused = false /\ lavasession.LatestRelayCu unused = 0) /\
  (lavasession.locked done = false /\ lavasession.LatestRelayCu done = 0) /\
  (lavasession.locked increased = false /\ lavasession.LatestRelayCu increased = 0) /\
  lavasession.locked audited = false /\
  (lavasession.BlockListed cs = false ->
   lavasession.locked failed = false /\ lavasession.LatestRelayCu failed = 0 /\
   lavasession.locked auditFailed = false) /\
  (lavasession.BlockListed cs = true -> failed = cs /\ auditFailed = cs).
Proof.
  intros Hlocked unused done increased audited failed auditFailed.
  subst unused done increased audited failed auditFailed.
  unfold lavasession.OnSessionUnUsed, lavasession.OnSessionFailure,
    lavasession.OnDataReliabilitySessionFailure, lavasession.OnSessionDone,
    lavasession.OnDataReliabilitySessionDone, lavasession.OnSessionDoneIncreaseCUOnly,
    lavasession.verifyLock.
  rewrite Hlocked.
  split.
  { destruct (decreaseUsedComputeUnits parent _); now split. }
  split; [now split|]. split; [now split|]. split; [reflexivity|].
  split.
  - intros Hfree. rewrite Hfree. cbv zeta.
    unfold lavasession.getPublicLavaAddressAndPairingEpoch.
    split; [|split].
    + repeat match goal with
             | |- context [let '(_, _) := ?p in _] =>
                 lazymatch p with
                 | (_, _) => fail
                 | _ => destruct p
                 end
             | |- context [match ?o with Some _ => _ | None => _ end] => destruct o
             | |- context [if ?b then _ else _] => destruct b
             end; reflexivity.
    + repeat match goal with
             | |- context [let '(_, _) := ?p in _] =>
                 lazymatch p with
                 | (_, _) => fail
                 | _ => destruct p
                 end
             | |- context [match ?o with Some _ => _ | None => _ end] => destruct o
             | |- context [if ?b then _ else _] => destruct b
             end; reflexivity.
    + repeat match goal with
             | |- context [let '(_, _) := ?p in _] =>
                 lazymatch p with
                 | (_, _) => fail
                 | _ => destruct p
                 end
             | |- context [if ?b then _ else _] => destruct b
             end; reflexivity.
  - intros Hlisted. rewrite Hlisted. now split.
Qed.

(** X28.  What [OnDataReliabilitySessionFailure] does to a locked session
    that is not block listed.  It never fails.  It counts the relay and the
    failure, takes back the relay number, and leaves the compute units
    alone.  The session becomes block listed after more than
    [MaximumNumberOfFailuresAllowedPerConsumerSession] failures in a row or
    when the error is the out-of-sync error itself; unlike in
    [OnSessionFailure], that alone does not block the provider.  The
    provider is blocked exactly when the error asks for it, and reported
    when the error asks for a report. *)
Theorem OnDataReliabilitySessionFailure_effects
    (csm : lavasession.ConsumerSessionManager)
    (parent : lavasession.ConsumerSessionsWithProvider)
    (cs : lavasession.SingleConsumerSession) (errorReceived : RelayError) :
  lavasession.locked cs = true -> lavasession.BlockListed cs = false ->
  let result := lavasession.OnDataReliabilitySessionFailure csm parent cs errorReceived in
  let cs' := snd result in
  let csm' := snd (fst result) in
  fst (fst result) = None /\
  lavasession.TotalRelays (lavasession.QoS cs')
  = U64.add (lavasession.TotalRelays (lavasession.QoS cs)) 1 /\
  lavasession.ConsecutiveNumberOfFailures cs'
  = U64.add (lavasession.ConsecutiveNumberOfFailures cs) 1 /\
  lavasession.RelayNum cs' = U64.sub (lavasession.RelayNum cs) 1 /\
  lavasession.CuSum cs' = lavasession.CuSum cs /\
  lavasession.LatestRelayCu cs' = lavasession.LatestRelayCu cs /\
  lavasession.BlockListed cs'
  = (lavasession.MaximumNumberOfFailuresAllowedPerConsumerSession
       <? U64.add (lavasession.ConsecutiveNumberOfFailures cs) 1)
    || isSessionOutOfSyncError errorReceived /\
  csm'
  = if isReportAndBlockProviderError errorReceived || isBlockProviderError errorReceived
    then snd (lavasession.blockProvider csm (lavasession.PublicLavaAddress parent)
                (isReportAndBlockProviderError errorReceived)
                (lavasession.PairingEpoch parent))
    else csm.
Proof.
  intros Hlocked Hfree result cs' csm'. subst cs' csm' result.
  unfold lavasession.OnDataReliabilitySessionFailure, lavasession.verifyLock.
  rewrite Hlocked, Hfree. cbv zeta.
  unfold lavasession.getPublicLavaAddressAndPairingEpoch.
  cbn [lavasession.ConsecutiveNumberOfFailures lavasession.set_RelayNum
       lavasession.set_ConsecutiveNumberOfFailures lavasession.set_QoS
       lavasession.RelayNum].
  destruct (lavasession.MaximumNumberOfFailuresAllowedPerConsumerSession
              <? U64.add (lavasession.ConsecutiveNumberOfFailures cs) 1);
    destruct (isSessionOutOfSyncError errorReceived);
    destruct (isReportAndBlockProviderError errorReceived);
    destruct (isBlockProviderError errorReceived); cbn [orb].
  all: try (repeat split; solve [reflexivity | exact Hfree]).
  all: match goal with
       | |- context [lavasession.blockProvider ?c ?a ?r ?e] =>
           destruct (blockProvider_error c a r e) as [He | He];
           destruct (lavasession.blockProvider c a r e) as [err1 csm1];
           simpl in He; subst err1; cbn
       end.
  all: repeat split; solve [reflexivity | exact Hfree].
Qed.

End LockFacts.

Lemma release_needs_the_lock_witness :
  let free := lavasession.Unlock (Scenario.session 10 0 false) in
  lavasession.locked free = false /\
  lavasession.OnSessionDoneIncreaseCUOnly free = (Some LockMisUseDetectedError, free).
Proof.
  intros free. split; [reflexivity|].
  apply (release_needs_the_lock lavasession.decreaseUsedComputeUnits_spec
           (fun q _ _ _ _ _ _ => q) Scenario.csm7 (Scenario.provider "B" 10 7) free
           Scenario.deadlineExceeded 7 100 10 5 8 100 3 3 eq_refl).
Defined.

Lemma release_frees_the_lock_witness :
  let cs := Scenario.session 10 0 false in
  lavasession.locked cs = true /\
  lavasession.locked
    (snd (lavasession.OnSessionDone (fun q _ _ _ _ _ _ => q) cs 7 100 10 5 8 100 3 3))
  = false.
Proof.
  intros cs. split; [reflexivity|].
  pose proof (release_frees_the_lock lavasession.decreaseUsedComputeUnits_spec
                (fun q _ _ _ _ _ _ => q) Scenario.csm7 (Scenario.provider "B" 10 7) cs
                Scenario.deadlineExceeded 7 100 10 5 8 100 3 3 eq_refl) as H.
  cbv zeta in H. destruct H as (_ & [H _] & _). exact H.
Defined.

Lemma OnDataReliabilitySessionFailure_effects_witness :
  let acquired := lavasession.set_RelayNum Scenario.auditSession 1 in
  let result :=
    lavasession.OnDataReliabilitySessionFailure Scenario.csm7 (Scenario.provider "A" 0 7)
      acquired Scenario.deadlineExceeded in
  lavasession.locked acquired = true /\ lavasession.BlockListed acquired = false /\
  fst (fst result) = None /\
  lavasession.ConsecutiveNumberOfFailures (snd result) = 1 /\
  snd (fst result) = Scenario.csm7.
Proof.
  intros acquired result.
  pose proof (OnDataReliabilitySessionFailure_effects Scenario.csm7
                (Scenario.provider "A" 0 7) acquired Scenario.deadlineExceeded
                eq_refl eq_refl) as H.
  cbv zeta in H. destruct H as (Herr & _ & Hfail & _ & _ & _ & _ & Hcsm).
  split; [reflexivity|]. split; [reflexivity|].
  split; [exact Herr|]. split; [exact Hfail | exact Hcsm].
Defined.

(** ** The compute units of a client *)

Section ClientLimitsFacts.

Variable Coin : Type.
Variable IsGTE : Coin -> Coin -> bool.

Lemma allowedForStake_reached (stake : Coin)
    (reached rest : list (pairingkeeper.StakeToMaxCU Coin)) (allowedCU : Z) :
  Forall (fun stakeToCU =>
            IsGTE stake (pairingkeeper.StakeThreshold Coin stakeToCU) = true) reached ->
  pairingkeeper.allowedForStake Coin IsGTE stake (reached ++ rest) allowedCU
  = pairingkeeper.allowedForStake Coin IsGTE stake rest
      (default allowedCU (pairingkeeper.MaxComputeUnits Coin <$> last reached)).
Proof.
  intros Hreached. revert allowedCU.
  induction Hreached as [|stakeToCU reached Hhead _ IH]; intros allowedCU; [reflexivity|].
  cbn [app pairingkeeper.allowedForStake]. rewrite Hhead, IH.
  rewrite last_cons. now destruct (last reached).
Qed.

(** X29.  [ClientMaxCU] reads the list of thresholds up to the first one that
    the stake does not reach: the compute units allowed are those of the last
    threshold before it (none when it is the first), divided by the number of
    providers to pair, and the thresholds after it are never looked at, even
    those that the stake reaches. *)
Theorem ClientMaxCU_stops_at_first_unmet_threshold (stake : Coin)
    (reached rest : list (pairingkeeper.StakeToMaxCU Coin))
    (unmet : pairingkeeper.StakeToMaxCU Coin) (ServicersToPairCount : Z) :
  Forall (fun stakeToCU =>
            IsGTE stake (pairingkeeper.StakeThreshold Coin stakeToCU) = true) reached ->
  IsGTE stake (pairingkeeper.StakeThreshold Coin unmet) = false ->
  ServicersToPairCount <> 0 ->
  pairingkeeper.ClientMaxCU Coin IsGTE (reached ++ unmet :: rest) ServicersToPairCount stake
  = Some (default 0 (pairingkeeper.MaxComputeUnits Coin <$> last reached)
          / ServicersToPairCount) /\
  pairingkeeper.ClientMaxCU Coin IsGTE (reached ++ unmet :: rest) ServicersToPairCount stake
  = pairingkeeper.ClientMaxCU Coin IsGTE reached ServicersToPairCount stake.
Proof.
  intros Hreached Hunmet Hcount. unfold pairingkeeper.ClientMaxCU.
  rewrite (proj2 (Z.eqb_neq _ _) Hcount).
  rewrite allowedForStake_reached by exact Hreached.
  cbn [pairingkeeper.allowedForStake]. rewrite Hunmet.
  split; [reflexivity|].
  rewrite <- (app_nil_r reached) at 2.
  now rewrite allowedForStake_reached by exact Hreached.
Qed.

Variable Int64 : Coin -> option Z.

(** X30.  Whenever the compute units of the client's threshold are fewer
    than the providers to pair, the integer division leaves 0 and
    [EnforceClientCUsUsageInEpoch] accepts no usage, not even none: it
    returns the error that no maximum was found, with the amount of the
    stake, or panics when that amount does not fit an [int64].  With no
    provider to pair the division panics. *)
Theorem EnforceClientCUsUsageInEpoch_refuses_small_limits (stake : Coin)
    (StakeToMaxCUList : list (pairingkeeper.StakeToMaxCU Coin))
    (ServicersToPairCount totalCU : Z) :
  0 <= pairingkeeper.allowedForStake Coin IsGTE stake StakeToMaxCUList 0
    < ServicersToPairCount ->
  let result :=
    pairingkeeper.EnforceClientCUsUsageInEpoch Coin IsGTE Int64 StakeToMaxCUList
      ServicersToPairCount stake totalCU in
  result
  = match Int64 stake with
    | Some stakeAmount => Some (Some (pairingkeeper.MaxCUNotFound stakeAmount))
    | None => None
    end /\
  result <> Some None /\
  pairingkeeper.EnforceClientCUsUsageInEpoch Coin IsGTE Int64 StakeToMaxCUList 0 stake
    totalCU
  = None.
Proof.
  intros Hsmall result. subst result.
  unfold pairingkeeper.EnforceClientCUsUsageInEpoch, pairingkeeper.ClientMaxCU.
  destruct (Z.eqb_spec ServicersToPairCount 0) as [Hzero | _]; [lia|].
  rewrite Z.div_small by exact Hsmall. cbn [Z.eqb].
  split; [reflexivity|]. split; [|reflexivity].
  destruct (Int64 stake); discriminate.
Qed.

End ClientLimitsFacts.

Lemma ClientMaxCU_stops_at_first_unmet_threshold_witness :
  let threshold (stake cu : Z) :=
    {| pairingkeeper.StakeThreshold := stake; pairingkeeper.MaxComputeUnits := cu |} in
  pairingkeeper.ClientMaxCU Z Z.geb
    ([threshold 10 500] ++ threshold 1000 5000 :: [threshold 20 900]) 5 50
  = Some 100.
Proof.
  intros threshold.
  apply (proj1 (ClientMaxCU_stops_at_first_unmet_threshold Z Z.geb 50
                  [threshold 10 500] [threshold 20 900] (threshold 1000 5000) 5
                  ltac:(repeat constructor) eq_refl ltac:(discriminate))).
Defined.

Lemma EnforceClientCUsUsageInEpoch_refuses_small_limits_witness :
  let threshold (stake cu : Z) :=
    {| pairingkeeper.StakeThreshold := stake; pairingkeeper.MaxComputeUnits := cu |} in
  let Int64 (amount : Z) :=
    if (- 2 ^ 63 <=? amount) && (amount <? 2 ^ 63) then Some amount else None in
  0 <= pairingkeeper.allowedForStake Z Z.geb 50 [threshold 10 4] 0 < 5 /\
  pairingkeeper.EnforceClientCUsUsageInEpoch Z Z.geb Int64 [threshold 10 4] 5 50 0
  = Some (Some (pairingkeeper.MaxCUNotFound 50)) /\
  0 <= pairingkeeper.allowedForStake Z Z.geb (2 ^ 70) [threshold 10 4] 0 < 5 /\
  pairingkeeper.EnforceClientCUsUsageInEpoch Z Z.geb Int64 [threshold 10 4] 5 (2 ^ 70) 0
  = None.
Proof.
  intros threshold Int64.
  assert (Hsmall : 0 <= pairingkeeper.allowedForStake Z Z.geb 50 [threshold 10 4] 0 < 5)
    by (simpl; lia).
  assert (Hlarge :
    0 <= pairingkeeper.allowedForStake Z Z.geb (2 ^ 70) [threshold 10 4] 0 < 5)
    by (simpl; lia).
  split; [exact Hsmall|].
  split; [exact (proj1 (EnforceClientCUsUsageInEpoch_refuses_small_limits Z Z.geb Int64 50
                          [threshold 10 4] 5 0 Hsmall))|].
  split; [exact Hlarge|].
  exact (proj1 (EnforceClientCUsUsageInEpoch_refuses_small_limits Z Z.geb Int64 (2 ^ 70)
                  [threshold 10 4] 5 0 Hlarge)).
Defined.
